(** * Blogicum: the visibility, ownership and pagination rules of the views

    A shallow embedding of [blog/views.py], [blog/forms.py] and
    [blog/mixins.py].  The views are Django class-based views; what they
    inherit from the framework (generic views, access mixins, the paginator,
    model forms) is embedded next to them, following the framework's own
    control flow, so that a view reads here as it reads in the source.

    The database is a record of tables, each a finite map from primary key to
    row.  A query set is the list of rows it evaluates to.  Instants are
    integers (seconds), the current instant [now] is an argument of the views
    that read the clock. *)

From Stdlib Require Import Ascii String.
From stdpp Require Import base numbers strings list gmap sorting.

Local Open Scope Z_scope.

(** ** Exceptions and the error monad of a view body *)

(** The exceptions the views and the framework code under them raise. *)
Inductive exn :=
  | Http404
  | PermissionDenied
  | DoesNotExist
  | MultipleObjectsReturned
  | PageNotAnInteger
  | EmptyPage
  | ValueError
  | TypeError.

Inductive result (A : Type) :=
  | Ok (a : A)
  | Raise (e : exn).
Arguments Ok {A} a.
Arguments Raise {A} e.

Global Instance result_ret : MRet result := λ A a, Ok a.
Global Instance result_bind : MBind result := λ A B f m,
  match m with
  | Ok a => f a
  | Raise e => Raise e
  end.

Global Instance exn_eq_dec : EqDecision exn.
Proof. solve_decision. Defined.

(** ** Data model *)

(** Modelled from the spec: [blog/models.py] is not part of the sources; the
    rows below carry the fields that section 3 of the specification lists and
    that the views and forms name.  The user row is the one of Django's
    [AbstractUser], restricted to the columns the profile form can see plus
    the flags it must not touch. *)
Module User.
Record t := mk {
  username : string;
  first_name : string;
  last_name : string;
  email : string;
  password : string;
  is_staff : bool;
  is_active : bool;
  is_superuser : bool
}.
End User.

Module Category.
Record t := mk {
  title : string;
  slug : string;
  is_published : bool
}.
End Category.

Module Location.
Record t := mk { name : string }.
End Location.

Module Post.
Record t := mk {
  title : string;
  text : string;
  pub_date : Z;
  is_published : bool;
  author : nat;
  category : option nat;
  location : option nat;
  image : string;
  created_at : Z
}.
End Post.

Module Comment.
Record t := mk {
  text : string;
  author : nat;
  post : nat;
  created_at : Z
}.
End Comment.

Record Db := mkDb {
  users : gmap nat User.t;
  categories : gmap nat Category.t;
  locations : gmap nat Location.t;
  posts : gmap nat Post.t;
  comments : gmap nat Comment.t
}.

(** ** Query sets *)

(** A row of a [Post] query set: the primary key, the columns, and the
    [comment_count] attribute, present once [annotate] has run. *)
Record PostRow := mkPostRow {
  pk : nat;
  post : Post.t;
  comment_count : option nat
}.

Module QuerySet.

(** [Post.objects] *)
Definition Post_objects (db : Db) : list PostRow :=
  (λ kp, mkPostRow kp.1 kp.2 None) <$> map_to_list (posts db).

(** [select_related(...)] changes how rows are fetched, not which rows. *)
Definition select_related (qs : list PostRow) : list PostRow := qs.

(** [Count('comments')] for one post. *)
Definition Count_comments (db : Db) (post_pk : nat) : nat :=
  length (filter (λ kc, Comment.post kc.2 = post_pk) (map_to_list (comments db))).

(** [annotate(comment_count=Count('comments'))] *)
Definition annotate_comment_count (db : Db) (qs : list PostRow) : list PostRow :=
  (λ r, mkPostRow (pk r) (post r) (Some (Count_comments db (pk r)))) <$> qs.

(** [order_by('-pub_date')]: the relation "not older than".  The database
    promises no order among rows of equal date; the sort below keeps them in
    the order it meets them. *)
Definition newer_eq (r1 r2 : PostRow) : Prop :=
  Post.pub_date (post r2) ≤ Post.pub_date (post r1).

Global Instance newer_eq_dec r1 r2 : Decision (newer_eq r1 r2).
Proof. unfold newer_eq. apply _. Defined.

Definition order_by_pub_date_desc (qs : list PostRow) : list PostRow :=
  merge_sort newer_eq qs.

(** The lookup [category__is_published=True] joins the category table: a
    post without category, or whose category row is missing, has no match. *)
Definition category__is_published (db : Db) (p : Post.t) : bool :=
  match Post.category p with
  | Some c =>
      match categories db !! c with
      | Some cat => Category.is_published cat
      | None => false
      end
  | None => false
  end.

(** [get()] on an evaluated query set. *)
Definition get {A} (qs : list A) : result A :=
  match qs with
  | [] => Raise DoesNotExist
  | [x] => Ok x
  | _ => Raise MultipleObjectsReturned
  end.

(** [get_object_or_404]: [DoesNotExist] becomes [Http404]. *)
Definition get_object_or_404 {A} (qs : list A) : result A :=
  match get qs with
  | Raise DoesNotExist => Raise Http404
  | r => r
  end.

(** [Model.objects.filter(pk=pk).get()] on a table. *)
Definition get_pk {A} (table : gmap nat A) (k : nat) : result A :=
  match table !! k with
  | Some row => Ok row
  | None => Raise DoesNotExist
  end.

End QuerySet.
Import QuerySet.

(** ** Python values and built-ins the views rely on *)

(** Text that reaches the views (query-string and form values) is modelled as
    ASCII; [py_isspace] and [py_isdigit] are Python's [str.isspace] and
    [str.isdigit] on that range. *)
Module Py.

Inductive value :=
  | None_
  | Str (s : string)
  | Int (n : Z).

Global Instance value_eq_dec : EqDecision value.
Proof. solve_decision. Defined.

(** Truth value, as used by [or]. *)
Definition truthy (v : value) : bool :=
  match v with
  | None_ => false
  | Str s => negb (bool_decide (s = ""))
  | Int n => negb (bool_decide (n = 0))
  end.

Definition or_ (a b : value) : value := if truthy a then a else b.

Definition of_option (o : option string) : value :=
  match o with
  | Some s => Str s
  | None => None_
  end.

Definition code (c : ascii) : Z := Z.of_N (Ascii.N_of_ascii c).

Definition is_ascii (c : ascii) : bool := bool_decide (code c < 128).

Definition py_isspace (c : ascii) : bool :=
  bool_decide (9 ≤ code c ≤ 13) || bool_decide (28 ≤ code c ≤ 32).

Definition py_isdigit (c : ascii) : bool := bool_decide (48 ≤ code c ≤ 57).

Definition digit_value (c : ascii) : Z := code c - 48.

Fixpoint lstrip (s : list ascii) : list ascii :=
  match s with
  | c :: s' => if py_isspace c then lstrip s' else s
  | [] => []
  end.

(** [str.strip()] *)
Definition strip (s : list ascii) : list ascii :=
  reverse (lstrip (reverse (lstrip s))).

(** The digits of a decimal literal: digits, with single underscores
    allowed between two digits. [seen] tells whether the previous character
    was a digit; [n] counts the digits read. *)
Fixpoint int_digits (acc : Z) (n : nat) (seen : bool) (s : list ascii)
  : option (Z * nat) :=
  match s with
  | [] => if seen then Some (acc, n) else None
  | c :: s' =>
      if py_isdigit c then int_digits (10 * acc + digit_value c) (S n) true s'
      else if bool_decide (c = "_"%char) then
        (if seen then int_digits acc n false s' else None)
      else None
  end.

(** [sys.get_int_max_str_digits()], the default. *)
Definition int_max_str_digits : nat := 4300.

(** The white space [int()] skips around a number.  On ASCII text the
    parser sees the characters as they are and skips the white space of C
    only: tab to carriage return, and the space.  The separators 28 to 31,
    which [str.strip()] drops, stay and make the text invalid. *)
Definition int_isspace (c : ascii) : bool :=
  bool_decide (9 ≤ code c ≤ 13) || bool_decide (code c = 32).

Fixpoint int_lstrip (s : list ascii) : list ascii :=
  match s with
  | c :: s' => if int_isspace c then int_lstrip s' else s
  | [] => []
  end.

Definition int_strip (s : list ascii) : list ascii :=
  reverse (int_lstrip (reverse (int_lstrip s))).

(** [int(s)] for a string, base 10: surrounding white space is dropped, a
    sign is optional; [None] stands for [ValueError]. *)
Definition int_of_string (s : string) : option Z :=
  let body := int_strip (String.list_ascii_of_string s) in
  let '(sign, rest) :=
    match body with
    | "+"%char :: r => (1, r)
    | "-"%char :: r => (-1, r)
    | _ => (1, body)
    end in
  match int_digits 0 0 false rest with
  | Some (v, n) => if bool_decide (n ≤ int_max_str_digits)%nat then Some (sign * v) else None
  | None => None
  end.

(** [int(v)] *)
Definition int (v : value) : result Z :=
  match v with
  | None_ => Raise TypeError
  | Str s =>
      match int_of_string s with
      | Some n => Ok n
      | None => Raise ValueError
      end
  | Int n => Ok n
  end.

(** [l[bottom:top]] for [0 <= bottom], [0 <= top]. *)
Definition slice {A} (l : list A) (bottom top : Z) : list A :=
  take (Z.to_nat top - Z.to_nat bottom) (drop (Z.to_nat bottom) l).

(** *** [datetime] *)

Definition _is_leap (year : Z) : bool :=
  bool_decide (year mod 4 = 0)
  && (negb (bool_decide (year mod 100 = 0)) || bool_decide (year mod 400 = 0)).

Definition _days_before_year (year : Z) : Z :=
  let y := year - 1 in y * 365 + y / 4 - y / 100 + y / 400.

Definition _DAYS_IN_MONTH : list Z :=
  [-1; 31; 28; 31; 30; 31; 30; 31; 31; 30; 31; 30; 31].

Definition _days_in_month (year month : Z) : Z :=
  if bool_decide (month = 2) && _is_leap year then 29
  else default 0 (_DAYS_IN_MONTH !! Z.to_nat month).

Definition _DAYS_BEFORE_MONTH : list Z :=
  [-1; 0; 31; 59; 90; 120; 151; 181; 212; 243; 273; 304; 334].

Definition _days_before_month (year month : Z) : Z :=
  default 0 (_DAYS_BEFORE_MONTH !! Z.to_nat month)
  + (if bool_decide (2 < month) && _is_leap year then 1 else 0).

Definition _ymd2ord (year month day : Z) : Z :=
  _days_before_year year + _days_before_month year month + day.

(** [datetime.datetime(year, month, day)] at midnight, as seconds since
    1970-01-01 (ordinal 719163), the time zone taken as UTC; [None] stands
    for the [ValueError] of an out-of-range field. *)
Definition datetime (year month day : Z) : option Z :=
  if bool_decide (1 ≤ year ≤ 9999) && bool_decide (1 ≤ month ≤ 12)
     && bool_decide (1 ≤ day ≤ _days_in_month year month)
  then Some ((_ymd2ord year month day - 719163) * 86400)
  else None.

(** *** [_strptime] for the directives [%d], [%m], [%Y]

    [_strptime] turns the format into a regular expression with one named
    group per directive and matches it by backtracking.  A matcher here
    returns every way to match a prefix, in the order the backtracking
    engine tries them, each with the number the group stands for and the
    rest of the input; the first complete match is the engine's. *)
Definition matcher (A : Type) := list ascii → list (A * list ascii).

Definition m_ret {A} (a : A) : matcher A := λ s, [(a, s)].

Definition m_bind {A B} (m : matcher A) (f : A → matcher B) : matcher B :=
  λ s, m s ≫= (λ '(a, s'), f a s').

Definition m_alt {A} (m1 m2 : matcher A) : matcher A := λ s, m1 s ++ m2 s.

(** One character of the class [[lo-hi]], digits only. *)
Definition m_digit (lo hi : Z) : matcher Z := λ s,
  match s with
  | c :: s' =>
      if py_isdigit c && bool_decide (lo ≤ digit_value c ≤ hi)
      then [(digit_value c, s')] else []
  | [] => []
  end.

Definition m_char (c : ascii) : matcher unit := λ s,
  match s with
  | c' :: s' => if bool_decide (c' = c) then [((), s')] else []
  | [] => []
  end.

Definition m_two (hi_lo hi_hi lo_lo lo_hi : Z) : matcher Z :=
  m_bind (m_digit hi_lo hi_hi) (λ a,
  m_bind (m_digit lo_lo lo_hi) (λ b, m_ret (10 * a + b))).

(** [(?P<d>3[0-1]|[1-2]\d|0[1-9]|[1-9]| [1-9])] *)
Definition re_d : matcher Z :=
  m_alt (m_two 3 3 0 1)
 (m_alt (m_two 1 2 0 9)
 (m_alt (m_two 0 0 1 9)
 (m_alt (m_digit 1 9)
        (m_bind (m_char " ") (λ _, m_digit 1 9))))).

(** [(?P<m>1[0-2]|0[1-9]|[1-9])] *)
Definition re_m : matcher Z :=
  m_alt (m_two 1 1 0 2) (m_alt (m_two 0 0 1 9) (m_digit 1 9)).

(** [(?P<Y>\d\d\d\d)] *)
Definition re_Y : matcher Z :=
  m_bind (m_digit 0 9) (λ a, m_bind (m_digit 0 9) (λ b,
  m_bind (m_digit 0 9) (λ c, m_bind (m_digit 0 9) (λ d,
  m_ret (1000 * a + 100 * b + 10 * c + d))))).

(** The regular expression of the format ['%d.%m.%Y']. *)
Definition re_dmY : matcher (Z * Z * Z) :=
  m_bind re_d (λ d, m_bind (m_char ".") (λ _,
  m_bind re_m (λ m, m_bind (m_char ".") (λ _,
  m_bind re_Y (λ y, m_ret (d, m, y)))))).

(** [datetime.strptime(data_string, '%d.%m.%Y')]: the expression must match
    at the start, nothing may remain after the match, and the fields must
    name a real day. *)
Definition strptime_dmY (data_string : list ascii) : result Z :=
  match re_dmY data_string with
  | [] => Raise ValueError
  | ((d, m, y), rest) :: _ =>
      match rest with
      | [] =>
          match datetime y m d with
          | Some t => Ok t
          | None => Raise ValueError
          end
      | _ :: _ => Raise ValueError
      end
  end.

End Py.

(** ** [django.core.paginator] *)

Module Paginator.

Record t (A : Type) := mk {
  object_list : list A;
  per_page : Z;
  orphans : Z;
  allow_empty_first_page : bool
}.
Arguments mk {A} _ _ _ _.
Arguments object_list {A} _.
Arguments per_page {A} _.
Arguments orphans {A} _.
Arguments allow_empty_first_page {A} _.

(** [Paginator(object_list, per_page)] with the default keyword arguments. *)
Definition new {A} (object_list : list A) (per_page : Z) : t A :=
  mk object_list per_page 0 true.

Section paginator.
Context {A : Type}.
Implicit Type self : t A.

Definition count self : Z := Z.of_nat (length (object_list self)).

(** [ceil(hits / per_page)], for a positive [per_page]. *)
Definition num_pages self : Z :=
  if bool_decide (count self = 0) && negb (allow_empty_first_page self) then 0
  else
    let hits := Z.max 1 (count self - orphans self) in
    - ((- hits) / per_page self).

Definition validate_number self (number : Py.value) : result Z :=
  match Py.int number with
  | Raise _ => Raise PageNotAnInteger
  | Ok number =>
      if bool_decide (number < 1) then Raise EmptyPage
      else if bool_decide (number > num_pages self) then
        (if bool_decide (number = 1) && allow_empty_first_page self
         then Ok number else Raise EmptyPage)
      else Ok number
  end.

End paginator.

End Paginator.

Module Page.

Record t (A : Type) := mk {
  object_list : list A;
  number : Z;
  paginator : Paginator.t A
}.
Arguments mk {A} _ _ _.
Arguments object_list {A} _.
Arguments number {A} _.
Arguments paginator {A} _.

Definition has_next {A} (self : t A) : bool :=
  bool_decide (number self < Paginator.num_pages (paginator self)).

Definition has_previous {A} (self : t A) : bool :=
  bool_decide (number self > 1).

Definition has_other_pages {A} (self : t A) : bool :=
  has_previous self || has_next self.

End Page.

Section paginator_pages.
Context {A : Type}.
Implicit Type self : Paginator.t A.

(** [Paginator.page] *)
Definition Paginator_page self (number : Py.value) : result (Page.t A) :=
  number ← Paginator.validate_number self number;
  let bottom := (number - 1) * Paginator.per_page self in
  let top := bottom + Paginator.per_page self in
  let top :=
    if bool_decide (top + Paginator.orphans self >= Paginator.count self)
    then Paginator.count self else top in
  Ok (Page.mk (Py.slice (Paginator.object_list self) bottom top) number self).

(** [Paginator.get_page] *)
Definition Paginator_get_page self (number : Py.value) : result (Page.t A) :=
  let number :=
    match Paginator.validate_number self number with
    | Ok number => Ok number
    | Raise PageNotAnInteger => Ok 1
    | Raise EmptyPage => Ok (Paginator.num_pages self)
    | Raise e => Raise e
    end in
  number ← number;
  Paginator_page self (Py.Int number).

End paginator_pages.

(** ** Requests, routes and responses *)

Module Method.
Inductive t := GET | HEAD | POST | PUT | PATCH | DELETE | OPTIONS | TRACE.
End Method.

Module Request.
(** [user] is the primary key of the authenticated user, [None] for the
    anonymous user. *)
Record t := mk {
  user : option nat;
  method : Method.t;
  GET : gmap string string;
  POST : gmap string string
}.

Definition is_authenticated (request : t) : bool :=
  match user request with
  | Some _ => true
  | None => false
  end.
End Request.

(** The named URL patterns the views redirect to. *)
Module Route.
Inductive t :=
  | login
  | blog_index
  | blog_profile (username : string)
  | blog_post_detail (pk : nat).
End Route.

Inductive Response (C : Type) :=
  | TemplateResponse (template_name : string) (context : C)
  | HttpResponseRedirect (to : Route.t)
  | HttpResponseNotAllowed
  | HttpResponseOptions.
Arguments TemplateResponse {C} _ _.
Arguments HttpResponseRedirect {C} _.
Arguments HttpResponseNotAllowed {C}.
Arguments HttpResponseOptions {C}.

(** The outcome of a view that writes: its response and the database it
    leaves.  A view body that raises leaves the database it was given: the
    bodies below raise before their first write (after it, only if the row of
    the signed-in user were missing). *)
Definition run {C} (db : Db) (body : result (Response C * Db))
  : result (Response C) * Db :=
  match body with
  | Ok (response, db') => (Ok response, db')
  | Raise e => (Raise e, db)
  end.

(** Fresh primary key of an insert. *)
Definition next_pk {A} (table : gmap nat A) : nat :=
  S (foldr Nat.max 0%nat (map_to_list table).*1).

(** ** What the model layer and the framework decide

    [blog/models.py] and the settings are not part of the sources.  What the
    views need from them is taken as a parameter: the cleaning of the form
    fields that [ModelForm] derives from model columns, model validation of a
    user row, the default of [Post.is_published], and what Django's
    [parse_datetime] answers on input that starts like an ISO 8601 date.
    [Post_fields_clean] answers for the five model-derived fields of the post
    form together; when one of them is rejected, [Post_fields_passed] gives
    those five columns as [construct_instance] leaves them, the ones that
    passed already written over the current values. *)
Record PostModelFields := mkPostModelFields {
  pmf_title : string;
  pmf_text : string;
  pmf_category : option nat;
  pmf_location : option nat;
  pmf_image : string
}.

Class Models := {
  Post_is_published_default : bool;
  Post_fields_clean : Db → gmap string string → option PostModelFields;
  Post_fields_passed : Db → gmap string string → PostModelFields → PostModelFields;
  Comment_text_clean : string → option string;
  User_field_clean : string → string → option string;
  User_validate : Db → nat → User.t → bool;
  parse_datetime_iso : list ascii → result (option Z)
}.

(** ** [django.contrib.auth.mixins] and [blog/mixins.py] *)

Module AccessMixin.
Definition raise_exception : bool := false.

Definition handle_no_permission {X} (request : Request.t)
    (redirect_to_login : X) : result X :=
  if raise_exception || Request.is_authenticated request
  then Raise PermissionDenied
  else Ok redirect_to_login.
End AccessMixin.

Module LoginRequiredMixin.
Definition dispatch {C} (request : Request.t) (db : Db)
    (super_dispatch : result (Response C * Db)) : result (Response C * Db) :=
  if negb (Request.is_authenticated request)
  then AccessMixin.handle_no_permission request (HttpResponseRedirect Route.login, db)
  else super_dispatch.
End LoginRequiredMixin.

Module UserPassesTestMixin.
Definition dispatch {C} (request : Request.t) (db : Db)
    (test_func : result bool)
    (super_dispatch : result (Response C * Db)) : result (Response C * Db) :=
  user_test_result ← test_func;
  if negb user_test_result
  then AccessMixin.handle_no_permission request (HttpResponseRedirect Route.login, db)
  else super_dispatch.
End UserPassesTestMixin.

Module AuthorRequiredMixin.
(** [self.get_object().author == self.request.user]; [author_of] reads the
    [author] column of the view's model. *)
Definition test_func {O} (get_object : result O) (author_of : O → nat)
    (request : Request.t) : result bool :=
  obj ← get_object;
  Ok (bool_decide (Some (author_of obj) = Request.user request)).
End AuthorRequiredMixin.

(** [login_required] *)
Definition login_required {C} (request : Request.t) (db : Db)
    (view : nat → result (Response C * Db)) : result (Response C * Db) :=
  match Request.user request with
  | Some u => view u
  | None => Ok (HttpResponseRedirect Route.login, db)
  end.

(** [SingleObjectMixin.get_object] by primary key. *)
Definition get_object_pk {A} (table : gmap nat A) (k : nat) : result A :=
  match get_pk table k with
  | Raise DoesNotExist => Raise Http404
  | r => r
  end.

(** ** [blog/forms.py] *)

Module ProfileUpdateForm.

(** [Meta.fields] *)
Definition Meta_fields : list string :=
  ["first_name"; "last_name"; "email"; "username"].

(** [UserChangeForm] declares a [password] field of its own; declared
    fields join the ones derived from [Meta.fields]. *)
Definition base_fields : list string := Meta_fields ++ ["password"].

(** [__init__]: [self.fields.pop('password', None)] *)
Definition fields : list string :=
  filter (λ name, name ≠ "password") base_fields.

(** The string columns of the user model, set by name. *)
Definition setattr (name value : string) (u : User.t) : User.t :=
  if bool_decide (name = "username") then
    User.mk value (User.first_name u) (User.last_name u) (User.email u)
      (User.password u) (User.is_staff u) (User.is_active u) (User.is_superuser u)
  else if bool_decide (name = "first_name") then
    User.mk (User.username u) value (User.last_name u) (User.email u)
      (User.password u) (User.is_staff u) (User.is_active u) (User.is_superuser u)
  else if bool_decide (name = "last_name") then
    User.mk (User.username u) (User.first_name u) value (User.email u)
      (User.password u) (User.is_staff u) (User.is_active u) (User.is_superuser u)
  else if bool_decide (name = "email") then
    User.mk (User.username u) (User.first_name u) (User.last_name u) value
      (User.password u) (User.is_staff u) (User.is_active u) (User.is_superuser u)
  else if bool_decide (name = "password") then
    User.mk (User.username u) (User.first_name u) (User.last_name u) (User.email u)
      value (User.is_staff u) (User.is_active u) (User.is_superuser u)
  else u.

(** [full_clean]: every field of the form cleans the value posted under its
    name (the empty string when absent); [None] when a field rejects. *)
Fixpoint clean_fields {models : Models} (names : list string) (data : gmap string string)
  : option (list (string * string)) :=
  match names with
  | [] => Some []
  | name :: names' =>
      match User_field_clean name (default "" (data !! name)),
            clean_fields names' data with
      | Some v, Some rest => Some ((name, v) :: rest)
      | _, _ => None
      end
  end.

(** [construct_instance]: a cleaned value is written to the instance when
    its name is in [Meta.fields]. *)
Definition construct_instance (cleaned_data : list (string * string))
    (instance : User.t) : User.t :=
  foldl (λ u nv, if bool_decide (nv.1 ∈ Meta_fields) then setattr nv.1 nv.2 u else u)
    instance cleaned_data.

(** The cleaned values of the fields that pass, whether or not the others do. *)
Fixpoint clean_passed {models : Models} (names : list string) (data : gmap string string)
  : list (string * string) :=
  match names with
  | [] => []
  | name :: names' =>
      match User_field_clean name (default "" (data !! name)) with
      | Some v => (name, v) :: clean_passed names' data
      | None => clean_passed names' data
      end
  end.

(** The instance of a form that did not validate: [construct_instance] has
    written to it, in memory, the cleaned value of every field that passed. *)
Definition rejected_instance {models : Models} (data : gmap string string)
    (instance : User.t) : User.t :=
  construct_instance (clean_passed fields data) instance.

(** [is_valid()] and the instance [save()] would write. *)
Definition is_valid {models : Models} (db : Db) (uid : nat) (instance : User.t)
    (data : gmap string string) : option User.t :=
  match clean_fields fields data with
  | Some cleaned_data =>
      let u := construct_instance cleaned_data instance in
      if User_validate db uid u then Some u else None
  | None => None
  end.

End ProfileUpdateForm.

Module AddCommentForm.

(** [Meta.fields = ('text',)] *)
Definition is_valid {models : Models} (data : gmap string string) : option string :=
  Comment_text_clean (default "" (data !! "text")).

End AddCommentForm.

Module PostForm.

Record cleaned_data := mk {
  title : string;
  text : string;
  pub_date : Z;
  category : option nat;
  location : option nat;
  image : string
}.

(** [input_formats=['%d.%m.%Y']]: the formats the field parses. *)
Definition input_formats : list (list ascii → result Z) := [Py.strptime_dmY].

(** [format='%d.%m.%Y %H:%M:%S']: the format in which the widget of the same
    field renders a value, and which its placeholder asks for. *)
Definition widget_format : string := "%d.%m.%Y %H:%M:%S".

(** [django.utils.dateparse.parse_datetime]: the pattern it matches starts
    with the four digits of a year, so it answers [None] on anything else. *)
Definition parse_datetime {models : Models} (value : list ascii) : result (option Z) :=
  match value with
  | a :: b :: c :: d :: _ =>
      if Py.py_isdigit a && Py.py_isdigit b && Py.py_isdigit c && Py.py_isdigit d
      then parse_datetime_iso value
      else Ok None
  | _ => Ok None
  end.

(** [BaseTemporalField.to_python]: the first input format that parses. *)
Fixpoint try_formats (formats : list (list ascii → result Z)) (value : list ascii)
  : option Z :=
  match formats with
  | [] => None
  | strptime :: formats' =>
      match strptime value with
      | Ok t => Some t
      | Raise _ => try_formats formats' value
      end
  end.

(** [DateTimeField.clean] for the required field [pub_date]; [None] is a
    validation error. *)
Definition pub_date_clean {models : Models} (raw : string) : option Z :=
  if bool_decide (raw = "") then None
  else
    let value := Py.strip (String.list_ascii_of_string raw) in
    match parse_datetime value with
    | Raise _ => None
    | Ok (Some t) => Some t
    | Ok None => try_formats input_formats value
    end.

(** [is_valid()] and the cleaned data. *)
Definition is_valid {models : Models} (db : Db) (data : gmap string string)
  : option cleaned_data :=
  match Post_fields_clean db data, pub_date_clean (default "" (data !! "pub_date")) with
  | Some f, Some t =>
      Some (mk (pmf_title f) (pmf_text f) t (pmf_category f) (pmf_location f)
              (pmf_image f))
  | _, _ => None
  end.

(** [save()] onto an instance: the six fields of [Meta.fields]. *)
Definition save (c : cleaned_data) (instance : Post.t) : Post.t :=
  Post.mk (title c) (text c) (pub_date c) (Post.is_published instance)
    (Post.author instance) (category c) (location c) (image c)
    (Post.created_at instance).

(** The instance of a form that did not validate.  [is_valid()] runs
    [_post_clean], and there [construct_instance] writes to the instance, in
    memory, the cleaned value of every field that passed; the fields that
    failed keep the values the instance had. *)
Definition rejected_instance {models : Models} (db : Db) (data : gmap string string)
    (instance : Post.t) : Post.t :=
  let f :=
    match Post_fields_clean db data with
    | Some f => f
    | None =>
        Post_fields_passed db data
          (mkPostModelFields (Post.title instance) (Post.text instance)
             (Post.category instance) (Post.location instance) (Post.image instance))
    end in
  let t :=
    match pub_date_clean (default "" (data !! "pub_date")) with
    | Some t => t
    | None => Post.pub_date instance
    end in
  Post.mk (pmf_title f) (pmf_text f) t (Post.is_published instance)
    (Post.author instance) (pmf_category f) (pmf_location f) (pmf_image f)
    (Post.created_at instance).

End PostForm.

(** ** Writes to the tables *)

Definition set_users (f : gmap nat User.t → gmap nat User.t) (db : Db) : Db :=
  mkDb (f (users db)) (categories db) (locations db) (posts db) (comments db).

Definition set_posts (f : gmap nat Post.t → gmap nat Post.t) (db : Db) : Db :=
  mkDb (users db) (categories db) (locations db) (f (posts db)) (comments db).

Definition set_comments (f : gmap nat Comment.t → gmap nat Comment.t) (db : Db) : Db :=
  mkDb (users db) (categories db) (locations db) (posts db) (f (comments db)).

(** Modelled from the spec: [blog/models.py] is not part of the sources;
    "deleting a post removes dependent comments" (section 3), so the delete
    of a post row cascades to the comments that point at it. *)
Definition delete_post (k : nat) (db : Db) : Db :=
  set_comments (filter (λ kc, Comment.post kc.2 ≠ k)) (set_posts (delete k) db).

(** ** [blog/views.py] *)

(** Template contexts. *)
Record ListContext := mkListContext {
  lc_paginator : Paginator.t PostRow;
  lc_page_obj : Page.t PostRow;
  lc_is_paginated : bool;
  lc_object_list : list PostRow
}.

Record CategoryContext := mkCategoryContext {
  cc_list : ListContext;
  cc_category : nat * Category.t
}.

Record ProfileContext := mkProfileContext {
  pc_profile : nat * User.t;
  pc_page_obj : Page.t PostRow
}.

Record PostDetailContext := mkPostDetailContext {
  pdc_post : nat * Post.t;
  pdc_comments : list (nat * Comment.t)
}.

(** Context of the form views: the edited object, when there is one, and
    whether the form shown is a bound form that failed validation. *)
Record FormContext (O : Type) := mkFormContext {
  fc_object : option (nat * O);
  fc_form_invalid : bool
}.
Arguments mkFormContext {O} _ _.
Arguments fc_object {O} _.
Arguments fc_form_invalid {O} _.

(** [django.views.generic.list]: the part of [ListView] that paginates. *)
Module ListView.

Definition page_kwarg : string := "page".

(** [MultipleObjectMixin.paginate_queryset]; the URL patterns of the
    listings capture no page, so [self.kwargs.get(page_kwarg)] is [None]. *)
Definition paginate_queryset (request : Request.t) (queryset : list PostRow)
    (page_size : Z) : result ListContext :=
  let paginator := Paginator.mk queryset page_size 0 true in
  let page :=
    Py.or_ (Py.or_ Py.None_ (Py.of_option (Request.GET request !! page_kwarg)))
           (Py.Int 1) in
  page_number ←
    match Py.int page with
    | Raise ValueError =>
        if bool_decide (page = Py.Str "last") then Ok (Paginator.num_pages paginator)
        else Raise Http404
    | r => r
    end;
  match Paginator_page paginator (Py.Int page_number) with
  | Ok page =>
      Ok (mkListContext paginator page (Page.has_other_pages page)
            (Page.object_list page))
  | Raise PageNotAnInteger | Raise EmptyPage => Raise Http404
  | Raise e => Raise e
  end.

End ListView.

Module ProfileDetailView.

Definition template_name : string := "blog/profile.html".

(** The query set of the prefetch. *)
Definition prefetch_queryset (db : Db) : list PostRow :=
  order_by_pub_date_desc
    (annotate_comment_count db (select_related (Post_objects db))).

(** Every user, with [posts] prefetched: the rows of the prefetch query set
    whose author is that user. *)
Definition get_queryset (db : Db) : list (nat * User.t * list PostRow) :=
  (λ ku, (ku, filter (λ r, Post.author (post r) = ku.1) (prefetch_queryset db)))
    <$> map_to_list (users db).

(** [get_object]: [slug_field = 'username']. *)
Definition get_object (db : Db) (username : string)
  : result (nat * User.t * list PostRow) :=
  get_object_or_404
    (filter (λ o, User.username o.1.2 = username) (get_queryset db)).

Definition get_context_data (request : Request.t)
    (object : nat * User.t * list PostRow) : result ProfileContext :=
  let paginator := Paginator.new object.2 10 in
  let page_number := Py.of_option (Request.GET request !! "page") in
  page_obj ← Paginator_get_page paginator page_number;
  Ok (mkProfileContext object.1 page_obj).

Definition view (db : Db) (request : Request.t) (username : string)
  : result (Response ProfileContext) :=
  match Request.method request with
  | Method.GET | Method.HEAD =>
      object ← get_object db username;
      context ← get_context_data request object;
      Ok (TemplateResponse template_name context)
  | Method.OPTIONS => Ok HttpResponseOptions
  | _ => Ok HttpResponseNotAllowed
  end.

End ProfileDetailView.

Module ProfileUpdateView.

Definition template_name : string := "blog/user.html".

(** [get_object]: [self.request.user] *)
Definition get_object (db : Db) (uid : nat) : result User.t :=
  get_pk (users db) uid.

Definition get_success_url (object : User.t) : Route.t :=
  Route.blog_profile (User.username object).

(** Past the login check [request.user] is a user; the anonymous user has no
    row to edit. *)
Definition dispatch {models : Models} (db : Db) (request : Request.t)
  : result (Response (FormContext User.t) * Db) :=
  LoginRequiredMixin.dispatch request db
    (match Request.user request with
     | None => Raise TypeError
     | Some uid =>
         match Request.method request with
         | Method.GET | Method.HEAD =>
             object ← get_object db uid;
             Ok (TemplateResponse template_name (mkFormContext (Some (uid, object)) false), db)
         | Method.POST | Method.PUT =>
             object ← get_object db uid;
             match ProfileUpdateForm.is_valid db uid object (Request.POST request) with
             | Some object' =>
                 Ok (HttpResponseRedirect (get_success_url object'),
                     set_users (insert uid object') db)
             | None =>
                 Ok (TemplateResponse template_name
                       (mkFormContext
                          (Some (uid, ProfileUpdateForm.rejected_instance
                                        (Request.POST request) object)) true), db)
             end
         | Method.OPTIONS => Ok (HttpResponseOptions, db)
         | _ => Ok (HttpResponseNotAllowed, db)
         end
     end).

Definition view {models : Models} (db : Db) (request : Request.t)
  : result (Response (FormContext User.t)) * Db :=
  run db (dispatch db request).

End ProfileUpdateView.

Module CategoryListView.

Definition template_name : string := "blog/category.html".
Definition paginate_by : Z := 10.

Definition get_queryset (db : Db) (now : Z) (category_slug : string)
  : result ((nat * Category.t) * list PostRow) :=
  category ←
    get_object_or_404
      (filter (λ kc, Category.slug kc.2 = category_slug
                     ∧ Category.is_published kc.2 = true)
         (map_to_list (categories db)));
  Ok (category,
      order_by_pub_date_desc
        (annotate_comment_count db
           (select_related
              (filter (λ r, Post.category (post r) = Some category.1
                            ∧ Post.is_published (post r) = true
                            ∧ Post.pub_date (post r) ≤ now)
                 (Post_objects db))))).

Definition view (db : Db) (now : Z) (request : Request.t) (category_slug : string)
  : result (Response CategoryContext) :=
  match Request.method request with
  | Method.GET | Method.HEAD =>
      '(category, object_list) ← get_queryset db now category_slug;
      context ← ListView.paginate_queryset request object_list paginate_by;
      Ok (TemplateResponse template_name (mkCategoryContext context category))
  | Method.OPTIONS => Ok HttpResponseOptions
  | _ => Ok HttpResponseNotAllowed
  end.

End CategoryListView.

Module PostListView.

Definition template_name : string := "blog/index.html".
Definition paginate_by : Z := 10.

Definition get_queryset (db : Db) (now : Z) : list PostRow :=
  let posts :=
    order_by_pub_date_desc
      (filter (λ r, Post.is_published (post r) = true
                    ∧ category__is_published db (post r) = true
                    ∧ Post.pub_date (post r) ≤ now)
         (annotate_comment_count db (select_related (Post_objects db)))) in
  posts.

Definition view (db : Db) (now : Z) (request : Request.t)
  : result (Response ListContext) :=
  match Request.method request with
  | Method.GET | Method.HEAD =>
      context ← ListView.paginate_queryset request (get_queryset db now) paginate_by;
      Ok (TemplateResponse template_name context)
  | Method.OPTIONS => Ok HttpResponseOptions
  | _ => Ok HttpResponseNotAllowed
  end.

End PostListView.

Module PostCreateView.

Definition template_name : string := "blog/create.html".

(** [reverse_lazy('blog:profile', kwargs={'username': self.object.author})]:
    the user object is rendered into the URL by its [__str__], the
    username. *)
Definition get_success_url (db : Db) (object : Post.t) : result Route.t :=
  author ← get_pk (users db) (Post.author object);
  Ok (Route.blog_profile (User.username author)).

(** [form_valid]: the author is set on the new instance, which is then
    saved under a fresh primary key. *)
Definition form_valid {models : Models} (db : Db) (now : Z) (uid : nat)
    (c : PostForm.cleaned_data) : result (Response (FormContext Post.t) * Db) :=
  let instance :=
    PostForm.save c (Post.mk "" "" 0 Post_is_published_default uid None None "" now) in
  let db' := set_posts (insert (next_pk (posts db)) instance) db in
  url ← get_success_url db' instance;
  Ok (HttpResponseRedirect url, db').

(** Past the login check [request.user] is a user; the anonymous user cannot
    be assigned as an author. *)
Definition dispatch {models : Models} (db : Db) (now : Z) (request : Request.t)
  : result (Response (FormContext Post.t) * Db) :=
  LoginRequiredMixin.dispatch request db
    (match Request.user request with
     | None => Raise TypeError
     | Some uid =>
         match Request.method request with
         | Method.GET | Method.HEAD =>
             Ok (TemplateResponse template_name (mkFormContext None false), db)
         | Method.POST | Method.PUT =>
             match PostForm.is_valid db (Request.POST request) with
             | Some c => form_valid db now uid c
             | None => Ok (TemplateResponse template_name (mkFormContext None true), db)
             end
         | Method.OPTIONS => Ok (HttpResponseOptions, db)
         | _ => Ok (HttpResponseNotAllowed, db)
         end
     end).

Definition view {models : Models} (db : Db) (now : Z) (request : Request.t)
  : result (Response (FormContext Post.t)) * Db :=
  run db (dispatch db now request).

End PostCreateView.

Module PostUpdateView.

Definition template_name : string := "blog/create.html".

Definition get_success_url (k : nat) : Route.t := Route.blog_post_detail k.

Definition dispatch {models : Models} (db : Db) (request : Request.t) (k : nat)
  : result (Response (FormContext Post.t) * Db) :=
  LoginRequiredMixin.dispatch request db
    (UserPassesTestMixin.dispatch request db
       (AuthorRequiredMixin.test_func (get_object_pk (posts db) k) Post.author request)
       (match Request.method request with
        | Method.GET | Method.HEAD =>
            object ← get_object_pk (posts db) k;
            Ok (TemplateResponse template_name (mkFormContext (Some (k, object)) false), db)
        | Method.POST | Method.PUT =>
            object ← get_object_pk (posts db) k;
            match PostForm.is_valid db (Request.POST request) with
            | Some c =>
                Ok (HttpResponseRedirect (get_success_url k),
                    set_posts (insert k (PostForm.save c object)) db)
            | None =>
                Ok (TemplateResponse template_name
                      (mkFormContext
                         (Some (k, PostForm.rejected_instance db (Request.POST request)
                                     object)) true), db)
            end
        | Method.OPTIONS => Ok (HttpResponseOptions, db)
        | _ => Ok (HttpResponseNotAllowed, db)
        end)).

Definition view {models : Models} (db : Db) (request : Request.t) (k : nat)
  : result (Response (FormContext Post.t)) * Db :=
  run db (dispatch db request k).

End PostUpdateView.

Module PostDeleteView.

Definition template_name : string := "blog/create.html".
Definition success_url : Route.t := Route.blog_index.

Definition dispatch (db : Db) (request : Request.t) (k : nat)
  : result (Response (FormContext Post.t) * Db) :=
  LoginRequiredMixin.dispatch request db
    (UserPassesTestMixin.dispatch request db
       (AuthorRequiredMixin.test_func (get_object_pk (posts db) k) Post.author request)
       (match Request.method request with
        | Method.GET | Method.HEAD =>
            object ← get_object_pk (posts db) k;
            Ok (TemplateResponse template_name (mkFormContext (Some (k, object)) false), db)
        | Method.POST | Method.DELETE =>
            object ← get_object_pk (posts db) k;
            Ok (HttpResponseRedirect success_url, delete_post k db)
        | Method.OPTIONS => Ok (HttpResponseOptions, db)
        | _ => Ok (HttpResponseNotAllowed, db)
        end)).

Definition view (db : Db) (request : Request.t) (k : nat)
  : result (Response (FormContext Post.t)) * Db :=
  run db (dispatch db request k).

End PostDeleteView.

Module PostDetailView.

Definition template_name : string := "blog/detail.html".

Definition get_context_data (db : Db) (k : nat) (object : Post.t)
  : PostDetailContext :=
  mkPostDetailContext (k, object)
    (filter (λ kc, Comment.post kc.2 = k) (map_to_list (comments db))).

Definition view (db : Db) (request : Request.t) (k : nat)
  : result (Response PostDetailContext) :=
  match Request.method request with
  | Method.GET | Method.HEAD =>
      object ← get_object_pk (posts db) k;
      Ok (TemplateResponse template_name (get_context_data db k object))
  | Method.OPTIONS => Ok HttpResponseOptions
  | _ => Ok HttpResponseNotAllowed
  end.

End PostDetailView.

(** [add_comment] *)
Definition add_comment {models : Models} (db : Db) (now : Z) (request : Request.t) (k : nat)
  : result (Response unit) * Db :=
  run db (login_required request db (λ uid,
    post ← get_object_pk (posts db) k;
    let db' :=
      match AddCommentForm.is_valid (Request.POST request) with
      | Some text =>
          set_comments (insert (next_pk (comments db)) (Comment.mk text uid k now)) db
      | None => db
      end in
    Ok (HttpResponseRedirect (Route.blog_post_detail k), db'))).

Module CommentUpdateView.

Definition template_name : string := "blog/comment.html".

Definition get_success_url (object : Comment.t) : Route.t :=
  Route.blog_post_detail (Comment.post object).

(** [fields = ['text']] *)
Definition save (text : string) (instance : Comment.t) : Comment.t :=
  Comment.mk text (Comment.author instance) (Comment.post instance)
    (Comment.created_at instance).

Definition dispatch {models : Models} (db : Db) (request : Request.t) (comment_id : nat)
  : result (Response (FormContext Comment.t) * Db) :=
  LoginRequiredMixin.dispatch request db
    (UserPassesTestMixin.dispatch request db
       (AuthorRequiredMixin.test_func (get_object_pk (comments db) comment_id)
          Comment.author request)
       (match Request.method request with
        | Method.GET | Method.HEAD =>
            object ← get_object_pk (comments db) comment_id;
            Ok (TemplateResponse template_name
                  (mkFormContext (Some (comment_id, object)) false), db)
        | Method.POST | Method.PUT =>
            object ← get_object_pk (comments db) comment_id;
            match Comment_text_clean (default "" (Request.POST request !! "text")) with
            | Some text =>
                let object' := save text object in
                Ok (HttpResponseRedirect (get_success_url object'),
                    set_comments (insert comment_id object') db)
            | None =>
                Ok (TemplateResponse template_name
                      (mkFormContext (Some (comment_id, object)) true), db)
            end
        | Method.OPTIONS => Ok (HttpResponseOptions, db)
        | _ => Ok (HttpResponseNotAllowed, db)
        end)).

Definition view {models : Models} (db : Db) (request : Request.t) (comment_id : nat)
  : result (Response (FormContext Comment.t)) * Db :=
  run db (dispatch db request comment_id).

End CommentUpdateView.

Module CommentDeleteView.

Definition template_name : string := "blog/comment.html".

Definition get_success_url (object : Comment.t) : Route.t :=
  Route.blog_post_detail (Comment.post object).

Definition dispatch (db : Db) (request : Request.t) (comment_id : nat)
  : result (Response (FormContext Comment.t) * Db) :=
  LoginRequiredMixin.dispatch request db
    (UserPassesTestMixin.dispatch request db
       (AuthorRequiredMixin.test_func (get_object_pk (comments db) comment_id)
          Comment.author request)
       (match Request.method request with
        | Method.GET | Method.HEAD =>
            object ← get_object_pk (comments db) comment_id;
            Ok (TemplateResponse template_name
                  (mkFormContext (Some (comment_id, object)) false), db)
        | Method.POST | Method.DELETE =>
            object ← get_object_pk (comments db) comment_id;
            Ok (HttpResponseRedirect (get_success_url object),
                set_comments (delete comment_id) db)
        | Method.OPTIONS => Ok (HttpResponseOptions, db)
        | _ => Ok (HttpResponseNotAllowed, db)
        end)).

Definition view (db : Db) (request : Request.t) (comment_id : nat)
  : result (Response (FormContext Comment.t)) * Db :=
  run db (dispatch db request comment_id).

End CommentDeleteView.

(** ** The contracts the theorems compare the views with *)

(** The Visibility Filter of the specification (section 4.1), stated on the
    tables: the post is published, its category exists and is published, and
    its publication date is not after [now]. *)
Definition visibility_filter (db : Db) (now : Z) (p : Post.t) : Prop :=
  Post.is_published p = true
  ∧ (∃ c cat, Post.category p = Some c ∧ categories db !! c = Some cat
              ∧ Category.is_published cat = true)
  ∧ Post.pub_date p ≤ now.

(** A listing [qs] holds exactly the posts that satisfy [P], one row each,
    every row annotated with the number of comments on its post, newest
    first. *)
Definition lists_exactly (db : Db) (P : nat → Post.t → Prop) (qs : list PostRow) : Prop :=
  (∀ k p, (∃ r, r ∈ qs ∧ pk r = k ∧ post r = p) ↔ (posts db !! k = Some p ∧ P k p))
  ∧ (∀ r, r ∈ qs → comment_count r = Some (Count_comments db (pk r)))
  ∧ StronglySorted (λ r1 r2, Post.pub_date (post r2) ≤ Post.pub_date (post r1)) qs
  ∧ NoDup (pk <$> qs).

(** Uniqueness of the [slug] column of categories and of the [username]
    column of users (section 3). *)
Definition slug_unique (db : Db) : Prop :=
  ∀ k1 c1 k2 c2,
    categories db !! k1 = Some c1 → categories db !! k2 = Some c2 →
    Category.slug c1 = Category.slug c2 → k1 = k2.

Definition username_unique (db : Db) : Prop :=
  ∀ k1 u1 k2 u2,
    users db !! k1 = Some u1 → users db !! k2 = Some u2 →
    User.username u1 = User.username u2 → k1 = k2.

(** The page size every listing uses, and the paginator the list views build
    over a query set. *)
Definition listing_paginator (qs : list PostRow) : Paginator.t PostRow :=
  Paginator.mk qs 10 0 true.

(** Page [n] of a listing: ten rows from row [10 * (n - 1)] on, fewer when
    the listing ends before. *)
Definition listing_page (qs : list PostRow) (n : Z) : Page.t PostRow :=
  Page.mk (take 10 (drop (Z.to_nat ((n - 1) * 10)) qs)) n (listing_paginator qs).

(** The page [get_page] settles on: the requested one when it is a number in
    range, page 1 when it is not a number, the last page when it is a number
    out of range. *)
Definition clamped_page_number (p : Paginator.t PostRow) (v : Py.value) : Z :=
  match Py.int v with
  | Raise _ => 1
  | Ok n =>
      if bool_decide (1 ≤ n ≤ Paginator.num_pages p) then n
      else Paginator.num_pages p
  end.

(** Text within the range the model of Python's built-ins covers. *)
Definition ascii_only (s : string) : Prop :=
  Forall (λ c, Py.is_ascii c = true) (String.list_ascii_of_string s).

(** ** Sample data

    A small site used to run the views: two users, a published and an
    unpublished category, a visible post, a draft and a post dated in the
    future, all by the first user, and one comment by the second. *)
Module Demo.

(** The model layer of the sample site: titles, comment texts and user
    names must not be empty, a username must be free, and no post field is
    given in ISO form. *)
Definition models : Models := {|
  Post_is_published_default := true;
  Post_fields_clean := λ _ data,
    match data !! "title" with
    | Some t =>
        if bool_decide (t = "") then None
        else Some (mkPostModelFields t (default "" (data !! "text")) None None "")
    | None => None
    end;
  Post_fields_passed := λ _ data current,
    mkPostModelFields (pmf_title current) (default "" (data !! "text")) None None "";
  Comment_text_clean := λ s, if bool_decide (s = "") then None else Some s;
  User_field_clean := λ name v,
    if bool_decide (name = "username") && bool_decide (v = "") then None else Some v;
  User_validate := λ db uid u,
    bool_decide (Forall (λ ku, ku.1 = uid ∨ User.username ku.2 ≠ User.username u)
                   (map_to_list (users db)));
  parse_datetime_iso := λ _, Raise ValueError
|}.

Definition alice : User.t :=
  User.mk "alice" "Alice" "Liddell" "alice@example.com" "pbkdf2_sha256$a" false true false.
Definition bob : User.t :=
  User.mk "bob" "Bob" "Builder" "bob@example.com" "pbkdf2_sha256$b" true true false.

Definition news : Category.t := Category.mk "News" "news" true.
Definition drafts : Category.t := Category.mk "Drafts" "drafts" false.

(** 2020-01-01, and a day in 2100. *)
Definition post_a : Post.t :=
  Post.mk "A" "first" 1577836800 true 1 (Some 1%nat) None "" 1577000000.
Definition post_hidden : Post.t :=
  Post.mk "B" "draft" 1577836800 false 1 (Some 1%nat) None "" 1577000000.
Definition post_future : Post.t :=
  Post.mk "C" "later" 4102444800 true 1 (Some 1%nat) None "" 1577000000.

Definition comment_1 : Comment.t := Comment.mk "nice" 2 5 1578000000.

Definition db : Db :=
  mkDb (list_to_map [(1%nat, alice); (2%nat, bob)])
       (list_to_map [(1%nat, news); (2%nat, drafts)])
       ∅
       (list_to_map [(5%nat, post_a); (6%nat, post_hidden); (7%nat, post_future)])
       (list_to_map [(1%nat, comment_1)]).

Definition now : Z := 1700000000.

Definition get (user : option nat) (page : option string) : Request.t :=
  Request.mk user Method.GET
    (match page with Some s => {[ "page" := s ]} | None => ∅ end) ∅.

Definition post (user : option nat) (data : list (string * string)) : Request.t :=
  Request.mk user Method.POST ∅ (list_to_map data).

(** The page value made of the unit separator (character 31) and the digit
    2: [str.strip()] would leave "2", [int()] does not accept it. *)
Definition page_sep_2 : string := String (Ascii.ascii_of_nat 31) "2".

(** Twenty-five visible posts, one a day. *)
Definition db25 : Db :=
  mkDb (users db) (categories db) ∅
    (list_to_map
       ((λ i : nat, (i, Post.mk "P" "" (1577836800 + 86400 * Z.of_nat i) true 1
                          (Some 1%nat) None "" 1577000000)) <$> seq 1 25))
    ∅.

End Demo.

(** A row of the annotated post table: the columns of the post stored under
    its key, and the number of comments on it. *)
Definition annotated_row (db : Db) (r : PostRow) : Prop :=
  posts db !! pk r = Some (post r)
  ∧ comment_count r = Some (Count_comments db (pk r)).

(** A matcher [m] takes between [lo] and [hi] characters off the input in
    every way it can match. *)
Definition consumes {A} (m : Py.matcher A) (lo hi : nat) : Prop :=
  ∀ s a rest, (a, rest) ∈ m s →
    ∃ pre, s = pre ++ rest ∧ (lo ≤ length pre ≤ hi)%nat.

(** [strftime] for the directives of the post form: [%d], [%m], [%H], [%M] and
    [%S] are two digits with a leading zero, [%Y] is the four digits of a
    year from 1000 on. *)
Definition digit_char (n : Z) : ascii := Ascii.ascii_of_N (Z.to_N (48 + n)).

Definition two_digits (n : Z) : list ascii :=
  [digit_char (n / 10); digit_char (n mod 10)].

Definition four_digits (n : Z) : list ascii :=
  [digit_char (n / 1000); digit_char (n / 100 mod 10);
   digit_char (n / 10 mod 10); digit_char (n mod 10)].

(** [strftime('%d.%m.%Y')] *)
Definition strftime_dmY (year month day : Z) : list ascii :=
  two_digits day ++ "."%char :: two_digits month ++ "."%char :: four_digits year.

(** [strftime('%d.%m.%Y %H:%M:%S')], the format of the widget. *)
Definition strftime_widget (year month day hour minute second : Z) : list ascii :=
  strftime_dmY year month day
  ++ " "%char :: two_digits hour ++ ":"%char :: two_digits minute
  ++ ":"%char :: two_digits second.

(** * Properties *)

(** ** Facts about query sets *)

Section queryset_facts.

Global Instance newer_eq_total : Total newer_eq.
Proof. intros r1 r2. unfold newer_eq. lia. Qed.

Global Instance newer_eq_trans : Transitive newer_eq.
Proof. intros r1 r2 r3. unfold newer_eq. lia. Qed.

Lemma order_by_sorted qs : StronglySorted newer_eq (order_by_pub_date_desc qs).
Proof. apply StronglySorted_merge_sort; apply _. Qed.

Lemma order_by_perm qs : order_by_pub_date_desc qs ≡ₚ qs.
Proof. apply merge_sort_Permutation. Qed.

Lemma elem_of_order_by r qs : r ∈ order_by_pub_date_desc qs ↔ r ∈ qs.
Proof. by rewrite order_by_perm. Qed.

Lemma elem_of_Post_objects db r :
  r ∈ Post_objects db ↔
  posts db !! pk r = Some (post r) ∧ comment_count r = None.
Proof.
  unfold Post_objects. rewrite list_elem_of_fmap. split.
  - intros [[k p] [-> Hin]]. apply elem_of_map_to_list in Hin. done.
  - intros [Hl Hc]. exists (pk r, post r). split.
    + destruct r; simpl in *; by subst.
    + by apply elem_of_map_to_list.
Qed.

Lemma elem_of_annotate db r qs :
  r ∈ annotate_comment_count db qs ↔
  comment_count r = Some (Count_comments db (pk r))
  ∧ ∃ r0, r0 ∈ qs ∧ pk r0 = pk r ∧ post r0 = post r.
Proof.
  unfold annotate_comment_count. rewrite list_elem_of_fmap. split.
  - intros [r0 [-> Hin]]. simpl. eauto.
  - intros [Hc [r0 [Hin [Hk Hp]]]]. exists r0. split; [|done].
    destruct r; simpl in *; by subst.
Qed.

Lemma pk_Post_objects db : pk <$> Post_objects db = (map_to_list (posts db)).*1.
Proof. unfold Post_objects. rewrite <- list_fmap_compose. done. Qed.

Lemma pk_annotate db qs : pk <$> annotate_comment_count db qs = pk <$> qs.
Proof. unfold annotate_comment_count. rewrite <- list_fmap_compose. done. Qed.

Lemma NoDup_pk_Post_objects db : NoDup (pk <$> Post_objects db).
Proof. rewrite pk_Post_objects. apply NoDup_fst_map_to_list. Qed.

Lemma NoDup_pk_filter (P : PostRow → Prop) `{∀ r, Decision (P r)} qs :
  NoDup (pk <$> qs) → NoDup (pk <$> filter P qs).
Proof.
  induction qs as [|r qs IH]; [done|].
  rewrite fmap_cons, NoDup_cons. intros [Hr Hnd].
  rewrite filter_cons. destruct (decide (P r)); [|by auto].
  rewrite fmap_cons, NoDup_cons. split; [|by auto].
  intros Hin. apply Hr. apply list_elem_of_fmap in Hin as [r' [-> Hin]].
  apply list_elem_of_fmap. exists r'. split; [done|].
  by apply list_elem_of_filter in Hin as [_ ?].
Qed.

Lemma NoDup_pk_order_by qs :
  NoDup (pk <$> qs) → NoDup (pk <$> order_by_pub_date_desc qs).
Proof. by rewrite order_by_perm. Qed.

Lemma StronglySorted_filter (P : PostRow → Prop) `{∀ r, Decision (P r)} qs :
  StronglySorted newer_eq qs → StronglySorted newer_eq (filter P qs).
Proof.
  induction 1 as [|r qs Hs IH Hall]; [constructor|].
  rewrite filter_cons. destruct (decide (P r)); [|done].
  constructor; [done|].
  apply Forall_forall. intros r' Hr'. apply list_elem_of_filter in Hr' as [_ Hr'].
  rewrite Forall_forall in Hall. by apply Hall.
Qed.

(** The three shapes the views compose, each a [lists_exactly]. *)

(** annotate, filter, order: the index listing. *)
Lemma annotate_filter_order db (P : PostRow → Prop) `{∀ r, Decision (P r)}
    (Q : nat → Post.t → Prop) :
  (∀ r, P r ↔ Q (pk r) (post r)) →
  lists_exactly db Q
    (order_by_pub_date_desc
       (filter P (annotate_comment_count db (select_related (Post_objects db))))).
Proof.
  intros HPQ. unfold select_related. split; [|split; [|split]].
  - intros k p. split.
    + intros [r [Hin [<- <-]]].
      apply elem_of_order_by, list_elem_of_filter in Hin as [HP Hin].
      apply elem_of_annotate in Hin as [_ [r0 [Hin [Hk Hp]]]].
      apply elem_of_Post_objects in Hin as [Hl _]. rewrite Hk, Hp in Hl.
      split; [done|]. by apply HPQ.
    + intros [Hl HQ].
      exists (mkPostRow k p (Some (Count_comments db k))). split; [|done].
      apply elem_of_order_by, list_elem_of_filter. split.
      * by apply HPQ.
      * apply elem_of_annotate. simpl. split; [done|].
        exists (mkPostRow k p None). split; [|done].
        by apply elem_of_Post_objects.
  - intros r Hin.
    apply elem_of_order_by, list_elem_of_filter in Hin as [_ Hin].
    by apply elem_of_annotate in Hin as [? _].
  - apply order_by_sorted.
  - apply NoDup_pk_order_by, NoDup_pk_filter.
    rewrite pk_annotate. apply NoDup_pk_Post_objects.
Qed.

(** filter, annotate, order: the category listing. *)
Lemma filter_annotate_order db (P : PostRow → Prop) `{∀ r, Decision (P r)}
    (Q : nat → Post.t → Prop) :
  (∀ r, P r ↔ Q (pk r) (post r)) →
  lists_exactly db Q
    (order_by_pub_date_desc
       (annotate_comment_count db (select_related (filter P (Post_objects db))))).
Proof.
  intros HPQ. unfold select_related. split; [|split; [|split]].
  - intros k p. split.
    + intros [r [Hin [<- <-]]].
      apply elem_of_order_by, elem_of_annotate in Hin as [_ [r0 [Hin [Hk Hp]]]].
      apply list_elem_of_filter in Hin as [HP Hin].
      apply elem_of_Post_objects in Hin as [Hl _].
      apply HPQ in HP. rewrite Hk, Hp in Hl, HP. done.
    + intros [Hl HQ].
      exists (mkPostRow k p (Some (Count_comments db k))). split; [|done].
      apply elem_of_order_by, elem_of_annotate. simpl. split; [done|].
      exists (mkPostRow k p None). split; [|done].
      apply list_elem_of_filter. split; [by apply HPQ|].
      by apply elem_of_Post_objects.
  - intros r Hin.
    by apply elem_of_order_by, elem_of_annotate in Hin as [? _].
  - apply order_by_sorted.
  - apply NoDup_pk_order_by. rewrite pk_annotate.
    apply NoDup_pk_filter, NoDup_pk_Post_objects.
Qed.

(** annotate, order, filter: the prefetch of the profile page. *)
Lemma annotate_order_filter db (P : PostRow → Prop) `{∀ r, Decision (P r)}
    (Q : nat → Post.t → Prop) :
  (∀ r, P r ↔ Q (pk r) (post r)) →
  lists_exactly db Q
    (filter P
       (order_by_pub_date_desc
          (annotate_comment_count db (select_related (Post_objects db))))).
Proof.
  intros HPQ. unfold select_related. split; [|split; [|split]].
  - intros k p. split.
    + intros [r [Hin [<- <-]]].
      apply list_elem_of_filter in Hin as [HP Hin].
      apply elem_of_order_by, elem_of_annotate in Hin as [_ [r0 [Hin [Hk Hp]]]].
      apply elem_of_Post_objects in Hin as [Hl _]. rewrite Hk, Hp in Hl.
      split; [done|]. by apply HPQ.
    + intros [Hl HQ].
      exists (mkPostRow k p (Some (Count_comments db k))). split; [|done].
      apply list_elem_of_filter. split; [by apply HPQ|].
      apply elem_of_order_by, elem_of_annotate. simpl. split; [done|].
      exists (mkPostRow k p None). split; [|done].
      by apply elem_of_Post_objects.
  - intros r Hin.
    apply list_elem_of_filter in Hin as [_ Hin].
    by apply elem_of_order_by, elem_of_annotate in Hin as [? _].
  - apply StronglySorted_filter, order_by_sorted.
  - apply NoDup_pk_filter, NoDup_pk_order_by.
    rewrite pk_annotate. apply NoDup_pk_Post_objects.
Qed.

Lemma category__is_published_true db p :
  category__is_published db p = true ↔
  ∃ c cat, Post.category p = Some c ∧ categories db !! c = Some cat
           ∧ Category.is_published cat = true.
Proof.
  unfold category__is_published. split.
  - destruct (Post.category p) as [c|]; [|done].
    destruct (categories db !! c) as [cat|] eqn:Hc; [|done]. eauto.
  - intros [c [cat [-> [-> Hp]]]]. done.
Qed.

End queryset_facts.

(** ** The index listing *)

(** C1. A post is in the index listing exactly when it passes the Visibility
    Filter at the current time: it is published, its category is published,
    and its publication date is not after now.  Every returned row carries
    [comment_count], the number of comments on its post, and the rows come
    ordered by publication date, newest first. *)
Theorem PostListView_get_queryset_visible (db : Db) (now : Z) :
  lists_exactly db (λ _ p, visibility_filter db now p)
    (PostListView.get_queryset db now).
Proof.
  unfold PostListView.get_queryset.
  apply annotate_filter_order. intros r. unfold visibility_filter.
  by rewrite category__is_published_true.
Qed.

(** ** Lookups by a unique column *)

Section unique_lookup.

Lemma NoDup_all_equal {A} (l : list A) (x : A) :
  NoDup l → x ∈ l → (∀ y, y ∈ l → y = x) → l = [x].
Proof.
  intros Hnd Hin Hall. destruct l as [|y l]; [by apply elem_of_nil in Hin|].
  assert (y = x) as -> by (apply Hall; left).
  destruct l as [|z l]; [done|].
  assert (z = x) as -> by (apply Hall; right; left).
  apply NoDup_cons in Hnd as [Hnot _]. exfalso. apply Hnot. left.
Qed.

(** A filter of a table that one row passes, and no row under another key,
    evaluates to that row alone. *)
Lemma filter_table_unique {A} (table : gmap nat A) (P : nat * A → Prop)
    `{∀ x, Decision (P x)} k v :
  table !! k = Some v → P (k, v) →
  (∀ k' v', table !! k' = Some v' → P (k', v') → k' = k) →
  filter P (map_to_list table) = [(k, v)].
Proof.
  intros Hl HP Huniq. apply NoDup_all_equal.
  - apply NoDup_filter, NoDup_map_to_list.
  - apply list_elem_of_filter. split; [done|]. by apply elem_of_map_to_list.
  - intros [k' v'] Hin. apply list_elem_of_filter in Hin as [HP' Hin].
    apply elem_of_map_to_list in Hin.
    assert (k' = k) as -> by eauto. congruence.
Qed.

Lemma filter_table_nil {A} (table : gmap nat A) (P : nat * A → Prop)
    `{∀ x, Decision (P x)} :
  filter P (map_to_list table) = [] ↔ ∀ k v, table !! k = Some v → ¬ P (k, v).
Proof.
  split.
  - intros Hnil k v Hl HP.
    assert ((k, v) ∈ filter P (map_to_list table)) as Hin.
    { apply list_elem_of_filter. split; [done|]. by apply elem_of_map_to_list. }
    rewrite Hnil in Hin. by apply elem_of_nil in Hin.
  - intros Hnone. destruct (filter P (map_to_list table)) as [|[k v] l] eqn:E; [done|].
    assert ((k, v) ∈ filter P (map_to_list table)) as Hin by (rewrite E; left).
    apply list_elem_of_filter in Hin as [HP Hin].
    apply elem_of_map_to_list in Hin. exfalso. by apply (Hnone k v).
Qed.

Lemma filter_fmap_comm {A B} (f : A → B) (P : B → Prop) `{∀ x, Decision (P x)}
    (l : list A) :
  filter P (f <$> l) = f <$> filter (λ x, P (f x)) l.
Proof.
  induction l as [|x l IH]; [done|].
  rewrite fmap_cons, !filter_cons. destruct (decide (P (f x))); simpl; by rewrite IH.
Qed.

End unique_lookup.

(** ** The category listing *)

(** C3. Slugs being unique, the category listing fails with [Http404]
    exactly when no category has the slug or the category with the slug is
    not published; otherwise it resolves that category and returns exactly
    its posts that pass the Visibility Filter, each annotated with
    [comment_count], newest first. *)
Theorem CategoryListView_get_queryset_spec (db : Db) (now : Z) (category_slug : string) :
  slug_unique db →
  (CategoryListView.get_queryset db now category_slug = Raise Http404 ↔
     (¬ ∃ k c, categories db !! k = Some c ∧ Category.slug c = category_slug)
     ∨ (∃ k c, categories db !! k = Some c ∧ Category.slug c = category_slug
               ∧ Category.is_published c = false))
  ∧ (∀ k c,
       categories db !! k = Some c → Category.slug c = category_slug →
       Category.is_published c = true →
       ∃ qs, CategoryListView.get_queryset db now category_slug = Ok ((k, c), qs)
             ∧ lists_exactly db
                 (λ _ p, Post.category p = Some k ∧ visibility_filter db now p) qs).
Proof.
  intros Huniq.
  assert (∀ k c,
    categories db !! k = Some c → Category.slug c = category_slug →
    Category.is_published c = true →
    filter (λ kc : nat * Category.t, Category.slug kc.2 = category_slug
                                     ∧ Category.is_published kc.2 = true)
      (map_to_list (categories db)) = [(k, c)]) as Hone.
  { intros k c Hl Hs Hp. apply filter_table_unique; [done|done|].
    intros k' c' Hl' [Hs' _]. simpl in Hs'. eapply Huniq; eauto. congruence. }
  split.
  - unfold CategoryListView.get_queryset, get_object_or_404, get.
    destruct (filter _ (map_to_list (categories db))) as [|[k c] l] eqn:E.
    + split; [intros _|done].
      pose proof (proj1 (filter_table_nil _ _) E) as Hnone. simpl in Hnone.
      destruct (filter (λ kc : nat * Category.t, Category.slug kc.2 = category_slug)
                  (map_to_list (categories db))) as [|[k c] l] eqn:E2.
      * left. intros [k [c [Hl Hs]]].
        by apply (proj1 (filter_table_nil _ _) E2 k c Hl).
      * right. exists k, c.
        assert ((k, c) ∈ filter (λ kc : nat * Category.t, Category.slug kc.2 = category_slug)
                  (map_to_list (categories db))) as Hin by (rewrite E2; left).
        apply list_elem_of_filter in Hin as [Hs Hin]. apply elem_of_map_to_list in Hin.
        simpl in Hs. repeat split; try done.
        destruct (Category.is_published c) eqn:Hp; [|done].
        exfalso. by apply (Hnone k c Hin).
    + assert ((k, c) ∈ filter (λ kc : nat * Category.t, Category.slug kc.2 = category_slug
                                 ∧ Category.is_published kc.2 = true)
                (map_to_list (categories db))) as Hin by (rewrite E; left).
      apply list_elem_of_filter in Hin as [[Hs Hp] Hin]. apply elem_of_map_to_list in Hin.
      simpl in Hs, Hp. pose proof (Hone k c Hin Hs Hp) as E'. injection E' as ->.
      simpl. split; [done|].
      intros [Hno | [k' [c' [Hl' [Hs' Hp']]]]].
      * exfalso. apply Hno. eauto.
      * assert (k' = k) as -> by (eapply Huniq; eauto; congruence).
        congruence.
  - intros k c Hl Hs Hp.
    unfold CategoryListView.get_queryset, get_object_or_404.
    rewrite (Hone k c Hl Hs Hp). simpl. eexists. split; [done|].
    apply filter_annotate_order. intros r. unfold visibility_filter. simpl.
    split.
    + intros [Hc [Hpub Hdate]]. repeat split; try done. eauto.
    + intros [Hc [Hpub [_ Hdate]]]. done.
Qed.

(** ** Pagination *)

Section pagination_facts.
Implicit Type qs : list PostRow.

Lemma Paginator_new_listing qs : Paginator.new qs 10 = listing_paginator qs.
Proof. done. Qed.

Lemma num_pages_listing qs :
  Paginator.num_pages (listing_paginator qs)
  = - ((- Z.max 1 (Z.of_nat (length qs))) / 10).
Proof.
  unfold Paginator.num_pages, Paginator.count. simpl.
  rewrite andb_false_r. by rewrite Z.sub_0_r.
Qed.

Lemma num_pages_ge_1 qs : 1 ≤ Paginator.num_pages (listing_paginator qs).
Proof.
  rewrite num_pages_listing.
  assert ((- Z.max 1 (Z.of_nat (length qs))) / 10 < 0); [|lia].
  apply Z.div_lt_upper_bound; lia.
Qed.

(** The pages cover the listing: the last page starts inside it (or at its
    start when it is empty). *)
Lemma num_pages_bound qs :
  (Paginator.num_pages (listing_paginator qs) - 1) * 10
    < Z.max 1 (Z.of_nat (length qs))
    ≤ Paginator.num_pages (listing_paginator qs) * 10.
Proof.
  rewrite num_pages_listing.
  pose proof (Z.div_mod (- Z.max 1 (Z.of_nat (length qs))) 10 ltac:(lia)) as Hdm.
  pose proof (Z.mod_pos_bound (- Z.max 1 (Z.of_nat (length qs))) 10 ltac:(lia)).
  lia.
Qed.

Lemma validate_number_in_range qs v n :
  Py.int v = Ok n → 1 ≤ n ≤ Paginator.num_pages (listing_paginator qs) →
  Paginator.validate_number (listing_paginator qs) v = Ok n.
Proof.
  intros Hv Hn. unfold Paginator.validate_number. rewrite Hv.
  rewrite bool_decide_eq_false_2 by lia.
  by rewrite bool_decide_eq_false_2 by lia.
Qed.

Lemma validate_number_out_of_range qs v n :
  Py.int v = Ok n → n < 1 ∨ n > Paginator.num_pages (listing_paginator qs) →
  Paginator.validate_number (listing_paginator qs) v = Raise EmptyPage.
Proof.
  intros Hv Hn. unfold Paginator.validate_number. rewrite Hv.
  pose proof (num_pages_ge_1 qs).
  destruct (decide (n < 1)).
  - by rewrite bool_decide_eq_true_2 by lia.
  - rewrite bool_decide_eq_false_2 by lia.
    rewrite bool_decide_eq_true_2 by lia.
    by rewrite bool_decide_eq_false_2 by lia.
Qed.

Lemma validate_number_not_int qs v e :
  Py.int v = Raise e →
  Paginator.validate_number (listing_paginator qs) v = Raise PageNotAnInteger.
Proof. intros Hv. unfold Paginator.validate_number. by rewrite Hv. Qed.

Lemma slice_page qs (n : Z) :
  1 ≤ n →
  Py.slice qs ((n - 1) * 10)
    (if bool_decide ((n - 1) * 10 + 10 + 0 >= Z.of_nat (length qs))
     then Z.of_nat (length qs) else (n - 1) * 10 + 10)
  = take 10 (drop (Z.to_nat ((n - 1) * 10)) qs).
Proof.
  intros Hn. unfold Py.slice. case_bool_decide as Hc.
  - rewrite Nat2Z.id.
    rewrite (take_ge (drop _ _)) by (rewrite length_drop; lia).
    by rewrite take_ge by (rewrite length_drop; lia).
  - f_equal. lia.
Qed.

Lemma Paginator_page_in_range qs v n :
  Py.int v = Ok n → 1 ≤ n ≤ Paginator.num_pages (listing_paginator qs) →
  Paginator_page (listing_paginator qs) v = Ok (listing_page qs n).
Proof.
  intros Hv Hn. unfold Paginator_page.
  rewrite (validate_number_in_range qs v n Hv Hn). simpl.
  unfold listing_page, Paginator.count. simpl. by rewrite slice_page by lia.
Qed.

Lemma Paginator_page_out_of_range qs v n :
  Py.int v = Ok n → n < 1 ∨ n > Paginator.num_pages (listing_paginator qs) →
  Paginator_page (listing_paginator qs) v = Raise EmptyPage.
Proof.
  intros Hv Hn. unfold Paginator_page.
  by rewrite (validate_number_out_of_range qs v n Hv Hn).
Qed.

Lemma clamped_page_number_range qs v :
  1 ≤ clamped_page_number (listing_paginator qs) v
    ≤ Paginator.num_pages (listing_paginator qs).
Proof.
  pose proof (num_pages_ge_1 qs). unfold clamped_page_number.
  destruct (Py.int v); [|lia]. case_bool_decide; lia.
Qed.

(** [get_page] never fails on a listing. *)
Lemma Paginator_get_page_listing qs v :
  Paginator_get_page (listing_paginator qs) v
  = Ok (listing_page qs (clamped_page_number (listing_paginator qs) v)).
Proof.
  pose proof (clamped_page_number_range qs v) as Hr.
  unfold Paginator_get_page, clamped_page_number in *.
  destruct (Py.int v) as [n|e] eqn:Hv.
  - case_bool_decide as Hn.
    + rewrite (validate_number_in_range qs v n Hv Hn). simpl.
      by apply Paginator_page_in_range.
    + rewrite (validate_number_out_of_range qs v n Hv) by lia. simpl.
      by apply Paginator_page_in_range.
  - rewrite (validate_number_not_int qs v e Hv). simpl.
    by apply Paginator_page_in_range.
Qed.

(** What [paginate_queryset] does with the page of the query string. *)
Lemma paginate_queryset_page request qs v n :
  Py.or_ (Py.or_ Py.None_ (Py.of_option (Request.GET request !! "page"))) (Py.Int 1) = v →
  Py.int v = Ok n →
  ListView.paginate_queryset request qs 10
  = if bool_decide (1 ≤ n ≤ Paginator.num_pages (listing_paginator qs))
    then Ok (mkListContext (listing_paginator qs) (listing_page qs n)
               (Page.has_other_pages (listing_page qs n))
               (Page.object_list (listing_page qs n)))
    else Raise Http404.
Proof.
  intros Hv Hn. unfold ListView.paginate_queryset, ListView.page_kwarg.
  rewrite Hv, Hn. simpl. fold (listing_paginator qs).
  case_bool_decide as Hr.
  - by rewrite (Paginator_page_in_range qs (Py.Int n) n).
  - by rewrite (Paginator_page_out_of_range qs (Py.Int n) n) by (done || lia).
Qed.

Lemma paginate_queryset_not_a_number request qs s :
  Request.GET request !! "page" = Some s → s ≠ "" → s ≠ "last" →
  Py.int_of_string s = None →
  ListView.paginate_queryset request qs 10 = Raise Http404.
Proof.
  intros Hs Hne Hlast Hint. unfold ListView.paginate_queryset, ListView.page_kwarg.
  rewrite Hs. unfold Py.or_ at 2. simpl.
  unfold Py.or_, Py.truthy. rewrite bool_decide_eq_false_2 by done. simpl.
  rewrite Hint. rewrite bool_decide_eq_false_2 by congruence. done.
Qed.

Lemma paginate_queryset_number request qs s n :
  Request.GET request !! "page" = Some s → Py.int_of_string s = Some n →
  ListView.paginate_queryset request qs 10
  = if bool_decide (1 ≤ n ≤ Paginator.num_pages (listing_paginator qs))
    then Ok (mkListContext (listing_paginator qs) (listing_page qs n)
               (Page.has_other_pages (listing_page qs n))
               (Page.object_list (listing_page qs n)))
    else Raise Http404.
Proof.
  intros Hs Hint. apply (paginate_queryset_page request qs (Py.Str s)).
  - rewrite Hs. unfold Py.or_ at 2. simpl. unfold Py.or_, Py.truthy.
    rewrite bool_decide_eq_false_2; [done|].
    intros ->. by vm_compute in Hint.
  - simpl. by rewrite Hint.
Qed.

End pagination_facts.

(** C7. Listings are cut into pages of ten.  When the index listing holds 25
    posts, page 1 shows its first ten rows and has a next page, and page 3
    shows its last five rows and has no next page. *)
Theorem PostListView_pages_of_ten (db : Db) (now : Z) (request : Request.t) :
  Request.method request = Method.GET →
  length (PostListView.get_queryset db now) = 25%nat →
  PostListView.paginate_by = 10 ∧ CategoryListView.paginate_by = 10
  ∧ (Request.GET request !! "page" = Some "1" →
     ∃ context,
       PostListView.view db now request
         = Ok (TemplateResponse "blog/index.html" context)
       ∧ Paginator.per_page (lc_paginator context) = 10
       ∧ Page.object_list (lc_page_obj context)
           = take 10 (PostListView.get_queryset db now)
       ∧ length (Page.object_list (lc_page_obj context)) = 10%nat
       ∧ Page.has_next (lc_page_obj context) = true)
  ∧ (Request.GET request !! "page" = Some "3" →
     ∃ context,
       PostListView.view db now request
         = Ok (TemplateResponse "blog/index.html" context)
       ∧ Paginator.per_page (lc_paginator context) = 10
       ∧ Page.object_list (lc_page_obj context)
           = drop 20 (PostListView.get_queryset db now)
       ∧ length (Page.object_list (lc_page_obj context)) = 5%nat
       ∧ Page.has_next (lc_page_obj context) = false).
Proof.
  intros Hm Hlen.
  assert (Paginator.num_pages (listing_paginator (PostListView.get_queryset db now)) = 3)
    as Hnum by (rewrite num_pages_listing, Hlen; done).
  split; [done|]. split; [done|]. split.
  - intros Hp. unfold PostListView.view. rewrite Hm.
    unfold PostListView.paginate_by.
    rewrite (paginate_queryset_number request _ "1" 1 Hp eq_refl).
    rewrite bool_decide_eq_true_2 by lia. simpl.
    eexists. split; [done|]. simpl. split; [done|]. split; [done|].
    split.
    + rewrite length_take, length_drop, Hlen. done.
    + unfold Page.has_next. simpl. fold (listing_paginator (PostListView.get_queryset db now)).
      rewrite Hnum. done.
  - intros Hp. unfold PostListView.view. rewrite Hm.
    unfold PostListView.paginate_by.
    rewrite (paginate_queryset_number request _ "3" 3 Hp eq_refl).
    rewrite bool_decide_eq_true_2 by lia. simpl.
    eexists. split; [done|]. simpl. split; [done|].
    change (Z.to_nat ((3 - 1) * 10)) with 20%nat.
    assert (take 10 (drop 20 (PostListView.get_queryset db now))
            = drop 20 (PostListView.get_queryset db now)) as ->.
    { apply take_ge. rewrite length_drop, Hlen. simpl. lia. }
    split; [done|]. split.
    + rewrite length_drop, Hlen. done.
    + unfold Page.has_next. simpl. fold (listing_paginator (PostListView.get_queryset db now)).
      rewrite Hnum. done.
Qed.

Lemma PostListView_pages_of_ten_witness :
  length (PostListView.get_queryset Demo.db25 Demo.now) = 25%nat
  ∧ (∃ context,
       PostListView.view Demo.db25 Demo.now (Demo.get None (Some "1"))
         = Ok (TemplateResponse "blog/index.html" context)
       ∧ length (Page.object_list (lc_page_obj context)) = 10%nat
       ∧ Page.has_next (lc_page_obj context) = true)
  ∧ (∃ context,
       PostListView.view Demo.db25 Demo.now (Demo.get (Some 2%nat) (Some "3"))
         = Ok (TemplateResponse "blog/index.html" context)
       ∧ length (Page.object_list (lc_page_obj context)) = 5%nat
       ∧ Page.has_next (lc_page_obj context) = false).
Proof.
  split; [by vm_compute|]. split.
  - destruct (PostListView_pages_of_ten Demo.db25 Demo.now (Demo.get None (Some "1")))
      as (_ & _ & H1 & _); [done|by vm_compute|].
    destruct H1 as (context & Hv & _ & _ & Hl & Hn); [by vm_compute|].
    exists context. done.
  - destruct (PostListView_pages_of_ten Demo.db25 Demo.now (Demo.get (Some 2%nat) (Some "3")))
      as (_ & _ & _ & H3); [done|by vm_compute|].
    destruct H3 as (context & Hv & _ & _ & Hl & Hn); [by vm_compute|].
    exists context. done.
Defined.

(** ** The post page *)

(** C9. The post page is served for every post that exists, to every
    requester, signed in or not, owner or not: the view reads the post by
    primary key and looks at neither its [is_published] flag, nor its
    category, nor its publication date. *)
Theorem PostDetailView_ignores_visibility (db : Db) (request : Request.t)
    (k : nat) (p : Post.t) :
  Request.method request = Method.GET →
  posts db !! k = Some p →
  PostDetailView.view db request k
  = Ok (TemplateResponse "blog/detail.html"
          (mkPostDetailContext (k, p)
             (filter (λ kc, Comment.post kc.2 = k) (map_to_list (comments db))))).
Proof.
  intros Hm Hl. unfold PostDetailView.view, get_object_pk, get_pk.
  by rewrite Hm, Hl.
Qed.

Lemma PostDetailView_ignores_visibility_witness :
  (Post.is_published Demo.post_hidden = false
   ∧ ¬ visibility_filter Demo.db Demo.now Demo.post_hidden
   ∧ ¬ visibility_filter Demo.db Demo.now Demo.post_future)
  ∧ PostDetailView.view Demo.db (Demo.get None None) 6
    = Ok (TemplateResponse "blog/detail.html" (mkPostDetailContext (6%nat, Demo.post_hidden) []))
  ∧ PostDetailView.view Demo.db (Demo.get (Some 2%nat) None) 7
    = Ok (TemplateResponse "blog/detail.html" (mkPostDetailContext (7%nat, Demo.post_future) [])).
Proof.
  split; [|split].
  - split; [done|]. split.
    + intros [H _]. by vm_compute in H.
    + intros (_ & _ & H). by vm_compute in H.
  - by apply (PostDetailView_ignores_visibility Demo.db (Demo.get None None) 6 Demo.post_hidden).
  - by apply (PostDetailView_ignores_visibility Demo.db (Demo.get (Some 2%nat) None) 7
                Demo.post_future).
Defined.

(** ** The profile page *)

Section profile_facts.

Lemma ProfileDetailView_get_object_missing db username :
  (∀ uid u, users db !! uid = Some u → User.username u ≠ username) →
  ProfileDetailView.get_object db username = Raise Http404.
Proof.
  intros Hnone. unfold ProfileDetailView.get_object, ProfileDetailView.get_queryset.
  rewrite filter_fmap_comm. simpl.
  rewrite (proj2 (filter_table_nil (users db) _)); [done|].
  intros uid u Hl. simpl. by apply (Hnone uid).
Qed.

Lemma ProfileDetailView_get_object_found db username uid u :
  username_unique db → users db !! uid = Some u → User.username u = username →
  ProfileDetailView.get_object db username
  = Ok ((uid, u), filter (λ r, Post.author (post r) = uid)
                    (ProfileDetailView.prefetch_queryset db)).
Proof.
  intros Huniq Hl Hu. unfold ProfileDetailView.get_object, ProfileDetailView.get_queryset.
  rewrite filter_fmap_comm. simpl.
  rewrite (filter_table_unique (users db) _ uid u); [done|done|done|].
  intros uid' u' Hl' Hu'. simpl in Hu'. eapply Huniq; eauto. congruence.
Qed.

Lemma ProfileDetailView_get_context_data_ok request object :
  ProfileDetailView.get_context_data request object
  = Ok (mkProfileContext object.1
          (listing_page object.2
             (clamped_page_number (listing_paginator object.2)
                (Py.of_option (Request.GET request !! "page"))))).
Proof.
  unfold ProfileDetailView.get_context_data.
  rewrite Paginator_new_listing, Paginator_get_page_listing. done.
Qed.

Lemma username_unique_check db :
  NoDup ((λ ku, User.username ku.2) <$> map_to_list (users db)) → username_unique db.
Proof.
  intros Hnd k1 u1 k2 u2 H1 H2 Heq.
  apply elem_of_map_to_list, list_elem_of_lookup in H1 as [i Hi].
  apply elem_of_map_to_list, list_elem_of_lookup in H2 as [j Hj].
  assert (i = j) as ->.
  { eapply NoDup_lookup; [exact Hnd| |].
    - rewrite list_lookup_fmap, Hi. done.
    - rewrite list_lookup_fmap, Hj. simpl. by rewrite Heq. }
  congruence.
Qed.

Lemma slug_unique_check db :
  NoDup ((λ kc, Category.slug kc.2) <$> map_to_list (categories db)) → slug_unique db.
Proof.
  intros Hnd k1 c1 k2 c2 H1 H2 Heq.
  apply elem_of_map_to_list, list_elem_of_lookup in H1 as [i Hi].
  apply elem_of_map_to_list, list_elem_of_lookup in H2 as [j Hj].
  assert (i = j) as ->.
  { eapply NoDup_lookup; [exact Hnd| |].
    - rewrite list_lookup_fmap, Hi. done.
    - rewrite list_lookup_fmap, Hj. simpl. by rewrite Heq. }
  congruence.
Qed.

Lemma Demo_username_unique : username_unique Demo.db.
Proof. apply username_unique_check. apply (bool_decide_unpack _). by vm_compute. Defined.

Lemma Demo_slug_unique : slug_unique Demo.db.
Proof. apply slug_unique_check. apply (bool_decide_unpack _). by vm_compute. Defined.

End profile_facts.

(** C4. The profile page fails with [Http404] when no user has the
    username.  Otherwise (usernames being unique) it shows that user, and the
    listing it paginates holds every post of the user and nothing else: no
    visibility filter is applied, so unpublished posts and posts dated in the
    future are in it.  The rows are annotated with [comment_count] and come
    newest first. *)
Theorem ProfileDetailView_lists_all_posts (db : Db) (request : Request.t)
    (username : string) :
  Request.method request = Method.GET →
  ((∀ uid u, users db !! uid = Some u → User.username u ≠ username) →
     ProfileDetailView.view db request username = Raise Http404)
  ∧ (∀ uid u,
       username_unique db → users db !! uid = Some u → User.username u = username →
       ∃ page_obj,
         ProfileDetailView.view db request username
           = Ok (TemplateResponse "blog/profile.html" (mkProfileContext (uid, u) page_obj))
         ∧ lists_exactly db (λ _ p, Post.author p = uid)
             (Paginator.object_list (Page.paginator page_obj))).
Proof.
  intros Hm. unfold ProfileDetailView.view. rewrite Hm. split.
  - intros Hnone. by rewrite ProfileDetailView_get_object_missing.
  - intros uid u Huniq Hl Hu.
    rewrite (ProfileDetailView_get_object_found db username uid u Huniq Hl Hu). simpl.
    rewrite ProfileDetailView_get_context_data_ok. simpl.
    eexists. split; [done|]. simpl.
    unfold ProfileDetailView.prefetch_queryset. by apply annotate_order_filter.
Qed.

Lemma ProfileDetailView_lists_all_posts_witness :
  ProfileDetailView.view Demo.db (Demo.get None None) "carol" = Raise Http404
  ∧ ∃ page_obj,
      ProfileDetailView.view Demo.db (Demo.get None None) "alice"
        = Ok (TemplateResponse "blog/profile.html" (mkProfileContext (1%nat, Demo.alice) page_obj))
      ∧ (∃ r, r ∈ Paginator.object_list (Page.paginator page_obj)
              ∧ pk r = 6%nat ∧ post r = Demo.post_hidden)
      ∧ (∃ r, r ∈ Paginator.object_list (Page.paginator page_obj)
              ∧ pk r = 7%nat ∧ post r = Demo.post_future).
Proof.
  destruct (ProfileDetailView_lists_all_posts Demo.db (Demo.get None None) "carol" eq_refl)
    as [Hmissing _].
  destruct (ProfileDetailView_lists_all_posts Demo.db (Demo.get None None) "alice" eq_refl)
    as [_ Hfound].
  split.
  - apply Hmissing. intros uid u Hl.
    assert ((uid, u) ∈ map_to_list (users Demo.db)) as Hin by by apply elem_of_map_to_list.
    vm_compute in Hin. intros Hu.
    repeat (apply elem_of_cons in Hin as [Hin | Hin]; [by inversion Hin; subst|]).
    by apply elem_of_nil in Hin.
  - destruct (Hfound 1%nat Demo.alice Demo_username_unique eq_refl eq_refl)
      as (page_obj & Hv & Hall & _).
    exists page_obj. split; [exact Hv|]. split.
    + apply Hall. by vm_compute.
    + apply Hall. by vm_compute.
Defined.

Lemma CategoryListView_get_queryset_spec_witness :
  slug_unique Demo.db
  ∧ CategoryListView.get_queryset Demo.db Demo.now "drafts" = Raise Http404
  ∧ CategoryListView.get_queryset Demo.db Demo.now "sports" = Raise Http404
  ∧ ∃ qs, CategoryListView.get_queryset Demo.db Demo.now "news"
            = Ok ((1%nat, Demo.news), qs)
          ∧ (∃ r, r ∈ qs ∧ pk r = 5%nat ∧ post r = Demo.post_a).
Proof.
  split; [exact Demo_slug_unique|].
  destruct (CategoryListView_get_queryset_spec Demo.db Demo.now "drafts" Demo_slug_unique)
    as [Hdrafts _].
  destruct (CategoryListView_get_queryset_spec Demo.db Demo.now "sports" Demo_slug_unique)
    as [Hsports _].
  destruct (CategoryListView_get_queryset_spec Demo.db Demo.now "news" Demo_slug_unique)
    as [_ Hnews].
  split; [|split].
  - apply Hdrafts. right. exists 2%nat, Demo.drafts. by vm_compute.
  - apply Hsports. left. intros (k & c & Hl & Hs).
    assert ((k, c) ∈ map_to_list (categories Demo.db)) as Hin by by apply elem_of_map_to_list.
    vm_compute in Hin.
    repeat (apply elem_of_cons in Hin as [Hin | Hin]; [by inversion Hin; subst|]).
    by apply elem_of_nil in Hin.
  - destruct (Hnews 1%nat Demo.news eq_refl eq_refl eq_refl) as (qs & Hq & Hall & _).
    exists qs. split; [exact Hq|]. apply Hall.
    split; [by vm_compute|]. split; [done|]. split; [done|]. split.
    + exists 1%nat, Demo.news. by vm_compute.
    + by vm_compute.
Defined.

(** ** Page numbers out of range *)

(** C10. The listings treat a bad page number in two ways.  The index and the
    category listing, paginated by [paginate_by], fail with [Http404] when the
    page is not a number (and is not the word [last]) and when it is a number
    out of range.  The profile page, paginated by [Paginator.get_page], never
    fails: it shows page 1 when the page is missing or not a number, the last
    page when the number is out of range, and the requested page otherwise. *)
Theorem page_number_policies (db : Db) (now : Z) (request : Request.t) :
  Request.method request = Method.GET →
  (∀ s, Request.GET request !! "page" = Some s →
        ascii_only s → s ≠ "" → s ≠ "last" → Py.int_of_string s = None →
        PostListView.view db now request = Raise Http404
        ∧ ∀ category_slug category qs,
            CategoryListView.get_queryset db now category_slug = Ok (category, qs) →
            CategoryListView.view db now request category_slug = Raise Http404)
  ∧ (∀ s n, Request.GET request !! "page" = Some s → Py.int_of_string s = Some n →
        (n < 1 ∨ n > Paginator.num_pages (listing_paginator (PostListView.get_queryset db now)) →
         PostListView.view db now request = Raise Http404)
        ∧ ∀ category_slug category qs,
            CategoryListView.get_queryset db now category_slug = Ok (category, qs) →
            n < 1 ∨ n > Paginator.num_pages (listing_paginator qs) →
            CategoryListView.view db now request category_slug = Raise Http404)
  ∧ (∀ username object,
        ProfileDetailView.get_object db username = Ok object →
        ∃ n,
          ProfileDetailView.view db request username
            = Ok (TemplateResponse "blog/profile.html"
                    (mkProfileContext object.1 (listing_page object.2 n)))
          ∧ 1 ≤ n ≤ Paginator.num_pages (listing_paginator object.2)
          ∧ (Request.GET request !! "page" = None → n = 1)
          ∧ (∀ s, Request.GET request !! "page" = Some s → ascii_only s →
                  Py.int_of_string s = None → n = 1)
          ∧ (∀ s m, Request.GET request !! "page" = Some s →
                    Py.int_of_string s = Some m →
                    (m < 1 ∨ m > Paginator.num_pages (listing_paginator object.2) →
                     n = Paginator.num_pages (listing_paginator object.2))
                    ∧ (1 ≤ m ≤ Paginator.num_pages (listing_paginator object.2) → n = m))).
Proof.
  intros Hm. split; [|split].
  - intros s Hs _ Hne Hlast Hint. split.
    + unfold PostListView.view. rewrite Hm. unfold PostListView.paginate_by.
      by rewrite (paginate_queryset_not_a_number request _ s).
    + intros category_slug category qs Hq.
      unfold CategoryListView.view. rewrite Hm, Hq. simpl.
      unfold CategoryListView.paginate_by.
      by rewrite (paginate_queryset_not_a_number request _ s).
  - intros s n Hs Hint. split.
    + intros Hn. unfold PostListView.view. rewrite Hm. unfold PostListView.paginate_by.
      rewrite (paginate_queryset_number request _ s n Hs Hint).
      by rewrite bool_decide_eq_false_2 by lia.
    + intros category_slug category qs Hq Hn.
      unfold CategoryListView.view. rewrite Hm, Hq. simpl.
      unfold CategoryListView.paginate_by.
      rewrite (paginate_queryset_number request _ s n Hs Hint).
      by rewrite bool_decide_eq_false_2 by lia.
  - intros username object Hobj.
    exists (clamped_page_number (listing_paginator object.2)
              (Py.of_option (Request.GET request !! "page"))).
    split; [|split; [|split; [|split]]].
    + unfold ProfileDetailView.view. rewrite Hm, Hobj. simpl.
      by rewrite ProfileDetailView_get_context_data_ok.
    + apply clamped_page_number_range.
    + intros ->. done.
    + intros s -> _ Hint. unfold clamped_page_number. simpl. by rewrite Hint.
    + intros s m -> Hint. unfold clamped_page_number. simpl. rewrite Hint. split.
      * intros Hr. by rewrite bool_decide_eq_false_2 by lia.
      * intros Hr. by rewrite bool_decide_eq_true_2 by lia.
Qed.

Lemma page_number_policies_witness :
  Paginator.num_pages (listing_paginator (PostListView.get_queryset Demo.db25 Demo.now)) = 3
  ∧ (ascii_only "abc" ∧ Py.int_of_string "abc" = None
     ∧ PostListView.view Demo.db25 Demo.now (Demo.get None (Some "abc")) = Raise Http404
     ∧ CategoryListView.view Demo.db25 Demo.now (Demo.get None (Some "abc")) "news"
       = Raise Http404)
  ∧ (ascii_only Demo.page_sep_2 ∧ Py.int_of_string Demo.page_sep_2 = None
     ∧ PostListView.view Demo.db25 Demo.now (Demo.get None (Some Demo.page_sep_2))
       = Raise Http404)
  ∧ (Py.int_of_string "7" = Some 7
     ∧ PostListView.view Demo.db25 Demo.now (Demo.get None (Some "7")) = Raise Http404
     ∧ CategoryListView.view Demo.db25 Demo.now (Demo.get None (Some "0")) "news"
       = Raise Http404)
  ∧ (∃ object,
       ProfileDetailView.get_object Demo.db25 "alice" = Ok object
       ∧ Paginator.num_pages (listing_paginator object.2) = 3
       ∧ length (Page.object_list (listing_page object.2 1)) = 10%nat
       ∧ length (Page.object_list (listing_page object.2 3)) = 5%nat
       ∧ ProfileDetailView.view Demo.db25 (Demo.get None (Some "abc")) "alice"
         = Ok (TemplateResponse "blog/profile.html"
                 (mkProfileContext object.1 (listing_page object.2 1)))
       ∧ ProfileDetailView.view Demo.db25 (Demo.get None (Some Demo.page_sep_2)) "alice"
         = Ok (TemplateResponse "blog/profile.html"
                 (mkProfileContext object.1 (listing_page object.2 1)))
       ∧ ProfileDetailView.view Demo.db25 (Demo.get None (Some "2")) "alice"
         = Ok (TemplateResponse "blog/profile.html"
                 (mkProfileContext object.1 (listing_page object.2 2)))
       ∧ ProfileDetailView.view Demo.db25 (Demo.get None (Some "7")) "alice"
         = Ok (TemplateResponse "blog/profile.html"
                 (mkProfileContext object.1 (listing_page object.2 3)))).
Proof.
  assert (ascii_only "abc") as Habc.
  { unfold ascii_only. apply (bool_decide_unpack _). by vm_compute. }
  assert (ascii_only Demo.page_sep_2) as Hsep.
  { unfold ascii_only. apply (bool_decide_unpack _). by vm_compute. }
  assert (Demo.page_sep_2 ≠ "" ∧ Demo.page_sep_2 ≠ "last") as [Hsep1 Hsep2]
    by (split; intros Heq; by vm_compute in Heq).
  assert (Paginator.num_pages
            (listing_paginator (PostListView.get_queryset Demo.db25 Demo.now)) = 3) as HN
    by by vm_compute.
  assert (∃ qs, CategoryListView.get_queryset Demo.db25 Demo.now "news"
                = Ok ((1%nat, Demo.news), qs)
                ∧ Paginator.num_pages (listing_paginator qs) = 3) as (qs & Hqs & _).
  { eexists. split; by vm_compute. }
  pose (object := ((1%nat, Demo.alice),
                   filter (λ r, Post.author (post r) = 1%nat)
                     (ProfileDetailView.prefetch_queryset Demo.db25))).
  assert (ProfileDetailView.get_object Demo.db25 "alice" = Ok object) as Hobj
    by (by apply ProfileDetailView_get_object_found; [apply Demo_username_unique|..]).
  assert (Paginator.num_pages (listing_paginator object.2) = 3) as HP by by vm_compute.
  destruct (page_number_policies Demo.db25 Demo.now (Demo.get None (Some "abc")) eq_refl)
    as (Hnan & _ & Hprofile_abc).
  destruct (page_number_policies Demo.db25 Demo.now
              (Demo.get None (Some Demo.page_sep_2)) eq_refl)
    as (Hnan_sep & _ & Hprofile_sep).
  destruct (page_number_policies Demo.db25 Demo.now (Demo.get None (Some "7")) eq_refl)
    as (_ & Hseven & Hprofile_7).
  destruct (page_number_policies Demo.db25 Demo.now (Demo.get None (Some "2")) eq_refl)
    as (_ & _ & Hprofile_2).
  destruct (page_number_policies Demo.db25 Demo.now (Demo.get None (Some "0")) eq_refl)
    as (_ & Hzero & _).
  split; [exact HN|]. split; [|split; [|split]].
  - pose proof (Hnan "abc" eq_refl Habc ltac:(done) ltac:(done) eq_refl) as [Hindex Hcat].
    split; [exact Habc|]. split; [reflexivity|]. split; [exact Hindex|].
    exact (Hcat "news" _ _ Hqs).
  - pose proof (Hnan_sep Demo.page_sep_2 eq_refl Hsep Hsep1 Hsep2 eq_refl) as [Hindex _].
    split; [exact Hsep|]. split; [reflexivity|]. exact Hindex.
  - split; [reflexivity|]. split.
    + pose proof (Hseven "7" 7 eq_refl eq_refl) as [Hindex _].
      apply Hindex. right. rewrite HN. lia.
    + pose proof (Hzero "0" 0 eq_refl eq_refl) as [_ Hcat].
      apply (Hcat "news" _ _ Hqs). left. lia.
  - exists object. split; [exact Hobj|]. split; [exact HP|].
    split; [by vm_compute|]. split; [by vm_compute|].
    split; [|split; [|split]].
    + destruct (Hprofile_abc "alice" object Hobj) as (n & Hv & _ & _ & Hnan' & _).
      rewrite (Hnan' "abc" eq_refl Habc eq_refl) in Hv. exact Hv.
    + destruct (Hprofile_sep "alice" object Hobj) as (n & Hv & _ & _ & Hnan' & _).
      rewrite (Hnan' Demo.page_sep_2 eq_refl Hsep eq_refl) in Hv. exact Hv.
    + destruct (Hprofile_2 "alice" object Hobj) as (n & Hv & _ & _ & _ & Hnum).
      pose proof (Hnum "2" 2 eq_refl eq_refl) as [_ Hin].
      rewrite Hin in Hv; [exact Hv|]. rewrite HP. lia.
    + destruct (Hprofile_7 "alice" object Hobj) as (n & Hv & _ & _ & _ & Hnum).
      pose proof (Hnum "7" 7 eq_refl eq_refl) as [Hlast _].
      rewrite Hlast, HP in Hv; [exact Hv|]. rewrite HP. lia.
Defined.

(** ** The ownership gate *)

Section gate_facts.
Context {C : Type}.

Lemma LoginRequiredMixin_anonymous (request : Request.t) (db : Db)
    (super_dispatch : result (Response C * Db)) :
  Request.user request = None →
  LoginRequiredMixin.dispatch request db super_dispatch
  = Ok (HttpResponseRedirect Route.login, db).
Proof.
  intros Hu. unfold LoginRequiredMixin.dispatch, AccessMixin.handle_no_permission,
    Request.is_authenticated. by rewrite Hu.
Qed.

Lemma LoginRequiredMixin_authenticated (request : Request.t) (db : Db)
    (super_dispatch : result (Response C * Db)) uid :
  Request.user request = Some uid →
  LoginRequiredMixin.dispatch request db super_dispatch = super_dispatch.
Proof.
  intros Hu. unfold LoginRequiredMixin.dispatch, Request.is_authenticated.
  by rewrite Hu.
Qed.

(** A signed-in user who is not the author of the object is stopped by the
    test, whatever the view would have done. *)
Lemma AuthorRequiredMixin_stops_non_author {O} (table : gmap nat O)
    (author_of : O → nat) (request : Request.t) (db : Db) (k : nat) (o : O) uid
    (super_dispatch : result (Response C * Db)) :
  Request.user request = Some uid → table !! k = Some o → author_of o ≠ uid →
  UserPassesTestMixin.dispatch request db
    (AuthorRequiredMixin.test_func (get_object_pk table k) author_of request)
    super_dispatch
  = Raise PermissionDenied.
Proof.
  intros Hu Hl Hne.
  unfold UserPassesTestMixin.dispatch, AuthorRequiredMixin.test_func,
    get_object_pk, get_pk, AccessMixin.handle_no_permission, Request.is_authenticated.
  rewrite Hl, Hu. simpl.
  rewrite bool_decide_eq_false_2 by congruence. done.
Qed.

End gate_facts.

(** C2. Every request to update or delete a post or a comment passes the same
    gate, whatever its method.  From an anonymous requester it is answered by
    a redirect to the login page.  From a signed-in user who is not the author
    of the post or comment it is rejected with [PermissionDenied].  In both
    cases the database, and so the post or comment, is left as it was. *)
Theorem owner_gate {models : Models} (db : Db) (request : Request.t) (k : nat) :
  (Request.user request = None →
     PostUpdateView.view db request k = (Ok (HttpResponseRedirect Route.login), db)
     ∧ PostDeleteView.view db request k = (Ok (HttpResponseRedirect Route.login), db)
     ∧ CommentUpdateView.view db request k = (Ok (HttpResponseRedirect Route.login), db)
     ∧ CommentDeleteView.view db request k = (Ok (HttpResponseRedirect Route.login), db))
  ∧ (∀ uid, Request.user request = Some uid →
       (∀ p, posts db !! k = Some p → Post.author p ≠ uid →
          PostUpdateView.view db request k = (Raise PermissionDenied, db)
          ∧ PostDeleteView.view db request k = (Raise PermissionDenied, db))
       ∧ (∀ c, comments db !! k = Some c → Comment.author c ≠ uid →
          CommentUpdateView.view db request k = (Raise PermissionDenied, db)
          ∧ CommentDeleteView.view db request k = (Raise PermissionDenied, db))).
Proof.
  split.
  - intros Hu.
    unfold PostUpdateView.view, PostUpdateView.dispatch,
      PostDeleteView.view, PostDeleteView.dispatch,
      CommentUpdateView.view, CommentUpdateView.dispatch,
      CommentDeleteView.view, CommentDeleteView.dispatch.
    by rewrite !LoginRequiredMixin_anonymous.
  - intros uid Hu. split.
    + intros p Hl Hne.
      unfold PostUpdateView.view, PostUpdateView.dispatch,
        PostDeleteView.view, PostDeleteView.dispatch.
      rewrite !(LoginRequiredMixin_authenticated _ _ _ uid Hu).
      by rewrite !(AuthorRequiredMixin_stops_non_author _ _ _ _ _ p uid _ Hu Hl Hne).
    + intros c Hl Hne.
      unfold CommentUpdateView.view, CommentUpdateView.dispatch,
        CommentDeleteView.view, CommentDeleteView.dispatch.
      rewrite !(LoginRequiredMixin_authenticated _ _ _ uid Hu).
      by rewrite !(AuthorRequiredMixin_stops_non_author _ _ _ _ _ c uid _ Hu Hl Hne).
Qed.

Lemma owner_gate_witness :
  (* an anonymous requester posts an edit of post 5 *)
  PostUpdateView.view (models := Demo.models) Demo.db (Demo.post None [("title", "X")]) 5
    = (Ok (HttpResponseRedirect Route.login), Demo.db)
  (* bob posts an edit and a delete of alice's post 5 *)
  ∧ PostUpdateView.view (models := Demo.models) Demo.db
      (Demo.post (Some 2%nat) [("title", "X"); ("pub_date", "02.01.2020")]) 5
    = (Raise PermissionDenied, Demo.db)
  ∧ PostDeleteView.view Demo.db (Demo.post (Some 2%nat) []) 5
    = (Raise PermissionDenied, Demo.db)
  (* alice posts an edit and a delete of bob's comment 1 *)
  ∧ CommentUpdateView.view (models := Demo.models) Demo.db
      (Demo.post (Some 1%nat) [("text", "edited")]) 1
    = (Raise PermissionDenied, Demo.db)
  ∧ CommentDeleteView.view Demo.db (Demo.post (Some 1%nat) []) 1
    = (Raise PermissionDenied, Demo.db).
Proof.
  split; [|split; [|split; [|split]]].
  - by apply (owner_gate (models := Demo.models) Demo.db (Demo.post None [("title", "X")]) 5).
  - destruct (owner_gate (models := Demo.models) Demo.db
                (Demo.post (Some 2%nat) [("title", "X"); ("pub_date", "02.01.2020")]) 5)
      as [_ Hin].
    destruct (Hin 2%nat eq_refl) as [Hpost _].
    by apply (Hpost Demo.post_a).
  - destruct (owner_gate (models := Demo.models) Demo.db (Demo.post (Some 2%nat) []) 5)
      as [_ Hin].
    destruct (Hin 2%nat eq_refl) as [Hpost _].
    by apply (Hpost Demo.post_a).
  - destruct (owner_gate (models := Demo.models) Demo.db
                (Demo.post (Some 1%nat) [("text", "edited")]) 1) as [_ Hin].
    destruct (Hin 1%nat eq_refl) as [_ Hcomment].
    by apply (Hcomment Demo.comment_1).
  - destruct (owner_gate (models := Demo.models) Demo.db (Demo.post (Some 1%nat) []) 1)
      as [_ Hin].
    destruct (Hin 1%nat eq_refl) as [_ Hcomment].
    by apply (Hcomment Demo.comment_1).
Defined.

(** ** Adding a comment *)

Section insert_facts.

Lemma foldr_max_ge (l : list nat) (k : nat) :
  k ∈ l → (k ≤ foldr Nat.max 0 l)%nat.
Proof.
  induction l as [|x l IH]; [by intros ?%elem_of_nil|].
  intros [->|Hin]%elem_of_cons; simpl; [lia|]. apply IH in Hin. lia.
Qed.

Lemma next_pk_fresh {A} (table : gmap nat A) : table !! next_pk table = None.
Proof.
  destruct (table !! next_pk table) as [row|] eqn:Hl; [|done].
  assert (next_pk table ∈ (map_to_list table).*1) as Hin.
  { apply list_elem_of_fmap. exists (next_pk table, row). split; [done|].
    by apply elem_of_map_to_list. }
  apply foldr_max_ge in Hin. unfold next_pk in Hin at 1. lia.
Qed.

(** One more comment on a post raises the count of that post by one. *)
Lemma Count_comments_insert db cid c :
  comments db !! cid = None →
  Count_comments (set_comments (insert cid c) db) (Comment.post c)
  = S (Count_comments db (Comment.post c)).
Proof.
  intros Hfresh. unfold Count_comments, set_comments. simpl.
  rewrite (filter_Permutation _ _ _ (map_to_list_insert (comments db) cid c Hfresh)).
  rewrite filter_cons. simpl. by rewrite decide_True.
Qed.

End insert_facts.

(** C5. [add_comment] asks for a signed-in user: an anonymous request is sent
    to the login page.  It fails with [Http404] when no post has the key, and
    accepts any post that exists, visible or not.  When the text is valid one
    comment is stored, written by the requester on that post, and the comment
    count of the post grows by one; when it is not valid nothing is stored
    and no error is reported.  Either way the answer is a redirect to the
    page of the post. *)
Theorem add_comment_spec {models : Models} (db : Db) (now : Z) (request : Request.t)
    (k : nat) :
  (Request.user request = None →
     add_comment db now request k = (Ok (HttpResponseRedirect Route.login), db))
  ∧ (∀ uid, Request.user request = Some uid →
       (posts db !! k = None → add_comment db now request k = (Raise Http404, db))
       ∧ (∀ p, posts db !! k = Some p →
            (∀ text, AddCommentForm.is_valid (Request.POST request) = Some text →
               ∃ cid,
                 comments db !! cid = None
                 ∧ add_comment db now request k
                   = (Ok (HttpResponseRedirect (Route.blog_post_detail k)),
                      set_comments (insert cid (Comment.mk text uid k now)) db)
                 ∧ Count_comments
                     (set_comments (insert cid (Comment.mk text uid k now)) db) k
                   = S (Count_comments db k))
            ∧ (AddCommentForm.is_valid (Request.POST request) = None →
                 add_comment db now request k
                 = (Ok (HttpResponseRedirect (Route.blog_post_detail k)), db)))).
Proof.
  unfold add_comment, login_required. split.
  - intros Hu. by rewrite Hu.
  - intros uid Hu. rewrite Hu. unfold get_object_pk, get_pk. split.
    + intros Hl. by rewrite Hl.
    + intros p Hl. rewrite Hl. simpl. split.
      * intros text Hv. rewrite Hv. exists (next_pk (comments db)).
        split; [apply next_pk_fresh|]. split; [done|].
        apply (Count_comments_insert db _ (Comment.mk text uid k now)), next_pk_fresh.
      * intros Hv. by rewrite Hv.
Qed.

Lemma add_comment_spec_witness :
  (* alice comments on post 5 *)
  (∃ cid,
     comments Demo.db !! cid = None
     ∧ add_comment (models := Demo.models) Demo.db Demo.now
         (Demo.post (Some 1%nat) [("text", "nice")]) 5
       = (Ok (HttpResponseRedirect (Route.blog_post_detail 5)),
          set_comments (insert cid (Comment.mk "nice" 1 5 Demo.now)) Demo.db)
     ∧ Count_comments (set_comments (insert cid (Comment.mk "nice" 1 5 Demo.now)) Demo.db) 5
       = 2%nat)
  (* bob comments on the draft 6, then sends an empty text *)
  ∧ (∃ cid,
       add_comment (models := Demo.models) Demo.db Demo.now
         (Demo.post (Some 2%nat) [("text", "seen")]) 6
       = (Ok (HttpResponseRedirect (Route.blog_post_detail 6)),
          set_comments (insert cid (Comment.mk "seen" 2 6 Demo.now)) Demo.db))
  ∧ add_comment (models := Demo.models) Demo.db Demo.now
      (Demo.post (Some 2%nat) [("text", "")]) 6
    = (Ok (HttpResponseRedirect (Route.blog_post_detail 6)), Demo.db)
  (* no post 9; an anonymous requester *)
  ∧ add_comment (models := Demo.models) Demo.db Demo.now
      (Demo.post (Some 2%nat) [("text", "x")]) 9
    = (Raise Http404, Demo.db)
  ∧ add_comment (models := Demo.models) Demo.db Demo.now
      (Demo.post None [("text", "x")]) 5
    = (Ok (HttpResponseRedirect Route.login), Demo.db).
Proof.
  split; [|split; [|split; [|split]]].
  - destruct (add_comment_spec (models := Demo.models) Demo.db Demo.now
                (Demo.post (Some 1%nat) [("text", "nice")]) 5) as [_ Hin].
    destruct (Hin 1%nat eq_refl) as [_ Hpost].
    destruct (Hpost Demo.post_a eq_refl) as [Hvalid _].
    destruct (Hvalid "nice" eq_refl) as (cid & Hfresh & Hv & Hcount).
    exists cid. split; [exact Hfresh|]. split; [exact Hv|].
    rewrite Hcount. by vm_compute.
  - destruct (add_comment_spec (models := Demo.models) Demo.db Demo.now
                (Demo.post (Some 2%nat) [("text", "seen")]) 6) as [_ Hin].
    destruct (Hin 2%nat eq_refl) as [_ Hpost].
    destruct (Hpost Demo.post_hidden eq_refl) as [Hvalid _].
    destruct (Hvalid "seen" eq_refl) as (cid & _ & Hv & _).
    exists cid. exact Hv.
  - destruct (add_comment_spec (models := Demo.models) Demo.db Demo.now
                (Demo.post (Some 2%nat) [("text", "")]) 6) as [_ Hin].
    destruct (Hin 2%nat eq_refl) as [_ Hpost].
    destruct (Hpost Demo.post_hidden eq_refl) as [_ Hinvalid].
    by apply Hinvalid.
  - destruct (add_comment_spec (models := Demo.models) Demo.db Demo.now
                (Demo.post (Some 2%nat) [("text", "x")]) 9) as [_ Hin].
    destruct (Hin 2%nat eq_refl) as [Hmissing _].
    by apply Hmissing.
  - by apply (add_comment_spec (models := Demo.models) Demo.db Demo.now
                (Demo.post None [("text", "x")]) 5).
Defined.

(** ** Creating a post *)

Section post_form_facts.
Context {models : Models}.

(** The date format of the form, with and without a time of day. *)
Lemma pub_date_clean_date_only : PostForm.pub_date_clean "01.01.2020" = Some 1577836800.
Proof. reflexivity. Qed.

Lemma pub_date_clean_with_time : PostForm.pub_date_clean "01.01.2020 00:00:00" = None.
Proof. reflexivity. Qed.

(** A valid submission stores one post, written by the requester, and
    redirects to the profile page of that user. *)
Lemma PostCreateView_valid_submission db now request uid u c :
  Request.user request = Some uid → users db !! uid = Some u →
  Request.method request = Method.POST →
  PostForm.is_valid db (Request.POST request) = Some c →
  ∃ k p,
    posts db !! k = None
    ∧ Post.author p = uid ∧ Post.pub_date p = PostForm.pub_date c
    ∧ Post.title p = PostForm.title c
    ∧ PostCreateView.view db now request
      = (Ok (HttpResponseRedirect (Route.blog_profile (User.username u))),
         set_posts (insert k p) db).
Proof.
  intros Hu Hl Hm Hv.
  exists (next_pk (posts db)),
    (PostForm.save c (Post.mk "" "" 0 Post_is_published_default uid None None "" now)).
  split; [apply next_pk_fresh|]. repeat (split; [done|]).
  unfold PostCreateView.view, PostCreateView.dispatch.
  rewrite (LoginRequiredMixin_authenticated _ _ _ uid Hu), Hu, Hm, Hv.
  unfold PostCreateView.form_valid, PostCreateView.get_success_url, get_pk.
  simpl. rewrite Hl. done.
Qed.

End post_form_facts.

(** C6. The [pub_date] field of the post form accepts the format [%d.%m.%Y]
    only: a submission whose [pub_date] is "01.01.2020 00:00:00", the text the
    form's own widget renders and its placeholder asks for, fails validation;
    the form is shown again and no post is stored. *)
Theorem PostCreateView_rejects_date_with_time {models : Models} (db : Db) (now : Z)
    (request : Request.t) (uid : nat) :
  Request.user request = Some uid →
  Request.method request = Method.POST →
  Request.POST request !! "pub_date" = Some "01.01.2020 00:00:00" →
  Py.strptime_dmY (String.list_ascii_of_string "01.01.2020 00:00:00") = Raise ValueError
  ∧ PostForm.is_valid db (Request.POST request) = None
  ∧ PostCreateView.view db now request
    = (Ok (TemplateResponse "blog/create.html" (mkFormContext None true)), db).
Proof.
  intros Hu Hm Hp. split; [reflexivity|].
  assert (PostForm.is_valid db (Request.POST request) = None) as Hv.
  { unfold PostForm.is_valid. rewrite Hp.
    destruct (Post_fields_clean db (Request.POST request)); reflexivity. }
  split; [exact Hv|].
  unfold PostCreateView.view, PostCreateView.dispatch.
  by rewrite (LoginRequiredMixin_authenticated _ _ _ uid Hu), Hu, Hm, Hv.
Qed.

Lemma PostCreateView_rejects_date_with_time_witness :
  PostCreateView.view (models := Demo.models) Demo.db Demo.now
    (Demo.post (Some 1%nat) [("title", "A"); ("pub_date", "01.01.2020 00:00:00")])
  = (Ok (TemplateResponse "blog/create.html" (mkFormContext None true)), Demo.db)
  ∧ ∃ k p,
      Post.author p = 1%nat ∧ Post.pub_date p = 1577836800
      ∧ PostCreateView.view (models := Demo.models) Demo.db Demo.now
          (Demo.post (Some 1%nat) [("title", "A"); ("pub_date", "01.01.2020")])
        = (Ok (HttpResponseRedirect (Route.blog_profile "alice")),
           set_posts (insert k p) Demo.db).
Proof.
  split.
  - by apply (PostCreateView_rejects_date_with_time (models := Demo.models) Demo.db Demo.now
                (Demo.post (Some 1%nat) [("title", "A"); ("pub_date", "01.01.2020 00:00:00")])
                1).
  - destruct (PostCreateView_valid_submission (models := Demo.models) Demo.db Demo.now
                (Demo.post (Some 1%nat) [("title", "A"); ("pub_date", "01.01.2020")])
                1 Demo.alice (PostForm.mk "A" "" 1577836800 None None "")
                eq_refl eq_refl eq_refl eq_refl)
      as (k & p & _ & Hauthor & Hdate & _ & Hview).
    exists k, p. split; [exact Hauthor|]. split; [exact Hdate|]. exact Hview.
Defined.

(** ** Editing the profile *)

Section profile_form_facts.
Context {models : Models}.

(** The fields of the form once [__init__] has run: the password field that
    [UserChangeForm] declares is gone. *)
Lemma ProfileUpdateForm_fields :
  ProfileUpdateForm.fields = ["first_name"; "last_name"; "email"; "username"].
Proof. reflexivity. Qed.

Lemma ProfileUpdateForm_password_excluded :
  ("password" ∈ ProfileUpdateForm.base_fields) ∧ ("password" ∉ ProfileUpdateForm.fields).
Proof.
  split.
  - apply (bool_decide_unpack _). by vm_compute.
  - rewrite ProfileUpdateForm_fields. apply (bool_decide_unpack _). by vm_compute.
Qed.

(** What a valid form writes: the four cleaned values, and the columns the
    form does not list as they were. *)
Lemma ProfileUpdateForm_is_valid_inv db uid u data u' :
  ProfileUpdateForm.is_valid db uid u data = Some u' →
  ∃ fn ln em un,
    User_field_clean "first_name" (default "" (data !! "first_name")) = Some fn
    ∧ User_field_clean "last_name" (default "" (data !! "last_name")) = Some ln
    ∧ User_field_clean "email" (default "" (data !! "email")) = Some em
    ∧ User_field_clean "username" (default "" (data !! "username")) = Some un
    ∧ u' = User.mk un fn ln em (User.password u) (User.is_staff u)
             (User.is_active u) (User.is_superuser u).
Proof.
  unfold ProfileUpdateForm.is_valid. rewrite ProfileUpdateForm_fields. simpl.
  destruct (User_field_clean "first_name" _) as [fn|]; [|done].
  destruct (User_field_clean "last_name" _) as [ln|]; [|done].
  destruct (User_field_clean "email" _) as [em|]; [|done].
  destruct (User_field_clean "username" _) as [un|]; [|done].
  change (ProfileUpdateForm.construct_instance
            [("first_name", fn); ("last_name", ln); ("email", em); ("username", un)] u)
    with (User.mk un fn ln em (User.password u) (User.is_staff u)
            (User.is_active u) (User.is_superuser u)).
  destruct (User_validate db uid _); [|done].
  intros [= <-]. by exists fn, ln, em, un.
Qed.

(** The two ways the view answers a signed-in user: a valid submission is
    stored and redirects; anything else shows a page and stores nothing. *)
Lemma ProfileUpdateView_view_authenticated db request uid u :
  Request.user request = Some uid → users db !! uid = Some u →
  (∃ v, (Request.method request = Method.POST ∨ Request.method request = Method.PUT)
        ∧ ProfileUpdateForm.is_valid db uid u (Request.POST request) = Some v
        ∧ ProfileUpdateView.view db request
          = (Ok (HttpResponseRedirect (Route.blog_profile (User.username v))),
             set_users (insert uid v) db))
  ∨ (∃ response,
        ((Request.method request ≠ Method.POST ∧ Request.method request ≠ Method.PUT)
         ∨ ProfileUpdateForm.is_valid db uid u (Request.POST request) = None)
        ∧ (∀ to, response ≠ HttpResponseRedirect to)
        ∧ ProfileUpdateView.view db request = (Ok response, db)).
Proof.
  intros Hu Hl. unfold ProfileUpdateView.view, ProfileUpdateView.dispatch.
  rewrite (LoginRequiredMixin_authenticated _ _ _ uid Hu), Hu.
  unfold ProfileUpdateView.get_object, get_pk. rewrite Hl.
  destruct (Request.method request) eqn:Hm; simpl;
    try (right; eexists; split; [by left|]; split; [|done]; done).
  - destruct (ProfileUpdateForm.is_valid db uid u (Request.POST request)) as [v|] eqn:Hv.
    + left. exists v. split; [by left|]. done.
    + right. eexists. split; [by right|]. split; [|done]. done.
  - destruct (ProfileUpdateForm.is_valid db uid u (Request.POST request)) as [v|] eqn:Hv.
    + left. exists v. split; [by right|]. done.
    + right. eexists. split; [by right|]. split; [|done]. done.
Qed.

End profile_form_facts.

(** C8. The profile form edits the signed-in user and nobody else: the view
    takes no key, and an anonymous request is sent to the login page.  Of the
    user's row only [first_name], [last_name], [email] and [username] can
    change; [password] is not a field of the form, and it and the other
    columns stay as they were, whatever the request posts.  No other row of
    any table changes.  A valid submission stores the four cleaned values and
    redirects to the profile page under the username just stored. *)
Theorem ProfileUpdateView_frame {models : Models} (db : Db) (request : Request.t) :
  (("password" ∉ ProfileUpdateForm.fields)
   ∧ ∀ name, name ∈ ProfileUpdateForm.fields ↔
             name ∈ ["first_name"; "last_name"; "email"; "username"])
  ∧ (Request.user request = None →
     ProfileUpdateView.view db request = (Ok (HttpResponseRedirect Route.login), db))
  ∧ (∀ uid u, Request.user request = Some uid → users db !! uid = Some u →
       ∃ response u',
         ProfileUpdateView.view db request
           = (Ok response, set_users (insert uid u') db)
         ∧ User.password u' = User.password u
         ∧ User.is_staff u' = User.is_staff u
         ∧ User.is_active u' = User.is_active u
         ∧ User.is_superuser u' = User.is_superuser u
         ∧ (∀ to, response = HttpResponseRedirect to →
                  to = Route.blog_profile (User.username u'))
         ∧ (∀ v, Request.method request = Method.POST →
                 ProfileUpdateForm.is_valid db uid u (Request.POST request) = Some v →
                 u' = v
                 ∧ response = HttpResponseRedirect (Route.blog_profile (User.username v))
                 ∧ User_field_clean "first_name"
                     (default "" (Request.POST request !! "first_name"))
                   = Some (User.first_name v)
                 ∧ User_field_clean "last_name"
                     (default "" (Request.POST request !! "last_name"))
                   = Some (User.last_name v)
                 ∧ User_field_clean "email"
                     (default "" (Request.POST request !! "email"))
                   = Some (User.email v)
                 ∧ User_field_clean "username"
                     (default "" (Request.POST request !! "username"))
                   = Some (User.username v))
         ∧ (ProfileUpdateForm.is_valid db uid u (Request.POST request) = None →
            u' = u)).
Proof.
  split; [|split].
  - split; [apply ProfileUpdateForm_password_excluded|].
    intros name. by rewrite ProfileUpdateForm_fields.
  - intros Hu. unfold ProfileUpdateView.view, ProfileUpdateView.dispatch.
    by rewrite LoginRequiredMixin_anonymous.
  - intros uid u Hu Hl.
    destruct (ProfileUpdateView_view_authenticated db request uid u Hu Hl)
      as [(v & Hm & Hv & Hview) | (response & Hwhy & Hnot & Hview)].
    + destruct (ProfileUpdateForm_is_valid_inv db uid u _ v Hv)
        as (fn & ln & em & un & Hfn & Hln & Hem & Hun & Hveq).
      exists (HttpResponseRedirect (Route.blog_profile (User.username v))), v.
      split; [exact Hview|]. rewrite Hveq. simpl. repeat (split; [done|]).
      split; [by intros to [= <-]|]. split.
      * intros v' _ Hv'. assert (v' = v) as -> by congruence.
        rewrite Hveq. simpl. done.
      * intros Hnone. congruence.
    + exists response, u.
      assert (set_users (insert uid u) db = db) as ->.
      { destruct db. unfold set_users. simpl in *. f_equal. by apply insert_id. }
      split; [exact Hview|]. repeat (split; [done|]).
      split; [intros to ->; by destruct (Hnot to)|]. split; [|done].
      intros v Hm Hv. destruct Hwhy as [[Hnp _] | Hnone]; congruence.
Qed.

Lemma ProfileUpdateView_frame_witness :
  (* bob renames himself and tries to post a password and the staff flag *)
  (∃ u',
     ProfileUpdateView.view (models := Demo.models) Demo.db
       (Demo.post (Some 2%nat)
          [("username", "robert"); ("first_name", "Rob"); ("email", "rob@example.com");
           ("password", "letmein"); ("is_superuser", "on")])
     = (Ok (HttpResponseRedirect (Route.blog_profile "robert")),
        set_users (insert 2%nat u') Demo.db)
     ∧ u' = User.mk "robert" "Rob" "" "rob@example.com" (User.password Demo.bob)
              true true false)
  (* a taken username changes nothing; an anonymous requester is sent to log in *)
  ∧ (∃ response,
       ProfileUpdateView.view (models := Demo.models) Demo.db
         (Demo.post (Some 2%nat) [("username", "alice")])
       = (Ok response, Demo.db))
  ∧ ProfileUpdateView.view (models := Demo.models) Demo.db
      (Demo.post None [("username", "mallory")])
    = (Ok (HttpResponseRedirect Route.login), Demo.db).
Proof.
  split; [|split].
  - destruct (ProfileUpdateView_frame (models := Demo.models) Demo.db
                (Demo.post (Some 2%nat)
                   [("username", "robert"); ("first_name", "Rob");
                    ("email", "rob@example.com");
                    ("password", "letmein"); ("is_superuser", "on")]))
      as (_ & _ & Hin).
    destruct (Hin 2%nat Demo.bob eq_refl eq_refl)
      as (response & u' & Hview & _ & _ & _ & _ & _ & Hvalid & _).
    destruct (Hvalid (User.mk "robert" "Rob" "" "rob@example.com" (User.password Demo.bob)
                        true true false) eq_refl)
      as (Hu' & Hresp & _); [by vm_compute|].
    exists u'. split; [|exact Hu']. rewrite Hview, Hresp. done.
  - destruct (ProfileUpdateView_frame (models := Demo.models) Demo.db
                (Demo.post (Some 2%nat) [("username", "alice")]))
      as (_ & _ & Hin).
    destruct (Hin 2%nat Demo.bob eq_refl eq_refl)
      as (response & u' & Hview & _ & _ & _ & _ & _ & _ & Hinvalid).
    exists response. rewrite Hview, Hinvalid; by vm_compute.
  - by apply (ProfileUpdateView_frame (models := Demo.models) Demo.db
                (Demo.post None [("username", "mallory")])).
Defined.

(** * Further properties of the views *)

(** ** The gate, past the two rejections *)

Section gate_outcomes.
Context {C : Type}.

Lemma AuthorRequiredMixin_missing_object {O} (table : gmap nat O)
    (author_of : O → nat) (request : Request.t) (db : Db) (k : nat)
    (super_dispatch : result (Response C * Db)) :
  table !! k = None →
  UserPassesTestMixin.dispatch request db
    (AuthorRequiredMixin.test_func (get_object_pk table k) author_of request)
    super_dispatch
  = Raise Http404.
Proof.
  intros Hl.
  unfold UserPassesTestMixin.dispatch, AuthorRequiredMixin.test_func,
    get_object_pk, get_pk.
  by rewrite Hl.
Qed.

Lemma AuthorRequiredMixin_passes_author {O} (table : gmap nat O)
    (author_of : O → nat) (request : Request.t) (db : Db) (k : nat) (o : O)
    (super_dispatch : result (Response C * Db)) :
  table !! k = Some o → Request.user request = Some (author_of o) →
  UserPassesTestMixin.dispatch request db
    (AuthorRequiredMixin.test_func (get_object_pk table k) author_of request)
    super_dispatch
  = super_dispatch.
Proof.
  intros Hl Hu.
  unfold UserPassesTestMixin.dispatch, AuthorRequiredMixin.test_func,
    get_object_pk, get_pk.
  rewrite Hl, Hu. simpl. by rewrite bool_decide_eq_true_2.
Qed.

End gate_outcomes.

(** X1. A signed-in user who asks to update or delete a post or a comment
    that does not exist gets [Http404] from all four views, before any
    ownership decision, and nothing is written. *)
Theorem owner_gate_missing_object {models : Models} (db : Db) (request : Request.t)
    (k uid : nat) :
  Request.user request = Some uid →
  (posts db !! k = None →
     PostUpdateView.view db request k = (Raise Http404, db)
     ∧ PostDeleteView.view db request k = (Raise Http404, db))
  ∧ (comments db !! k = None →
     CommentUpdateView.view db request k = (Raise Http404, db)
     ∧ CommentDeleteView.view db request k = (Raise Http404, db)).
Proof.
  intros Hu. split; intros Hl.
  - unfold PostUpdateView.view, PostUpdateView.dispatch,
      PostDeleteView.view, PostDeleteView.dispatch.
    rewrite !(LoginRequiredMixin_authenticated _ _ _ uid Hu).
    by rewrite !(AuthorRequiredMixin_missing_object _ _ _ _ _ _ Hl).
  - unfold CommentUpdateView.view, CommentUpdateView.dispatch,
      CommentDeleteView.view, CommentDeleteView.dispatch.
    rewrite !(LoginRequiredMixin_authenticated _ _ _ uid Hu).
    by rewrite !(AuthorRequiredMixin_missing_object _ _ _ _ _ _ Hl).
Qed.

Lemma owner_gate_missing_object_witness :
  PostUpdateView.view (models := Demo.models) Demo.db
    (Demo.post (Some 1%nat) [("title", "X"); ("pub_date", "02.01.2020")]) 9
  = (Raise Http404, Demo.db)
  ∧ PostDeleteView.view Demo.db (Demo.post (Some 1%nat) []) 9 = (Raise Http404, Demo.db)
  ∧ CommentUpdateView.view (models := Demo.models) Demo.db
      (Demo.post (Some 2%nat) [("text", "x")]) 4
    = (Raise Http404, Demo.db)
  ∧ CommentDeleteView.view Demo.db (Demo.get (Some 2%nat) None) 4
    = (Raise Http404, Demo.db).
Proof.
  split; [|split; [|split]].
  - by apply (owner_gate_missing_object (models := Demo.models) Demo.db
                (Demo.post (Some 1%nat) [("title", "X"); ("pub_date", "02.01.2020")])
                9 1 eq_refl).
  - by apply (owner_gate_missing_object (models := Demo.models) Demo.db
                (Demo.post (Some 1%nat) []) 9 1 eq_refl).
  - by apply (owner_gate_missing_object (models := Demo.models) Demo.db
                (Demo.post (Some 2%nat) [("text", "x")]) 4 2 eq_refl).
  - by apply (owner_gate_missing_object (models := Demo.models) Demo.db
                (Demo.get (Some 2%nat) None) 4 2 eq_refl).
Defined.

(** ** What the author can do to a post *)

(** X2. When the author posts a valid edit of a post, the six form fields of
    that post take the cleaned values while its author, its [is_published]
    flag and its creation time stay; no other post and no other table
    changes; the answer is a redirect to the page of the post.  When the
    form is not valid nothing is written and the edit page is shown again,
    with the post as validation left it in memory: author, [is_published]
    and creation time as stored, and [pub_date] already replaced when that
    field passed, kept when it did not. *)
Theorem PostUpdateView_author_edits {models : Models} (db : Db) (request : Request.t)
    (k : nat) (p : Post.t) :
  posts db !! k = Some p →
  Request.user request = Some (Post.author p) →
  Request.method request = Method.POST →
  (∀ c, PostForm.is_valid db (Request.POST request) = Some c →
     ∃ db' p',
       PostUpdateView.view db request k
         = (Ok (HttpResponseRedirect (Route.blog_post_detail k)), db')
       ∧ posts db' !! k = Some p'
       ∧ (Post.title p', Post.text p', Post.pub_date p')
         = (PostForm.title c, PostForm.text c, PostForm.pub_date c)
       ∧ (Post.category p', Post.location p', Post.image p')
         = (PostForm.category c, PostForm.location c, PostForm.image c)
       ∧ (Post.author p', Post.is_published p', Post.created_at p')
         = (Post.author p, Post.is_published p, Post.created_at p)
       ∧ (∀ k', k' ≠ k → posts db' !! k' = posts db !! k')
       ∧ users db' = users db ∧ categories db' = categories db
       ∧ locations db' = locations db ∧ comments db' = comments db)
  ∧ (PostForm.is_valid db (Request.POST request) = None →
     ∃ shown,
       PostUpdateView.view db request k
       = (Ok (TemplateResponse "blog/create.html" (mkFormContext (Some (k, shown)) true)),
          db)
       ∧ (Post.author shown, Post.is_published shown, Post.created_at shown)
         = (Post.author p, Post.is_published p, Post.created_at p)
       ∧ Post.pub_date shown
         = default (Post.pub_date p)
             (PostForm.pub_date_clean (default "" (Request.POST request !! "pub_date")))).
Proof.
  intros Hl Hu Hm.
  unfold PostUpdateView.view, PostUpdateView.dispatch.
  rewrite (LoginRequiredMixin_authenticated _ _ _ _ Hu).
  rewrite (AuthorRequiredMixin_passes_author _ _ _ _ _ p _ Hl Hu).
  rewrite Hm. unfold get_object_pk, get_pk. rewrite Hl. simpl. split.
  - intros c Hv. rewrite Hv. simpl.
    exists (set_posts (insert k (PostForm.save c p)) db), (PostForm.save c p).
    split; [done|]. simpl. split; [apply lookup_insert_eq|].
    repeat (split; [done|]). split; [|done].
    intros k' Hne. by apply lookup_insert_ne.
  - intros Hv. rewrite Hv.
    exists (PostForm.rejected_instance db (Request.POST request) p).
    split; [done|]. split; [done|].
    unfold PostForm.rejected_instance. simpl.
    by destruct (PostForm.pub_date_clean _).
Qed.

Lemma PostUpdateView_author_edits_witness :
  (∃ db' p',
     PostUpdateView.view (models := Demo.models) Demo.db
       (Demo.post (Some 1%nat) [("title", "New"); ("pub_date", "02.01.2020")]) 6
     = (Ok (HttpResponseRedirect (Route.blog_post_detail 6)), db')
     ∧ posts db' !! 6%nat = Some p'
     ∧ Post.title p' = "New" ∧ Post.pub_date p' = 1577923200
     ∧ Post.is_published p' = false ∧ Post.author p' = 1%nat
     ∧ posts db' !! 5%nat = Some Demo.post_a)
  ∧ (∃ shown,
       PostUpdateView.view (models := Demo.models) Demo.db
         (Demo.post (Some 1%nat) [("title", "New"); ("pub_date", "2 Jan")]) 6
       = (Ok (TemplateResponse "blog/create.html"
                (mkFormContext (Some (6%nat, shown)) true)), Demo.db)
       ∧ Post.title shown = "New"
       ∧ Post.pub_date shown = Post.pub_date Demo.post_hidden
       ∧ Post.author shown = 1%nat)
  ∧ (∃ shown,
       PostUpdateView.view (models := Demo.models) Demo.db
         (Demo.post (Some 1%nat) [("title", ""); ("pub_date", "02.01.2020")]) 6
       = (Ok (TemplateResponse "blog/create.html"
                (mkFormContext (Some (6%nat, shown)) true)), Demo.db)
       ∧ Post.pub_date shown = 1577923200
       ∧ posts Demo.db !! 6%nat = Some Demo.post_hidden).
Proof.
  split; [|split].
  - destruct (PostUpdateView_author_edits (models := Demo.models) Demo.db
                (Demo.post (Some 1%nat) [("title", "New"); ("pub_date", "02.01.2020")])
                6 Demo.post_hidden eq_refl eq_refl eq_refl) as [Hvalid _].
    destruct (Hvalid (PostForm.mk "New" "" 1577923200 None None "") eq_refl)
      as (db' & p' & Hview & Hl & H1 & _ & H3 & Hother & _).
    exists db', p'. split; [exact Hview|]. split; [exact Hl|].
    injection H1 as Ht _ Hd. injection H3 as Ha Hp _.
    split; [exact Ht|]. split; [exact Hd|]. split; [exact Hp|]. split; [exact Ha|].
    rewrite Hother; done.
  - destruct (PostUpdateView_author_edits (models := Demo.models) Demo.db
                (Demo.post (Some 1%nat) [("title", "New"); ("pub_date", "2 Jan")])
                6 Demo.post_hidden eq_refl eq_refl eq_refl) as [_ Hinvalid].
    destruct (Hinvalid eq_refl) as (shown & Hview & Hkept & Hdate).
    exists shown. split; [exact Hview|].
    injection Hkept as Ha _ _. split; [|split; [exact Hdate|exact Ha]].
    vm_compute in Hview. by injection Hview as <-.
  - destruct (PostUpdateView_author_edits (models := Demo.models) Demo.db
                (Demo.post (Some 1%nat) [("title", ""); ("pub_date", "02.01.2020")])
                6 Demo.post_hidden eq_refl eq_refl eq_refl) as [_ Hinvalid].
    destruct (Hinvalid eq_refl) as (shown & Hview & _ & Hdate).
    exists shown. split; [exact Hview|]. split; [exact Hdate|reflexivity].
Defined.

(** ** Counting comments across a write *)

Section count_facts.

Lemma Count_comments_insert_fresh db cid c k :
  comments db !! cid = None →
  Count_comments (set_comments (insert cid c) db) k
  = ((if decide (Comment.post c = k) then 1 else 0) + Count_comments db k)%nat.
Proof.
  intros Hfresh. unfold Count_comments, set_comments. simpl.
  rewrite (filter_Permutation _ _ _ (map_to_list_insert (comments db) cid c Hfresh)).
  rewrite filter_cons. simpl. by destruct (decide (Comment.post c = k)).
Qed.

Lemma Count_comments_delete db cid c k :
  comments db !! cid = Some c →
  Count_comments db k
  = ((if decide (Comment.post c = k) then 1 else 0)
     + Count_comments (set_comments (delete cid) db) k)%nat.
Proof.
  intros Hl. unfold Count_comments, set_comments. simpl.
  rewrite <- (filter_Permutation _ _ _ (map_to_list_delete (comments db) cid c Hl)).
  rewrite filter_cons. simpl. by destruct (decide (Comment.post c = k)).
Qed.

Lemma Count_comments_replace db cid c c' k :
  comments db !! cid = Some c → Comment.post c' = Comment.post c →
  Count_comments (set_comments (insert cid c') db) k = Count_comments db k.
Proof.
  intros Hl Hpost.
  rewrite (Count_comments_delete db cid c k Hl).
  assert (set_comments (insert cid c') db
          = set_comments (insert cid c') (set_comments (delete cid) db)) as ->.
  { unfold set_comments. simpl. f_equal. by rewrite insert_delete_eq. }
  rewrite Count_comments_insert_fresh by (simpl; apply lookup_delete_eq).
  by rewrite Hpost.
Qed.

End count_facts.

(** X3. When the author posts the deletion of a post, the post is gone and
    the answer is a redirect to the index; the other posts, the users and the
    categories are as before.  From then on the page of the post answers
    [Http404] and no index listing shows it. *)
Theorem PostDeleteView_author_deletes (db : Db) (request : Request.t)
    (k : nat) (p : Post.t) :
  posts db !! k = Some p →
  Request.user request = Some (Post.author p) →
  Request.method request = Method.POST →
  ∃ db',
    PostDeleteView.view db request k = (Ok (HttpResponseRedirect Route.blog_index), db')
    ∧ posts db' !! k = None
    ∧ (∀ k', k' ≠ k → posts db' !! k' = posts db !! k')
    ∧ users db' = users db ∧ categories db' = categories db
    ∧ (∀ request', Request.method request' = Method.GET →
         PostDetailView.view db' request' k = Raise Http404)
    ∧ (∀ now r, r ∈ PostListView.get_queryset db' now → pk r ≠ k).
Proof.
  intros Hl Hu Hm. exists (delete_post k db).
  assert (posts (delete_post k db) !! k = None) as Hgone
    by (simpl; apply lookup_delete_eq).
  split; [|split; [exact Hgone|split; [|split; [done|split; [done|split]]]]].
  - unfold PostDeleteView.view, PostDeleteView.dispatch.
    rewrite (LoginRequiredMixin_authenticated _ _ _ _ Hu).
    rewrite (AuthorRequiredMixin_passes_author _ _ _ _ _ p _ Hl Hu).
    rewrite Hm. unfold get_object_pk, get_pk. by rewrite Hl.
  - intros k' Hne. simpl. by apply lookup_delete_ne.
  - intros request' Hm'. unfold PostDetailView.view, get_object_pk, get_pk.
    by rewrite Hm', Hgone.
  - intros now r Hin Hk. unfold PostListView.get_queryset, select_related in Hin.
    apply elem_of_order_by, list_elem_of_filter in Hin as [_ Hin].
    apply elem_of_annotate in Hin as (_ & r0 & Hin & Hk0 & _).
    apply elem_of_Post_objects in Hin as [Hl0 _].
    rewrite Hk0, Hk, Hgone in Hl0. done.
Qed.

Lemma PostDeleteView_author_deletes_witness :
  ∃ db',
    PostDeleteView.view Demo.db (Demo.post (Some 1%nat) []) 5
    = (Ok (HttpResponseRedirect Route.blog_index), db')
    ∧ posts db' !! 5%nat = None
    ∧ posts db' !! 6%nat = Some Demo.post_hidden
    ∧ PostDetailView.view db' (Demo.get None None) 5 = Raise Http404.
Proof.
  destruct (PostDeleteView_author_deletes Demo.db (Demo.post (Some 1%nat) []) 5
              Demo.post_a eq_refl eq_refl eq_refl)
    as (db' & Hview & Hgone & Hother & _ & _ & Hdetail & _).
  exists db'. split; [exact Hview|]. split; [exact Hgone|]. split.
  - rewrite Hother; done.
  - by apply Hdetail.
Defined.

(** ** What the author can do to a comment *)

(** X4. When the author posts a valid edit of a comment, only its text
    changes: its author, its post and its creation time stay, every other
    comment stays, and so does the comment count of every post.  The answer
    is a redirect to the page of the post the comment is on.  When the text
    is not valid the edit page is shown again and nothing is written. *)
Theorem CommentUpdateView_author_edits {models : Models} (db : Db)
    (request : Request.t) (cid : nat) (c : Comment.t) :
  comments db !! cid = Some c →
  Request.user request = Some (Comment.author c) →
  Request.method request = Method.POST →
  (∀ text, Comment_text_clean (default "" (Request.POST request !! "text")) = Some text →
     ∃ db',
       CommentUpdateView.view db request cid
         = (Ok (HttpResponseRedirect (Route.blog_post_detail (Comment.post c))), db')
       ∧ comments db' !! cid
         = Some (Comment.mk text (Comment.author c) (Comment.post c) (Comment.created_at c))
       ∧ (∀ cid', cid' ≠ cid → comments db' !! cid' = comments db !! cid')
       ∧ (∀ k, Count_comments db' k = Count_comments db k)
       ∧ posts db' = posts db ∧ users db' = users db)
  ∧ (Comment_text_clean (default "" (Request.POST request !! "text")) = None →
     CommentUpdateView.view db request cid
     = (Ok (TemplateResponse "blog/comment.html" (mkFormContext (Some (cid, c)) true)), db)).
Proof.
  intros Hl Hu Hm.
  unfold CommentUpdateView.view, CommentUpdateView.dispatch.
  rewrite (LoginRequiredMixin_authenticated _ _ _ _ Hu).
  rewrite (AuthorRequiredMixin_passes_author _ _ _ _ _ c _ Hl Hu).
  rewrite Hm. unfold get_object_pk, get_pk. rewrite Hl. simpl. split.
  - intros text Hv. rewrite Hv. simpl.
    exists (set_comments (insert cid (CommentUpdateView.save text c)) db).
    split; [done|]. split; [simpl; apply lookup_insert_eq|].
    split; [intros cid' Hne; simpl; by apply lookup_insert_ne|].
    split; [|done].
    intros k. by apply (Count_comments_replace db cid c).
  - intros Hv. by rewrite Hv.
Qed.

Lemma CommentUpdateView_author_edits_witness :
  (∃ db',
     CommentUpdateView.view (models := Demo.models) Demo.db
       (Demo.post (Some 2%nat) [("text", "very nice")]) 1
     = (Ok (HttpResponseRedirect (Route.blog_post_detail 5)), db')
     ∧ comments db' !! 1%nat = Some (Comment.mk "very nice" 2 5 1578000000)
     ∧ Count_comments db' 5 = 1%nat)
  ∧ CommentUpdateView.view (models := Demo.models) Demo.db
      (Demo.post (Some 2%nat) [("text", "")]) 1
    = (Ok (TemplateResponse "blog/comment.html"
             (mkFormContext (Some (1%nat, Demo.comment_1)) true)), Demo.db).
Proof.
  split.
  - destruct (CommentUpdateView_author_edits (models := Demo.models) Demo.db
                (Demo.post (Some 2%nat) [("text", "very nice")]) 1 Demo.comment_1
                eq_refl eq_refl eq_refl) as [Hvalid _].
    destruct (Hvalid "very nice" eq_refl) as (db' & Hview & Hl & _ & Hcount & _).
    exists db'. split; [exact Hview|]. split; [exact Hl|]. rewrite Hcount. by vm_compute.
  - destruct (CommentUpdateView_author_edits (models := Demo.models) Demo.db
                (Demo.post (Some 2%nat) [("text", "")]) 1 Demo.comment_1
                eq_refl eq_refl eq_refl) as [_ Hinvalid].
    by apply Hinvalid.
Defined.

(** X5. When the author posts the deletion of a comment, that comment is gone
    and every other comment stays: the comment count of its post drops by
    one and the count of every other post is unchanged.  Posts and users are
    untouched, and the answer is a redirect to the page of the post the
    comment was on. *)
Theorem CommentDeleteView_author_deletes (db : Db) (request : Request.t)
    (cid : nat) (c : Comment.t) :
  comments db !! cid = Some c →
  Request.user request = Some (Comment.author c) →
  Request.method request = Method.POST →
  ∃ db',
    CommentDeleteView.view db request cid
      = (Ok (HttpResponseRedirect (Route.blog_post_detail (Comment.post c))), db')
    ∧ comments db' !! cid = None
    ∧ (∀ cid', cid' ≠ cid → comments db' !! cid' = comments db !! cid')
    ∧ Count_comments db (Comment.post c) = S (Count_comments db' (Comment.post c))
    ∧ (∀ k, k ≠ Comment.post c → Count_comments db' k = Count_comments db k)
    ∧ posts db' = posts db ∧ users db' = users db.
Proof.
  intros Hl Hu Hm. exists (set_comments (delete cid) db).
  split; [|split; [|split; [|split; [|split]]]].
  - unfold CommentDeleteView.view, CommentDeleteView.dispatch.
    rewrite (LoginRequiredMixin_authenticated _ _ _ _ Hu).
    rewrite (AuthorRequiredMixin_passes_author _ _ _ _ _ c _ Hl Hu).
    rewrite Hm. unfold get_object_pk, get_pk. by rewrite Hl.
  - simpl. apply lookup_delete_eq.
  - intros cid' Hne. simpl. by apply lookup_delete_ne.
  - rewrite (Count_comments_delete db cid c _ Hl). by rewrite decide_True.
  - intros k Hne. rewrite (Count_comments_delete db cid c k Hl).
    by rewrite decide_False.
  - done.
Qed.

Lemma CommentDeleteView_author_deletes_witness :
  ∃ db',
    CommentDeleteView.view Demo.db (Demo.post (Some 2%nat) []) 1
    = (Ok (HttpResponseRedirect (Route.blog_post_detail 5)), db')
    ∧ comments db' !! 1%nat = None
    ∧ Count_comments Demo.db 5 = 1%nat ∧ Count_comments db' 5 = 0%nat.
Proof.
  destruct (CommentDeleteView_author_deletes Demo.db (Demo.post (Some 2%nat) []) 1
              Demo.comment_1 eq_refl eq_refl eq_refl)
    as (db' & Hview & Hgone & _ & Hcount & _).
  exists db'. split; [exact Hview|]. split; [exact Hgone|].
  split; [by vm_compute|].
  assert (Count_comments Demo.db (Comment.post Demo.comment_1) = 1%nat) as H1
    by by vm_compute.
  rewrite H1 in Hcount. by injection Hcount as <-.
Defined.

(** ** Which requests can write *)

(** X6. A request whose method is not POST, PUT or DELETE never writes: each
    of the six views that can change the database hands it back as it was,
    whoever asks and whatever the request carries. *)
Theorem views_write_only_on_post_put_delete {models : Models} (db : Db) (now : Z)
    (request : Request.t) (k : nat) :
  Request.method request ≠ Method.POST →
  Request.method request ≠ Method.PUT →
  Request.method request ≠ Method.DELETE →
  (ProfileUpdateView.view db request).2 = db
  ∧ (PostCreateView.view db now request).2 = db
  ∧ (PostUpdateView.view db request k).2 = db
  ∧ (PostDeleteView.view db request k).2 = db
  ∧ (CommentUpdateView.view db request k).2 = db
  ∧ (CommentDeleteView.view db request k).2 = db.
Proof.
  intros Hpost Hput Hdelete.
  unfold ProfileUpdateView.view, ProfileUpdateView.dispatch, ProfileUpdateView.get_object,
    PostCreateView.view, PostCreateView.dispatch,
    PostUpdateView.view, PostUpdateView.dispatch,
    PostDeleteView.view, PostDeleteView.dispatch,
    CommentUpdateView.view, CommentUpdateView.dispatch,
    CommentDeleteView.view, CommentDeleteView.dispatch,
    LoginRequiredMixin.dispatch, UserPassesTestMixin.dispatch,
    AuthorRequiredMixin.test_func, AccessMixin.handle_no_permission,
    Request.is_authenticated, get_object_pk, get_pk.
  destruct (Request.user request) as [uid|]; simpl; [|done].
  destruct (users db !! uid) as [u|], (posts db !! k) as [p|],
    (comments db !! k) as [c|]; simpl;
    repeat case_bool_decide; simpl;
    destruct (Request.method request); simpl; done.
Qed.

Lemma views_write_only_on_post_put_delete_witness :
  (PostDeleteView.view Demo.db (Demo.get (Some 1%nat) None) 5).2 = Demo.db
  ∧ (CommentDeleteView.view Demo.db (Demo.get (Some 2%nat) None) 1).2 = Demo.db
  ∧ (PostUpdateView.view (models := Demo.models) Demo.db
       (Request.mk (Some 1%nat) Method.GET ∅ {[ "title" := "X" ]}) 5).2 = Demo.db.
Proof.
  split; [|split].
  - by apply (views_write_only_on_post_put_delete (models := Demo.models) Demo.db Demo.now
                (Demo.get (Some 1%nat) None) 5).
  - by apply (views_write_only_on_post_put_delete (models := Demo.models) Demo.db Demo.now
                (Demo.get (Some 2%nat) None) 1).
  - by apply (views_write_only_on_post_put_delete (models := Demo.models) Demo.db Demo.now
                (Request.mk (Some 1%nat) Method.GET ∅ {[ "title" := "X" ]}) 5).
Defined.

(** ** The pages of a listing *)

Section page_facts.
Implicit Type qs : list PostRow.

Lemma concat_chunks {A} (N : nat) (l : list A) :
  (length l ≤ 10 * N)%nat →
  concat ((λ i : nat, take 10 (drop (10 * i) l)) <$> seq 0 N) = l.
Proof.
  revert l. induction N as [|N IH]; intros l Hlen.
  - destruct l; [done|simpl in Hlen; lia].
  - rewrite <- cons_seq, fmap_cons, concat_cons. rewrite <- fmap_S_seq.
    rewrite <- list_fmap_compose.
    rewrite (list_fmap_ext _ (λ i : nat, take 10 (drop (10 * i) (drop 10 l)))).
    + rewrite IH by (rewrite length_drop; lia).
      change (10 * 0)%nat with 0%nat. rewrite drop_0. apply take_drop.
    + intros i x _. unfold compose. rewrite drop_drop. f_equal. f_equal. lia.
Qed.

Lemma listing_page_items qs (n : Z) :
  Page.object_list (listing_page qs n) = take 10 (drop (Z.to_nat ((n - 1) * 10)) qs).
Proof. done. Qed.

Lemma num_pages_length qs :
  (length qs ≤ 10 * Z.to_nat (Paginator.num_pages (listing_paginator qs)))%nat.
Proof. pose proof (num_pages_bound qs). lia. Qed.

(** Every successful outcome of [paginate_queryset] is one of the pages. *)
Lemma paginate_queryset_inv request qs context :
  ListView.paginate_queryset request qs 10 = Ok context →
  ∃ n, 1 ≤ n ≤ Paginator.num_pages (listing_paginator qs)
       ∧ context = mkListContext (listing_paginator qs) (listing_page qs n)
                     (Page.has_other_pages (listing_page qs n))
                     (Page.object_list (listing_page qs n)).
Proof.
  unfold ListView.paginate_queryset. fold (listing_paginator qs).
  set (page := Py.or_ _ _).
  pose proof (num_pages_ge_1 qs) as Hge.
  assert (∀ n, Paginator_page (listing_paginator qs) (Py.Int n) = Ok (listing_page qs n)
               ∧ 1 ≤ n ≤ Paginator.num_pages (listing_paginator qs)
               ∨ Paginator_page (listing_paginator qs) (Py.Int n) = Raise EmptyPage) as Hpage.
  { intros n. destruct (decide (1 ≤ n ≤ Paginator.num_pages (listing_paginator qs))).
    - left. split; [|done]. by apply Paginator_page_in_range.
    - right. apply (Paginator_page_out_of_range qs (Py.Int n) n); [done|lia]. }
  destruct (Py.int page) as [n|e] eqn:Hint; simpl.
  - destruct (Hpage n) as [[-> Hn] | ->]; [|done].
    intros [= <-]. by exists n.
  - destruct e; simpl; try done.
    case_bool_decide; simpl; [|done].
    destruct (Hpage (Paginator.num_pages (listing_paginator qs))) as [[-> Hn] | ->]; [|done].
    intros [= <-]. by eexists.
Qed.

End page_facts.

(** X7. The pages of a listing cut it up without loss or overlap: every page
    number from 1 to [num_pages] yields a page, and the rows of these pages,
    put one after the other, are the listing itself, in its order. *)
Theorem listing_pages_partition (qs : list PostRow) :
  (∀ n, 1 ≤ n ≤ Paginator.num_pages (listing_paginator qs) →
        ∃ page, Paginator_page (listing_paginator qs) (Py.Int n) = Ok page
                ∧ Page.number page = n
                ∧ Page.object_list page = Page.object_list (listing_page qs n))
  ∧ concat ((λ i : nat, Page.object_list (listing_page qs (Z.of_nat (S i))))
              <$> seq 0 (Z.to_nat (Paginator.num_pages (listing_paginator qs))))
    = qs.
Proof.
  split.
  - intros n Hn. exists (listing_page qs n). split; [|done].
    by apply Paginator_page_in_range.
  - rewrite <- (concat_chunks _ qs (num_pages_length qs)) at 2.
    f_equal. apply list_fmap_ext. intros i x _. cbv beta. rewrite listing_page_items.
    f_equal. f_equal. lia.
Qed.

Lemma listing_pages_partition_witness :
  Paginator.num_pages (listing_paginator (PostListView.get_queryset Demo.db25 Demo.now)) = 3
  ∧ Page.object_list (listing_page (PostListView.get_queryset Demo.db25 Demo.now) 1)
    ++ Page.object_list (listing_page (PostListView.get_queryset Demo.db25 Demo.now) 2)
    ++ Page.object_list (listing_page (PostListView.get_queryset Demo.db25 Demo.now) 3)
    = PostListView.get_queryset Demo.db25 Demo.now.
Proof.
  assert (Paginator.num_pages
            (listing_paginator (PostListView.get_queryset Demo.db25 Demo.now)) = 3) as HN
    by by vm_compute.
  split; [exact HN|].
  destruct (listing_pages_partition (PostListView.get_queryset Demo.db25 Demo.now))
    as [_ Hcat].
  rewrite HN in Hcat.
  change (Z.to_nat 3) with 3%nat in Hcat.
  rewrite <- Hcat at 4.
  generalize (PostListView.get_queryset Demo.db25 Demo.now). intros qs.
  cbn [seq fmap list_fmap concat]. by rewrite app_nil_r.
Defined.

(** Every page [Paginator.page] and [Paginator.get_page] return for a listing
    is the page [listing_page] describes, for a number in range. *)
Lemma Paginator_page_inv (qs : list PostRow) (v : Py.value) (page : Page.t PostRow) :
  Paginator_page (Paginator.new qs 10) v = Ok page
  ∨ Paginator_get_page (Paginator.new qs 10) v = Ok page →
  ∃ n, 1 ≤ n ≤ Paginator.num_pages (listing_paginator qs) ∧ page = listing_page qs n.
Proof.
  rewrite Paginator_new_listing. intros [Hpage | Hpage].
  - destruct (Py.int v) as [n|e] eqn:Hint.
    + destruct (decide (1 ≤ n ≤ Paginator.num_pages (listing_paginator qs))) as [Hn|Hn].
      * rewrite (Paginator_page_in_range qs v n Hint Hn) in Hpage.
        injection Hpage as <-. by exists n.
      * rewrite (Paginator_page_out_of_range qs v n Hint) in Hpage by lia. done.
    + unfold Paginator_page in Hpage.
      by rewrite (validate_number_not_int qs v e Hint) in Hpage.
  - rewrite Paginator_get_page_listing in Hpage. injection Hpage as <-.
    eexists. split; [apply clamped_page_number_range|done].
Qed.

(** The same for the pages the three listings put in their contexts. *)
Lemma listing_view_page_inv (db : Db) (now : Z) (request : Request.t)
    (qs : list PostRow) (page : Page.t PostRow) :
  (∃ name context,
     PostListView.view db now request = Ok (TemplateResponse name context)
     ∧ qs = PostListView.get_queryset db now ∧ page = lc_page_obj context)
  ∨ (∃ category_slug category name context,
       CategoryListView.get_queryset db now category_slug = Ok (category, qs)
       ∧ CategoryListView.view db now request category_slug
         = Ok (TemplateResponse name context)
       ∧ page = lc_page_obj (cc_list context))
  ∨ (∃ username object name context,
       ProfileDetailView.get_object db username = Ok object
       ∧ ProfileDetailView.view db request username
         = Ok (TemplateResponse name context)
       ∧ qs = object.2 ∧ page = pc_page_obj context) →
  ∃ n, 1 ≤ n ≤ Paginator.num_pages (listing_paginator qs) ∧ page = listing_page qs n.
Proof.
  intros [(name & context & Hv & -> & ->)
         | [(category_slug & category & name & context & Hq & Hv & ->)
           | (username & object & name & context & Hobj & Hv & -> & ->)]].
  - unfold PostListView.view, PostListView.paginate_by in Hv.
    destruct (ListView.paginate_queryset request _ 10) as [c|e] eqn:Hp;
      [|by destruct (Request.method request)].
    apply paginate_queryset_inv in Hp as (n & Hn & ->).
    exists n. split; [done|].
    by destruct (Request.method request); simpl in Hv; try done; injection Hv as _ <-.
  - unfold CategoryListView.view, CategoryListView.paginate_by in Hv.
    rewrite Hq in Hv. simpl in Hv.
    destruct (ListView.paginate_queryset request qs 10) as [c|e] eqn:Hp;
      [|by destruct (Request.method request)].
    apply paginate_queryset_inv in Hp as (n & Hn & ->).
    exists n. split; [done|].
    by destruct (Request.method request); simpl in Hv; try done; injection Hv as _ <-.
  - unfold ProfileDetailView.view in Hv. rewrite Hobj in Hv. simpl in Hv.
    rewrite ProfileDetailView_get_context_data_ok in Hv. simpl in Hv.
    eexists. split; [apply clamped_page_number_range|].
    by destruct (Request.method request); simpl in Hv; try done; injection Hv as _ <-.
Qed.

(** X8. The size of every page the code hands out.  Whether the page comes
    from [Paginator.page] or [Paginator.get_page] on a paginator of ten per
    page, or is the [page_obj] in the context of the index, of a category
    listing or of a profile page: it holds at most ten rows, exactly ten when
    it has a next page, at least one when the listing is not empty, and its
    rows are those of the listing from row [10 * (number - 1)] on.  For an
    empty listing the page is page 1, with no rows. *)
Theorem listing_page_sizes (db : Db) (now : Z) (request : Request.t)
    (qs : list PostRow) (page : Page.t PostRow) :
  (∃ v, Paginator_page (Paginator.new qs 10) v = Ok page)
  ∨ (∃ v, Paginator_get_page (Paginator.new qs 10) v = Ok page)
  ∨ (∃ name context,
       PostListView.view db now request = Ok (TemplateResponse name context)
       ∧ qs = PostListView.get_queryset db now ∧ page = lc_page_obj context)
  ∨ (∃ category_slug category name context,
       CategoryListView.get_queryset db now category_slug = Ok (category, qs)
       ∧ CategoryListView.view db now request category_slug
         = Ok (TemplateResponse name context)
       ∧ page = lc_page_obj (cc_list context))
  ∨ (∃ username object name context,
       ProfileDetailView.get_object db username = Ok object
       ∧ ProfileDetailView.view db request username
         = Ok (TemplateResponse name context)
       ∧ qs = object.2 ∧ page = pc_page_obj context) →
  (length (Page.object_list page) ≤ 10)%nat
  ∧ (Page.has_next page = true → length (Page.object_list page) = 10%nat)
  ∧ (qs ≠ [] → (1 ≤ length (Page.object_list page))%nat)
  ∧ Page.object_list page
    = take 10 (drop (10 * (Z.to_nat (Page.number page) - 1)) qs)
  ∧ (qs = [] → Page.number page = 1 ∧ Page.object_list page = []).
Proof.
  intros Hpage.
  assert (∃ n, 1 ≤ n ≤ Paginator.num_pages (listing_paginator qs)
               ∧ page = listing_page qs n) as (n & Hn & ->).
  { destruct Hpage as [[v Hp] | [[v Hp] | Hview]].
    - apply (Paginator_page_inv qs v). by left.
    - apply (Paginator_page_inv qs v). by right.
    - by apply (listing_view_page_inv db now request). }
  clear Hpage. pose proof (num_pages_bound qs) as Hb.
  unfold Page.has_next. cbn [Page.number Page.paginator listing_page].
  rewrite listing_page_items, length_take, length_drop.
  split; [lia|]. split; [rewrite bool_decide_eq_true; lia|]. split; [|split].
  - intros Hne. destruct qs; [done|]. simpl length in *. lia.
  - f_equal. f_equal. lia.
  - intros ->. simpl in *. split; [lia|]. by rewrite drop_nil.
Qed.

Lemma listing_page_sizes_witness :
  ∃ page2 page3 page7 context,
    Paginator_page (Paginator.new (PostListView.get_queryset Demo.db25 Demo.now) 10)
      (Py.Str "2") = Ok page2
    ∧ Paginator_page (Paginator.new (PostListView.get_queryset Demo.db25 Demo.now) 10)
        (Py.Int 3) = Ok page3
    ∧ Paginator_get_page (Paginator.new (PostListView.get_queryset Demo.db25 Demo.now) 10)
        (Py.Str "7") = Ok page7
    ∧ PostListView.view Demo.db25 Demo.now (Demo.get None (Some "2"))
      = Ok (TemplateResponse "blog/index.html" context)
    ∧ length (Page.object_list page2) = 10%nat
    ∧ (1 ≤ length (Page.object_list page3) ≤ 10)%nat
    ∧ Page.object_list page7 = drop 20 (PostListView.get_queryset Demo.db25 Demo.now)
    ∧ length (Page.object_list (lc_page_obj context)) = 10%nat.
Proof.
  assert (Paginator.num_pages
            (listing_paginator (PostListView.get_queryset Demo.db25 Demo.now)) = 3) as HN
    by by vm_compute.
  assert (length (PostListView.get_queryset Demo.db25 Demo.now) = 25%nat) as Hlen
    by by vm_compute.
  assert (Paginator_page (Paginator.new (PostListView.get_queryset Demo.db25 Demo.now) 10)
            (Py.Str "2")
          = Ok (listing_page (PostListView.get_queryset Demo.db25 Demo.now) 2)) as H2
    by (apply (Paginator_page_in_range _ (Py.Str "2") 2); [by vm_compute|rewrite HN; lia]).
  assert (Paginator_page (Paginator.new (PostListView.get_queryset Demo.db25 Demo.now) 10)
            (Py.Int 3)
          = Ok (listing_page (PostListView.get_queryset Demo.db25 Demo.now) 3)) as H3
    by (apply (Paginator_page_in_range _ (Py.Int 3) 3); [by vm_compute|rewrite HN; lia]).
  assert (Paginator_get_page
            (Paginator.new (PostListView.get_queryset Demo.db25 Demo.now) 10) (Py.Str "7")
          = Ok (listing_page (PostListView.get_queryset Demo.db25 Demo.now) 3)) as H7.
  { rewrite Paginator_new_listing, Paginator_get_page_listing.
    unfold clamped_page_number. rewrite HN. reflexivity. }
  assert (PostListView.view Demo.db25 Demo.now (Demo.get None (Some "2"))
          = Ok (TemplateResponse "blog/index.html"
                  (mkListContext
                     (listing_paginator (PostListView.get_queryset Demo.db25 Demo.now))
                     (listing_page (PostListView.get_queryset Demo.db25 Demo.now) 2)
                     (Page.has_other_pages
                        (listing_page (PostListView.get_queryset Demo.db25 Demo.now) 2))
                     (Page.object_list
                        (listing_page (PostListView.get_queryset Demo.db25 Demo.now) 2)))))
    as Hview.
  { unfold PostListView.view, PostListView.paginate_by.
    cbn [Request.method Demo.get].
    rewrite (paginate_queryset_number (Demo.get None (Some "2")) _ "2" 2 eq_refl eq_refl).
    rewrite HN. reflexivity. }
  eexists _, _, _, _. split; [exact H2|]. split; [exact H3|]. split; [exact H7|].
  split; [exact Hview|].
  destruct (listing_page_sizes Demo.db25 Demo.now (Demo.get None None) _ _
              (or_introl (ex_intro _ _ H2))) as (_ & Hten & _).
  destruct (listing_page_sizes Demo.db25 Demo.now (Demo.get None None) _ _
              (or_introl (ex_intro _ _ H3))) as (Hmost & _ & Hleast & _).
  destruct (listing_page_sizes Demo.db25 Demo.now (Demo.get None None) _ _
              (or_intror (or_introl (ex_intro _ _ H7)))) as (_ & _ & _ & Hrows & _).
  destruct (listing_page_sizes Demo.db25 Demo.now (Demo.get None (Some "2")) _ _
              (or_intror (or_intror (or_introl
                 (ex_intro _ _ (ex_intro _ _ (conj Hview (conj eq_refl eq_refl))))))))
    as (_ & Hten_view & _).
  split; [|split; [|split]].
  - apply Hten. unfold Page.has_next. cbn [Page.number Page.paginator listing_page].
    rewrite HN. reflexivity.
  - split; [|exact Hmost]. apply Hleast. intros Heq. by rewrite Heq in Hlen.
  - rewrite Hrows. cbn [Page.number listing_page].
    change (10 * (Z.to_nat 3 - 1))%nat with 20%nat.
    apply take_ge. rewrite length_drop, Hlen. simpl. lia.
  - apply Hten_view. cbn [lc_page_obj]. unfold Page.has_next.
    cbn [Page.number Page.paginator listing_page]. rewrite HN. reflexivity.
Defined.

(** X9. Without a [page] parameter, or with an empty one, the index shows
    page 1, also when there is nothing to list; with [page=last] it shows the
    last page.  Whatever page it shows holds at most ten rows, and the page
    is marked [is_paginated] exactly when the listing has more than ten
    rows. *)
Theorem PostListView_page_choice (db : Db) (now : Z) (request : Request.t) :
  Request.method request = Method.GET →
  let qs := PostListView.get_queryset db now in
  let shows (n : Z) :=
    PostListView.view db now request
    = Ok (TemplateResponse "blog/index.html"
            (mkListContext (listing_paginator qs) (listing_page qs n)
               (Page.has_other_pages (listing_page qs n))
               (Page.object_list (listing_page qs n)))) in
  (Request.GET request !! "page" = None ∨ Request.GET request !! "page" = Some "" →
   shows 1)
  ∧ (Request.GET request !! "page" = Some "last" →
     shows (Paginator.num_pages (listing_paginator qs)))
  ∧ (∀ context,
       PostListView.view db now request = Ok (TemplateResponse "blog/index.html" context) →
       (length (lc_object_list context) ≤ 10)%nat
       ∧ (lc_is_paginated context = true ↔ (10 < length qs)%nat)).
Proof.
  intros Hm qs shows. subst shows. simpl.
  pose proof (num_pages_ge_1 qs) as Hge.
  unfold PostListView.view. rewrite Hm. unfold PostListView.paginate_by. fold qs.
  split; [|split].
  - intros Hp.
    rewrite (paginate_queryset_page request qs (Py.Int 1) 1); [|by destruct Hp as [-> | ->]|done].
    by rewrite bool_decide_eq_true_2 by lia.
  - intros Hp. unfold ListView.paginate_queryset, ListView.page_kwarg.
    rewrite Hp. fold (listing_paginator qs). simpl.
    by rewrite (Paginator_page_in_range qs (Py.Int _) _ eq_refl) by lia.
  - intros context Hview.
    destruct (ListView.paginate_queryset request qs 10) as [context'|] eqn:Hpq; [|done].
    simpl in Hview. injection Hview as <-.
    apply paginate_queryset_inv in Hpq as (n & Hn & ->). simpl. split.
    + rewrite length_take. lia.
    + pose proof (num_pages_bound qs) as Hb.
      unfold Page.has_other_pages, Page.has_previous, Page.has_next. simpl.
      fold (listing_paginator qs).
      rewrite orb_true_iff, !bool_decide_eq_true. lia.
Qed.

Lemma PostListView_page_choice_witness :
  (∃ context,
     PostListView.view (mkDb ∅ ∅ ∅ ∅ ∅) Demo.now (Demo.get None None)
     = Ok (TemplateResponse "blog/index.html" context)
     ∧ lc_object_list context = [] ∧ lc_is_paginated context = false)
  ∧ (∃ context,
       PostListView.view Demo.db25 Demo.now (Demo.get None (Some "last"))
       = Ok (TemplateResponse "blog/index.html" context)
       ∧ Page.number (lc_page_obj context) = 3
       ∧ lc_is_paginated context = true).
Proof.
  split.
  - destruct (PostListView_page_choice (mkDb ∅ ∅ ∅ ∅ ∅) Demo.now (Demo.get None None)
                eq_refl) as (Hone & _ & _).
    eexists. split; [apply Hone; by left|]. by vm_compute.
  - assert (Paginator.num_pages
              (listing_paginator (PostListView.get_queryset Demo.db25 Demo.now)) = 3) as HN
      by by vm_compute.
    destruct (PostListView_page_choice Demo.db25 Demo.now (Demo.get None (Some "last"))
                eq_refl) as (_ & Hlast & _).
    eexists. split; [by apply Hlast|].
    cbn [lc_page_obj lc_is_paginated Page.number listing_page].
    split; [exact HN|].
    unfold Page.has_other_pages, Page.has_previous, Page.has_next.
    cbn [Page.number Page.paginator]. by rewrite HN.
Defined.

(** ** How the listings relate *)

Section listing_rows.

Lemma elem_of_annotated_objects db r :
  r ∈ annotate_comment_count db (select_related (Post_objects db)) ↔ annotated_row db r.
Proof.
  unfold select_related, annotated_row. rewrite elem_of_annotate. split.
  - intros (Hc & r0 & Hin & Hk & Hp).
    apply elem_of_Post_objects in Hin as [Hl _]. by rewrite Hk, Hp in Hl.
  - intros [Hl Hc]. split; [done|].
    exists (mkPostRow (pk r) (post r) None). split; [|done].
    by apply elem_of_Post_objects.
Qed.

Lemma elem_of_index db now r :
  r ∈ PostListView.get_queryset db now ↔
  annotated_row db r
  ∧ Post.is_published (post r) = true
  ∧ category__is_published db (post r) = true
  ∧ Post.pub_date (post r) ≤ now.
Proof.
  unfold PostListView.get_queryset.
  rewrite elem_of_order_by, list_elem_of_filter, elem_of_annotated_objects. tauto.
Qed.

Lemma elem_of_prefetch db r :
  r ∈ ProfileDetailView.prefetch_queryset db ↔ annotated_row db r.
Proof.
  unfold ProfileDetailView.prefetch_queryset.
  by rewrite elem_of_order_by, elem_of_annotated_objects.
Qed.

Lemma CategoryListView_get_queryset_inv db now category_slug category qs :
  CategoryListView.get_queryset db now category_slug = Ok (category, qs) →
  categories db !! category.1 = Some category.2
  ∧ Category.slug category.2 = category_slug
  ∧ Category.is_published category.2 = true
  ∧ ∀ r, r ∈ qs ↔
         annotated_row db r
         ∧ Post.category (post r) = Some category.1
         ∧ Post.is_published (post r) = true
         ∧ Post.pub_date (post r) ≤ now.
Proof.
  unfold CategoryListView.get_queryset, get_object_or_404, get.
  destruct (filter _ (map_to_list (categories db))) as [|[k c] [|]] eqn:E; simpl; try done.
  intros [= <- <-]. simpl.
  assert ((k, c) ∈ filter (λ kc : nat * Category.t, Category.slug kc.2 = category_slug
                             ∧ Category.is_published kc.2 = true)
            (map_to_list (categories db))) as Hin by (rewrite E; left).
  apply list_elem_of_filter in Hin as [[Hs Hp] Hin]. apply elem_of_map_to_list in Hin.
  repeat (split; [done|]). intros r. unfold select_related.
  rewrite elem_of_order_by, elem_of_annotate. unfold annotated_row. split.
  - intros (Hc & r0 & Hin0 & Hk & Hpost).
    apply list_elem_of_filter in Hin0 as [Hpred Hin0].
    apply elem_of_Post_objects in Hin0 as [Hl _]. simpl in Hpred.
    rewrite Hk, Hpost in Hl. rewrite Hpost in Hpred. done.
  - intros ([Hl Hc] & Hpred). split; [done|].
    exists (mkPostRow (pk r) (post r) None). split; [|done].
    apply list_elem_of_filter. split; [done|]. by apply elem_of_Post_objects.
Qed.

End listing_rows.

(** X10. A category listing is the index restricted to that category: every
    row of the listing of a resolved category is a row of the index, with the
    same annotation, and every row of the index whose post is in that category
    is in the listing. *)
Theorem category_listing_is_index_of_category (db : Db) (now : Z)
    (category_slug : string) (category : nat * Category.t) (qs : list PostRow) :
  CategoryListView.get_queryset db now category_slug = Ok (category, qs) →
  ∀ r, r ∈ qs ↔
       r ∈ PostListView.get_queryset db now
       ∧ Post.category (post r) = Some category.1.
Proof.
  intros Hq r.
  apply CategoryListView_get_queryset_inv in Hq as (Hl & _ & Hp & Hrows).
  rewrite Hrows, elem_of_index. split.
  - intros (Hrow & Hc & Hpub & Hdate).
    assert (category__is_published db (post r) = true) as Hcat
      by (unfold category__is_published; by rewrite Hc, Hl).
    done.
  - intros ((Hrow & Hpub & _ & Hdate) & Hc). done.
Qed.

Lemma category_listing_is_index_of_category_witness :
  ∃ qs,
    CategoryListView.get_queryset Demo.db Demo.now "news" = Ok ((1%nat, Demo.news), qs)
    ∧ mkPostRow 5 Demo.post_a (Some 1%nat) ∈ qs
    ∧ mkPostRow 5 Demo.post_a (Some 1%nat) ∈ PostListView.get_queryset Demo.db Demo.now.
Proof.
  eexists. split; [by vm_compute|].
  assert (mkPostRow 5 Demo.post_a (Some 1%nat) ∈ PostListView.get_queryset Demo.db Demo.now)
    as Hin by (vm_compute; left).
  split; [|exact Hin].
  apply (category_listing_is_index_of_category Demo.db Demo.now "news" (1%nat, Demo.news));
    [by vm_compute|].
  split; [exact Hin|done].
Defined.

(** X11. Whatever the index shows is on its author's profile page too: a row
    of the index is, with the same annotation, a row of the listing the
    profile page of the post's author paginates. *)
Theorem index_rows_on_author_profile (db : Db) (now : Z) (r : PostRow) (u : User.t) :
  username_unique db →
  r ∈ PostListView.get_queryset db now →
  users db !! Post.author (post r) = Some u →
  ∃ rows,
    ProfileDetailView.get_object db (User.username u)
    = Ok ((Post.author (post r), u), rows)
    ∧ r ∈ rows.
Proof.
  intros Huniq Hin Hu. apply elem_of_index in Hin as (Hrow & _).
  eexists. split.
  - by apply ProfileDetailView_get_object_found.
  - apply list_elem_of_filter. split; [done|]. by apply elem_of_prefetch.
Qed.

Lemma index_rows_on_author_profile_witness :
  mkPostRow 5 Demo.post_a (Some 1%nat) ∈ PostListView.get_queryset Demo.db Demo.now
  ∧ ∃ rows,
      ProfileDetailView.get_object Demo.db "alice" = Ok ((1%nat, Demo.alice), rows)
      ∧ mkPostRow 5 Demo.post_a (Some 1%nat) ∈ rows.
Proof.
  assert (mkPostRow 5 Demo.post_a (Some 1%nat) ∈ PostListView.get_queryset Demo.db Demo.now)
    as Hin by (vm_compute; left).
  split; [exact Hin|].
  exact (index_rows_on_author_profile Demo.db Demo.now _ Demo.alice
           Demo_username_unique Hin eq_refl).
Defined.

(** ** A comment, from the form to the page *)

(** X12. Whatever the request, [add_comment] changes no post, user, category
    or location, neither alters nor removes a comment that exists, and leaves
    the comment count of every other post as it was. *)
Theorem add_comment_only_adds {models : Models} (db : Db) (now : Z)
    (request : Request.t) (k : nat) :
  let db' := (add_comment db now request k).2 in
  posts db' = posts db ∧ users db' = users db
  ∧ categories db' = categories db ∧ locations db' = locations db
  ∧ (∀ cid c, comments db !! cid = Some c → comments db' !! cid = Some c)
  ∧ (∀ k', k' ≠ k → Count_comments db' k' = Count_comments db k').
Proof.
  unfold add_comment, login_required, get_object_pk, get_pk.
  destruct (Request.user request) as [uid|]; simpl; [|done].
  destruct (posts db !! k) as [p|]; simpl; [|done].
  destruct (AddCommentForm.is_valid (Request.POST request)) as [text|]; simpl; [|done].
  repeat (split; [done|]). split.
  - intros cid c Hl. rewrite lookup_insert_ne; [done|].
    intros <-. by rewrite next_pk_fresh in Hl.
  - intros k' Hne.
    rewrite (Count_comments_insert_fresh db _ _ k' (next_pk_fresh (comments db))).
    simpl. by rewrite decide_False.
Qed.

Lemma add_comment_only_adds_witness :
  comments (add_comment (models := Demo.models) Demo.db Demo.now
              (Demo.post (Some 1%nat) [("text", "thanks")]) 5).2 !! 1%nat
  = Some Demo.comment_1
  ∧ Count_comments (add_comment (models := Demo.models) Demo.db Demo.now
                      (Demo.post (Some 1%nat) [("text", "thanks")]) 5).2 6
    = Count_comments Demo.db 6.
Proof.
  destruct (add_comment_only_adds (models := Demo.models) Demo.db Demo.now
              (Demo.post (Some 1%nat) [("text", "thanks")]) 5)
    as (_ & _ & _ & _ & Hkept & Hcount).
  split; [by apply Hkept|by apply Hcount].
Defined.

(** X13. A comment that [add_comment] accepts is on the page of its post from
    then on: the page lists it, with the cleaned text and the requester as
    author, next to every comment it listed before, and lists one comment
    more than before. *)
Theorem add_comment_then_detail {models : Models} (db : Db) (now : Z)
    (request request' : Request.t) (k uid : nat) (p : Post.t) (text : string) :
  Request.user request = Some uid →
  posts db !! k = Some p →
  AddCommentForm.is_valid (Request.POST request) = Some text →
  Request.method request' = Method.GET →
  ∃ shown shown',
    PostDetailView.view db request' k
      = Ok (TemplateResponse "blog/detail.html" (mkPostDetailContext (k, p) shown))
    ∧ PostDetailView.view (add_comment db now request k).2 request' k
      = Ok (TemplateResponse "blog/detail.html" (mkPostDetailContext (k, p) shown'))
    ∧ (∃ cid, (cid, Comment.mk text uid k now) ∈ shown')
    ∧ (∀ kc, kc ∈ shown → kc ∈ shown')
    ∧ length shown' = S (length shown).
Proof.
  intros Hu Hl Hv Hm.
  unfold add_comment, login_required, get_object_pk, get_pk.
  rewrite Hu, Hl. simpl. rewrite Hv. simpl.
  unfold PostDetailView.view, PostDetailView.get_context_data, get_object_pk, get_pk.
  rewrite Hm. simpl. rewrite Hl. simpl.
  eexists _, _. split; [done|]. split; [done|].
  pose proof (next_pk_fresh (comments db)) as Hfresh.
  split; [|split].
  - exists (next_pk (comments db)). apply list_elem_of_filter. split; [done|].
    apply elem_of_map_to_list, lookup_insert_eq.
  - intros [cid c] Hin. apply list_elem_of_filter in Hin as [Hp Hin].
    apply elem_of_map_to_list in Hin.
    apply list_elem_of_filter. split; [done|].
    apply elem_of_map_to_list. rewrite lookup_insert_ne; [done|].
    intros <-. by rewrite Hfresh in Hin.
  - rewrite (filter_Permutation _ _ _ (map_to_list_insert (comments db) _ _ Hfresh)).
    rewrite filter_cons. simpl. by rewrite decide_True.
Qed.

Lemma add_comment_then_detail_witness :
  ∃ shown',
    PostDetailView.view
      (add_comment (models := Demo.models) Demo.db Demo.now
         (Demo.post (Some 1%nat) [("text", "thanks")]) 5).2
      (Demo.get None None) 5
    = Ok (TemplateResponse "blog/detail.html" (mkPostDetailContext (5%nat, Demo.post_a) shown'))
    ∧ (∃ cid, (cid, Comment.mk "thanks" 1 5 Demo.now) ∈ shown')
    ∧ (1%nat, Demo.comment_1) ∈ shown'
    ∧ length shown' = 2%nat.
Proof.
  destruct (add_comment_then_detail (models := Demo.models) Demo.db Demo.now
              (Demo.post (Some 1%nat) [("text", "thanks")]) (Demo.get None None)
              5 1 Demo.post_a "thanks" eq_refl eq_refl eq_refl eq_refl)
    as (shown & shown' & Hbefore & Hafter & Hnew & Hold & Hlen).
  assert (shown = [(1%nat, Demo.comment_1)]) as ->.
  { vm_compute in Hbefore. injection Hbefore as Heq. rewrite <- Heq. reflexivity. }
  exists shown'. split; [exact Hafter|]. split; [exact Hnew|]. split.
  - apply Hold. left.
  - exact Hlen.
Defined.

(** ** Where the redirects lead *)

(** X14. After a valid profile edit the redirect leads to the user's own
    page: looked up under the stored username, the profile is the edited
    user's, with the same posts listed as before the edit; and when the
    username was changed the old one no longer resolves. *)
Theorem profile_found_under_new_username {models : Models} (db : Db)
    (request : Request.t) (uid : nat) (u v : User.t) :
  Request.user request = Some uid →
  users db !! uid = Some u →
  Request.method request = Method.POST →
  ProfileUpdateForm.is_valid db uid u (Request.POST request) = Some v →
  username_unique db →
  username_unique (ProfileUpdateView.view db request).2 →
  ∃ rows,
    (ProfileUpdateView.view db request).1
      = Ok (HttpResponseRedirect (Route.blog_profile (User.username v)))
    ∧ ProfileDetailView.get_object db (User.username u) = Ok ((uid, u), rows)
    ∧ ProfileDetailView.get_object (ProfileUpdateView.view db request).2 (User.username v)
      = Ok ((uid, v), rows)
    ∧ (User.username v ≠ User.username u →
       ProfileDetailView.get_object (ProfileUpdateView.view db request).2 (User.username u)
       = Raise Http404).
Proof.
  intros Hu Hl Hm Hv Huniq.
  assert (ProfileUpdateView.view db request
          = (Ok (HttpResponseRedirect (Route.blog_profile (User.username v))),
             set_users (insert uid v) db)) as ->.
  { unfold ProfileUpdateView.view, ProfileUpdateView.dispatch.
    rewrite (LoginRequiredMixin_authenticated _ _ _ uid Hu), Hu, Hm.
    unfold ProfileUpdateView.get_object, get_pk. rewrite Hl. simpl. by rewrite Hv. }
  simpl. intros Huniq'.
  exists (filter (λ r, Post.author (post r) = uid) (ProfileDetailView.prefetch_queryset db)).
  split; [done|]. split; [by apply ProfileDetailView_get_object_found|]. split.
  - rewrite (ProfileDetailView_get_object_found _ _ uid v Huniq'); [done| |done].
    simpl. apply lookup_insert_eq.
  - intros Hne. apply ProfileDetailView_get_object_missing.
    intros uid' u' Hl' Heq. simpl in Hl'.
    destruct (decide (uid' = uid)) as [->|Hother].
    + rewrite lookup_insert_eq in Hl'. congruence.
    + rewrite lookup_insert_ne in Hl' by done.
      apply Hother. by apply (Huniq uid' u' uid u).
Qed.

Lemma profile_found_under_new_username_witness :
  ∃ rows,
    ProfileDetailView.get_object Demo.db "alice" = Ok ((1%nat, Demo.alice), rows)
    ∧ ProfileDetailView.get_object
        (ProfileUpdateView.view (models := Demo.models) Demo.db
           (Demo.post (Some 1%nat) [("username", "alicia"); ("first_name", "Alice")])).2
        "alicia"
      = Ok ((1%nat, User.mk "alicia" "Alice" "" "" (User.password Demo.alice)
                      false true false), rows)
    ∧ ProfileDetailView.get_object
        (ProfileUpdateView.view (models := Demo.models) Demo.db
           (Demo.post (Some 1%nat) [("username", "alicia"); ("first_name", "Alice")])).2
        "alice"
      = Raise Http404.
Proof.
  destruct (profile_found_under_new_username (models := Demo.models) Demo.db
              (Demo.post (Some 1%nat) [("username", "alicia"); ("first_name", "Alice")])
              1 Demo.alice
              (User.mk "alicia" "Alice" "" "" (User.password Demo.alice) false true false)
              eq_refl eq_refl eq_refl eq_refl Demo_username_unique)
    as (rows & _ & Hold & Hnew & Hgone).
  { apply username_unique_check. apply (bool_decide_unpack _). by vm_compute. }
  exists rows. split; [exact Hold|]. split; [exact Hnew|]. by apply Hgone.
Defined.

(** X15. A valid submission of the post form stores one new post, written by
    the requester, with the default [is_published] flag and the current time
    as creation time, and redirects to the requester's profile page; that
    page then lists the new post, whether or not it is visible elsewhere,
    along with every post it listed before. *)
Theorem created_post_on_author_profile {models : Models} (db : Db) (now : Z)
    (request : Request.t) (uid : nat) (u : User.t) (c : PostForm.cleaned_data) :
  Request.user request = Some uid →
  users db !! uid = Some u →
  Request.method request = Method.POST →
  PostForm.is_valid db (Request.POST request) = Some c →
  username_unique db →
  ∃ k p rows rows',
    posts db !! k = None
    ∧ PostCreateView.view db now request
      = (Ok (HttpResponseRedirect (Route.blog_profile (User.username u))),
         set_posts (insert k p) db)
    ∧ (Post.author p, Post.is_published p, Post.created_at p)
      = (uid, Post_is_published_default, now)
    ∧ (Post.title p, Post.text p, Post.pub_date p)
      = (PostForm.title c, PostForm.text c, PostForm.pub_date c)
    ∧ ProfileDetailView.get_object db (User.username u) = Ok ((uid, u), rows)
    ∧ ProfileDetailView.get_object (set_posts (insert k p) db) (User.username u)
      = Ok ((uid, u), rows')
    ∧ mkPostRow k p (Some (Count_comments db k)) ∈ rows'
    ∧ (∀ r, r ∈ rows → r ∈ rows').
Proof.
  intros Hu Hl Hm Hv Huniq.
  pose proof (next_pk_fresh (posts db)) as Hfresh.
  set (k := next_pk (posts db)) in *.
  set (p := PostForm.save c
              (Post.mk "" "" 0 Post_is_published_default uid None None "" now)).
  exists k, p.
  exists (filter (λ r, Post.author (post r) = uid) (ProfileDetailView.prefetch_queryset db)).
  exists (filter (λ r, Post.author (post r) = uid)
            (ProfileDetailView.prefetch_queryset (set_posts (insert k p) db))).
  split; [done|]. split.
  { unfold PostCreateView.view, PostCreateView.dispatch.
    rewrite (LoginRequiredMixin_authenticated _ _ _ uid Hu), Hu, Hm, Hv.
    unfold PostCreateView.form_valid, PostCreateView.get_success_url, get_pk.
    simpl. by rewrite Hl. }
  split; [done|]. split; [done|].
  split; [by apply ProfileDetailView_get_object_found|].
  split; [by apply ProfileDetailView_get_object_found|].
  split.
  - apply list_elem_of_filter. split; [done|].
    apply elem_of_prefetch. split; [simpl; apply lookup_insert_eq|done].
  - intros r Hin. apply list_elem_of_filter in Hin as [Ha Hin].
    apply elem_of_prefetch in Hin as [Hrow Hcount].
    apply list_elem_of_filter. split; [done|].
    apply elem_of_prefetch. split; [|done]. simpl.
    rewrite lookup_insert_ne; [done|]. intros Heq. by rewrite <- Heq, Hfresh in Hrow.
Qed.

Lemma created_post_on_author_profile_witness :
  ∃ k p rows',
    PostCreateView.view (models := Demo.models) Demo.db Demo.now
      (Demo.post (Some 2%nat) [("title", "Soon"); ("pub_date", "01.01.2100")])
    = (Ok (HttpResponseRedirect (Route.blog_profile "bob")),
       set_posts (insert k p) Demo.db)
    ∧ Post.pub_date p = 4102444800
    ∧ ¬ visibility_filter (set_posts (insert k p) Demo.db) Demo.now p
    ∧ ProfileDetailView.get_object (set_posts (insert k p) Demo.db) "bob"
      = Ok ((2%nat, Demo.bob), rows')
    ∧ (∃ r, r ∈ rows' ∧ pk r = k ∧ post r = p).
Proof.
  destruct (created_post_on_author_profile (models := Demo.models) Demo.db Demo.now
              (Demo.post (Some 2%nat) [("title", "Soon"); ("pub_date", "01.01.2100")])
              2 Demo.bob (PostForm.mk "Soon" "" 4102444800 None None "")
              eq_refl eq_refl eq_refl eq_refl Demo_username_unique)
    as (k & p & rows & rows' & _ & Hview & _ & Hfields & _ & Hprofile & Hin & _).
  injection Hfields as _ _ Hdate.
  exists k, p, rows'. split; [exact Hview|]. split; [exact Hdate|]. split.
  - intros (_ & _ & Hnow). rewrite Hdate in Hnow. by vm_compute in Hnow.
  - split; [exact Hprofile|]. eexists. split; [exact Hin|done].
Defined.

(** ** The date the post form reads *)

Section matcher_facts.

Lemma consumes_ret {A} (a : A) : consumes (Py.m_ret a) 0 0.
Proof.
  intros s a' rest Hin. apply list_elem_of_singleton in Hin as [= -> ->].
  by exists [].
Qed.

Lemma consumes_digit lo hi : consumes (Py.m_digit lo hi) 1 1.
Proof.
  intros [|c s] a rest Hin; simpl in Hin; [by apply elem_of_nil in Hin|].
  destruct (_ && _); [|by apply elem_of_nil in Hin].
  apply list_elem_of_singleton in Hin as [= -> ->]. by exists [c].
Qed.

Lemma consumes_char c : consumes (Py.m_char c) 1 1.
Proof.
  intros [|c' s] a rest Hin; simpl in Hin; [by apply elem_of_nil in Hin|].
  destruct (bool_decide _); [|by apply elem_of_nil in Hin].
  apply list_elem_of_singleton in Hin as [= -> ->]. by exists [c'].
Qed.

Lemma consumes_bind {A B} (m : Py.matcher A) (f : A → Py.matcher B) lo1 hi1 lo2 hi2 :
  consumes m lo1 hi1 → (∀ a, consumes (f a) lo2 hi2) →
  consumes (Py.m_bind m f) (lo1 + lo2) (hi1 + hi2).
Proof.
  intros Hm Hf s b rest Hin. unfold Py.m_bind in Hin.
  apply list_elem_of_bind in Hin as ([a s'] & Hin2 & Hin1).
  apply Hm in Hin1 as (pre1 & -> & Hlen1).
  apply Hf in Hin2 as (pre2 & -> & Hlen2).
  exists (pre1 ++ pre2). rewrite length_app. split; [by rewrite (assoc_L (++))|lia].
Qed.

Lemma consumes_alt {A} (m1 m2 : Py.matcher A) lo hi :
  consumes m1 lo hi → consumes m2 lo hi → consumes (Py.m_alt m1 m2) lo hi.
Proof.
  intros H1 H2 s a rest Hin. unfold Py.m_alt in Hin.
  apply elem_of_app in Hin as [Hin|Hin]; eauto.
Qed.

Lemma consumes_weaken {A} (m : Py.matcher A) lo hi lo' hi' :
  consumes m lo hi → (lo' ≤ lo)%nat → (hi ≤ hi')%nat → consumes m lo' hi'.
Proof.
  intros Hm Hlo Hhi s a rest Hin. apply Hm in Hin as (pre & -> & Hlen).
  exists pre. split; [done|lia].
Qed.

Lemma consumes_two a b c d : consumes (Py.m_two a b c d) 2 2.
Proof.
  unfold Py.m_two.
  apply (consumes_bind _ _ 1 1 1 1); [apply consumes_digit|]. intros x.
  apply (consumes_bind _ _ 1 1 0 0); [apply consumes_digit|]. intros y.
  apply consumes_ret.
Qed.

Lemma consumes_re_d : consumes Py.re_d 1 2.
Proof.
  unfold Py.re_d.
  repeat apply consumes_alt;
    try (apply (consumes_weaken _ 2 2); [apply consumes_two|lia|lia]);
    try (apply (consumes_weaken _ 1 1); [apply consumes_digit|lia|lia]).
  apply (consumes_bind _ _ 1 1 0 1); [apply consumes_char|]. intros _.
  apply (consumes_weaken _ 1 1); [apply consumes_digit|lia|lia].
Qed.

Lemma consumes_re_m : consumes Py.re_m 1 2.
Proof.
  unfold Py.re_m.
  repeat apply consumes_alt;
    try (apply (consumes_weaken _ 2 2); [apply consumes_two|lia|lia]);
    try (apply (consumes_weaken _ 1 1); [apply consumes_digit|lia|lia]).
Qed.

Lemma consumes_re_Y : consumes Py.re_Y 4 4.
Proof.
  unfold Py.re_Y.
  apply (consumes_bind _ _ 1 1 3 3); [apply consumes_digit|]. intros a.
  apply (consumes_bind _ _ 1 1 2 2); [apply consumes_digit|]. intros b.
  apply (consumes_bind _ _ 1 1 1 1); [apply consumes_digit|]. intros c.
  apply (consumes_bind _ _ 1 1 0 0); [apply consumes_digit|]. intros d.
  apply consumes_ret.
Qed.

Lemma consumes_re_dmY : consumes Py.re_dmY 8 10.
Proof.
  unfold Py.re_dmY.
  apply (consumes_bind _ _ 1 2 7 8); [apply consumes_re_d|]. intros d.
  apply (consumes_bind _ _ 1 1 6 7); [apply consumes_char|]. intros _.
  apply (consumes_bind _ _ 1 2 5 5); [apply consumes_re_m|]. intros m.
  apply (consumes_bind _ _ 1 1 4 4); [apply consumes_char|]. intros _.
  apply (consumes_bind _ _ 4 4 0 0); [apply consumes_re_Y|]. intros y.
  apply consumes_ret.
Qed.

Lemma strptime_dmY_too_long s :
  (10 < length s)%nat → Py.strptime_dmY s = Raise ValueError.
Proof.
  intros Hlen. unfold Py.strptime_dmY.
  destruct (Py.re_dmY s) as [|[[[d m] y] rest] l] eqn:E; [done|].
  destruct rest as [|c rest]; [|done].
  assert (((d, m, y), []) ∈ Py.re_dmY s) as Hin by (rewrite E; left).
  apply consumes_re_dmY in Hin as (pre & -> & Hpre).
  rewrite app_nil_r in Hlen. lia.
Qed.

End matcher_facts.

(** X16. The format [%d.%m.%Y] reads a day, a month and a year and nothing
    else: a text it accepts is 8 to 10 characters long, and the instant it
    yields is a midnight.  No time of day can be entered through it. *)
Theorem strptime_dmY_reads_dates_only (s : list ascii) (t : Z) :
  Py.strptime_dmY s = Ok t →
  (8 ≤ length s ≤ 10)%nat ∧ t mod 86400 = 0.
Proof.
  unfold Py.strptime_dmY.
  destruct (Py.re_dmY s) as [|[[[d m] y] rest] l] eqn:E; [done|].
  destruct rest as [|c rest]; [|done].
  assert (((d, m, y), []) ∈ Py.re_dmY s) as Hin by (rewrite E; left).
  apply consumes_re_dmY in Hin as (pre & -> & Hpre).
  rewrite app_nil_r. unfold Py.datetime.
  destruct (_ && _); [|done]. intros [= <-]. split; [done|].
  apply Z.mod_mul. lia.
Qed.

Lemma strptime_dmY_reads_dates_only_witness :
  Py.strptime_dmY (String.list_ascii_of_string "5.3.2021") = Ok 1614902400
  ∧ 1614902400 mod 86400 = 0.
Proof.
  split; [reflexivity|].
  by apply (strptime_dmY_reads_dates_only (String.list_ascii_of_string "5.3.2021")).
Defined.

Section date_text_facts.

(** When the first way [m] matches leaves a dot in front and every other way
    does not, only the first way goes on past the dot. *)
Lemma bind_past_dot {A B} (m : Py.matcher A) (k : A → Py.matcher B)
    (s rest : list ascii) (a : A) (l : list (A * list ascii)) :
  m s = (a, "."%char :: rest) :: l →
  Forall (λ x, Py.m_char "." x.2 = []) l →
  Py.m_bind m (λ a', Py.m_bind (Py.m_char ".") (λ _, k a')) s = k a rest.
Proof.
  intros Hm Hl. unfold Py.m_bind at 1. rewrite Hm.
  match goal with |- _ ≫= ?F = _ => set (F' := F) end.
  rewrite bind_cons.
  assert (l ≫= F' = []) as ->.
  { clear Hm. induction Hl as [|[a' s'] l Hx Hl IH]; [done|].
    rewrite bind_cons, IH. subst F'. simpl in *.
    unfold Py.m_bind. by rewrite Hx. }
  subst F'. simpl. unfold Py.m_bind, Py.m_char. simpl. by rewrite !app_nil_r.
Qed.

Ltac run_matcher :=
  eexists; split; [vm_compute; reflexivity | repeat constructor].

Lemma re_d_results (d : Z) (rest : list ascii) :
  1 ≤ d ≤ 31 →
  ∃ l, Py.re_d (two_digits d ++ "."%char :: rest) = (d, "."%char :: rest) :: l
       ∧ Forall (λ x, Py.m_char "." x.2 = []) l.
Proof.
  intros Hd.
  assert (∃ n : nat, d = Z.of_nat n ∧ (1 ≤ n ≤ 31)%nat) as (n & -> & Hn)
    by (exists (Z.to_nat d); lia).
  do 32 (destruct n as [|n]; [first [lia | run_matcher]|]). lia.
Qed.

Lemma re_m_results (m : Z) (rest : list ascii) :
  1 ≤ m ≤ 12 →
  ∃ l, Py.re_m (two_digits m ++ "."%char :: rest) = (m, "."%char :: rest) :: l
       ∧ Forall (λ x, Py.m_char "." x.2 = []) l.
Proof.
  intros Hm.
  assert (∃ n : nat, m = Z.of_nat n ∧ (1 ≤ n ≤ 12)%nat) as (n & -> & Hn)
    by (exists (Z.to_nat m); lia).
  do 13 (destruct n as [|n]; [first [lia | run_matcher]|]). lia.
Qed.

Lemma re_d_then_dot {B} (k : Z → Py.matcher B) (d : Z) (rest : list ascii) :
  1 ≤ d ≤ 31 →
  Py.m_bind Py.re_d (λ d', Py.m_bind (Py.m_char ".") (λ _, k d'))
    (two_digits d ++ "."%char :: rest)
  = k d rest.
Proof.
  intros Hd. destruct (re_d_results d rest Hd) as (l & Hm & Hl).
  by apply (bind_past_dot _ _ _ _ _ l).
Qed.

Lemma re_m_then_dot {B} (k : Z → Py.matcher B) (m : Z) (rest : list ascii) :
  1 ≤ m ≤ 12 →
  Py.m_bind Py.re_m (λ m', Py.m_bind (Py.m_char ".") (λ _, k m'))
    (two_digits m ++ "."%char :: rest)
  = k m rest.
Proof.
  intros Hm. destruct (re_m_results m rest Hm) as (l & Hr & Hl).
  by apply (bind_past_dot _ _ _ _ _ l).
Qed.

Lemma digit_char_digit (n : Z) :
  0 ≤ n ≤ 9 →
  Py.py_isdigit (digit_char n) = true ∧ Py.digit_value (digit_char n) = n
  ∧ Py.py_isspace (digit_char n) = false.
Proof.
  intros Hn.
  assert (∃ i : nat, n = Z.of_nat i ∧ (i ≤ 9)%nat) as (i & -> & Hi)
    by (exists (Z.to_nat n); lia).
  do 10 (destruct i as [|i]; [by vm_compute|]). lia.
Qed.

Lemma m_digit_digit_char (n : Z) (s : list ascii) :
  0 ≤ n ≤ 9 → Py.m_digit 0 9 (digit_char n :: s) = [(n, s)].
Proof.
  intros Hn. destruct (digit_char_digit n Hn) as (Hd & Hv & _).
  unfold Py.m_digit. rewrite Hd, Hv. by rewrite bool_decide_eq_true_2.
Qed.

Lemma four_digits_of (y : Z) :
  0 ≤ y ≤ 9999 →
  (0 ≤ y / 1000 ≤ 9) ∧ (0 ≤ y / 100 mod 10 ≤ 9) ∧ (0 ≤ y / 10 mod 10 ≤ 9)
  ∧ (0 ≤ y mod 10 ≤ 9)
  ∧ 1000 * (y / 1000) + 100 * (y / 100 mod 10) + 10 * (y / 10 mod 10) + y mod 10 = y.
Proof. intros Hy. Z.to_euclidean_division_equations. lia. Qed.

Lemma bind_digit_char {B} (k : Z → Py.matcher B) (n : Z) (s : list ascii) :
  0 ≤ n ≤ 9 → Py.m_bind (Py.m_digit 0 9) k (digit_char n :: s) = k n s.
Proof.
  intros Hn. unfold Py.m_bind. rewrite (m_digit_digit_char _ _ Hn).
  rewrite bind_cons. simpl. apply app_nil_r.
Qed.

Lemma re_Y_digits (y : Z) (rest : list ascii) :
  0 ≤ y ≤ 9999 → Py.re_Y (four_digits y ++ rest) = [(y, rest)].
Proof.
  intros Hy. destruct (four_digits_of y Hy) as (Ha & Hb & Hc & He & Hsum).
  unfold Py.re_Y, four_digits.
  change ([?a; ?b; ?c; ?d] ++ rest) with (a :: b :: c :: d :: rest).
  rewrite (bind_digit_char _ _ _ Ha), (bind_digit_char _ _ _ Hb),
    (bind_digit_char _ _ _ Hc), (bind_digit_char _ _ _ He).
  unfold Py.m_ret. by rewrite Hsum.
Qed.

Lemma re_Y_then {B} (k : Z → Py.matcher B) (y : Z) (rest : list ascii) :
  0 ≤ y ≤ 9999 →
  Py.m_bind Py.re_Y k (four_digits y ++ rest) = k y rest.
Proof.
  intros Hy. unfold Py.m_bind. rewrite (re_Y_digits y rest Hy).
  rewrite bind_cons. simpl. apply app_nil_r.
Qed.

End date_text_facts.

(** X17. A real date written as [DD.MM.YYYY], each part with its leading
    zeros, is read back as that date: the instant the field yields is the
    midnight that [datetime(year, month, day)] stands for. *)
Theorem strptime_dmY_reads_back (year month day t : Z) :
  Py.datetime year month day = Some t →
  Py.strptime_dmY (strftime_dmY year month day) = Ok t.
Proof.
  intros Hdate.
  assert (1 ≤ year ≤ 9999 ∧ 1 ≤ month ≤ 12 ∧ 1 ≤ day ≤ 31) as (Hy & Hm & Hd).
  { assert (Py._days_in_month year month ≤ 31);
      [|unfold Py.datetime in Hdate; repeat case_bool_decide; simpl in Hdate;
        try done; lia].
    unfold Py._days_in_month. destruct (_ && _); [lia|].
    assert (Forall (λ n, n ≤ 31) Py._DAYS_IN_MONTH) as Hall
      by (repeat constructor; lia).
    destruct (Py._DAYS_IN_MONTH !! Z.to_nat month) as [n|] eqn:El; simpl; [|lia].
    by apply (Forall_lookup_1 _ _ _ _ Hall El). }
  unfold Py.strptime_dmY, Py.re_dmY, strftime_dmY.
  rewrite (re_d_then_dot _ day _ Hd), (re_m_then_dot _ month _ Hm).
  rewrite <- (app_nil_r (four_digits year)).
  rewrite (re_Y_then _ year [] ltac:(lia)).
  unfold Py.m_ret. by rewrite Hdate.
Qed.

Lemma strptime_dmY_reads_back_witness :
  strftime_dmY 2024 2 29 = String.list_ascii_of_string "29.02.2024"
  ∧ Py.strptime_dmY (strftime_dmY 2024 2 29) = Ok 1709164800.
Proof.
  split; [reflexivity|].
  by apply (strptime_dmY_reads_back 2024 2 29 1709164800).
Defined.

(** X18. What the widget of [pub_date] renders, the field rejects: whatever
    the instant, its text in the widget's format [%d.%m.%Y %H:%M:%S] fails
    validation.  A post form shown with a stored date cannot be sent back
    unchanged. *)
Theorem widget_text_is_rejected {models : Models} (year month day hour minute second : Z) :
  1000 ≤ year ≤ 9999 → 1 ≤ month ≤ 12 → 1 ≤ day ≤ 31 →
  0 ≤ hour ≤ 23 → 0 ≤ minute ≤ 59 → 0 ≤ second ≤ 59 →
  PostForm.pub_date_clean
    (String.string_of_list_ascii (strftime_widget year month day hour minute second))
  = None.
Proof.
  intros Hy Hm Hd HH HM HS. unfold PostForm.pub_date_clean.
  rewrite bool_decide_eq_false_2 by done.
  rewrite String.list_ascii_of_string_of_list_ascii.
  assert (0 ≤ day / 10 ≤ 9) as Hd1 by (Z.to_euclidean_division_equations; lia).
  assert (0 ≤ day mod 10 ≤ 9) as Hd2 by (Z.to_euclidean_division_equations; lia).
  assert (0 ≤ second mod 10 ≤ 9) as Hs2 by (Z.to_euclidean_division_equations; lia).
  destruct (digit_char_digit _ Hd1) as (Hdig1 & _ & Hsp1).
  destruct (digit_char_digit _ Hd2) as (Hdig2 & _ & _).
  destruct (digit_char_digit _ Hs2) as (_ & _ & Hsp2).
  assert (Py.strip (strftime_widget year month day hour minute second)
          = strftime_widget year month day hour minute second) as ->.
  { unfold Py.strip, strftime_widget, strftime_dmY, two_digits, four_digits.
    cbn [app Py.lstrip]. rewrite Hsp1. cbn [reverse rev_append Py.lstrip].
    rewrite Hsp2. cbn [rev_append]. done. }
  assert (PostForm.parse_datetime (strftime_widget year month day hour minute second)
          = Ok None) as ->.
  { unfold PostForm.parse_datetime, strftime_widget, strftime_dmY, two_digits.
    cbn [app]. by rewrite Hdig1, Hdig2. }
  unfold PostForm.input_formats, PostForm.try_formats.
  by rewrite strptime_dmY_too_long by (cbn; lia).
Qed.

Lemma widget_text_is_rejected_witness :
  strftime_widget 2020 1 1 0 0 0 = String.list_ascii_of_string "01.01.2020 00:00:00"
  ∧ PostForm.pub_date_clean (models := Demo.models)
      (String.string_of_list_ascii (strftime_widget 2020 1 1 0 0 0)) = None
  ∧ PostForm.pub_date_clean (models := Demo.models)
      (String.string_of_list_ascii (strftime_widget 2031 12 24 18 30 5)) = None.
Proof.
  split; [reflexivity|]. split.
  - apply (widget_text_is_rejected (models := Demo.models) 2020 1 1 0 0 0); lia.
  - apply (widget_text_is_rejected (models := Demo.models) 2031 12 24 18 30 5); lia.
Defined.

(** ** What the profile form reads *)

(** X19. The profile view reads the requester, the method and the four posted
    values [first_name], [last_name], [email] and [username], and nothing
    else: two requests that agree on these get the same answer and leave the
    same database, whatever else they post. *)
Theorem ProfileUpdateView_reads_four_keys {models : Models} (db : Db)
    (request1 request2 : Request.t) :
  Request.user request1 = Request.user request2 →
  Request.method request1 = Request.method request2 →
  (∀ name, name ∈ ["first_name"; "last_name"; "email"; "username"] →
           Request.POST request1 !! name = Request.POST request2 !! name) →
  ProfileUpdateView.view db request1 = ProfileUpdateView.view db request2.
Proof.
  intros Hu Hm Hdata.
  assert (∀ uid u, ProfileUpdateForm.is_valid db uid u (Request.POST request1)
                   = ProfileUpdateForm.is_valid db uid u (Request.POST request2)) as Hv.
  { intros uid u. unfold ProfileUpdateForm.is_valid.
    rewrite ProfileUpdateForm_fields. simpl.
    rewrite !Hdata; [done|..]; apply (bool_decide_unpack _); by vm_compute. }
  assert (∀ u, ProfileUpdateForm.rejected_instance (Request.POST request1) u
               = ProfileUpdateForm.rejected_instance (Request.POST request2) u) as Hr.
  { intros u. unfold ProfileUpdateForm.rejected_instance.
    rewrite ProfileUpdateForm_fields. simpl.
    rewrite !Hdata; [done|..]; apply (bool_decide_unpack _); by vm_compute. }
  unfold ProfileUpdateView.view, ProfileUpdateView.dispatch, LoginRequiredMixin.dispatch,
    AccessMixin.handle_no_permission, Request.is_authenticated.
  rewrite Hu, Hm. destruct (Request.user request2) as [uid|]; simpl; [|done].
  destruct (ProfileUpdateView.get_object db uid) as [u|]; simpl;
    [|by destruct (Request.method request2)].
  by rewrite Hv, Hr.
Qed.

Lemma ProfileUpdateView_reads_four_keys_witness :
  ProfileUpdateView.view (models := Demo.models) Demo.db
    (Demo.post (Some 2%nat)
       [("username", "robert"); ("password", "letmein"); ("is_superuser", "on")])
  = ProfileUpdateView.view (models := Demo.models) Demo.db
      (Demo.post (Some 2%nat) [("username", "robert")]).
Proof.
  apply (ProfileUpdateView_reads_four_keys (models := Demo.models)); [done|done|].
  intros name Hin.
  repeat (apply elem_of_cons in Hin as [-> | Hin]; [by vm_compute|]).
  by apply elem_of_nil in Hin.
Defined.
